(** * Incremental market-data updater: merge and fetch-window logic

    A shallow embedding of [MarketDataManager] (daily_market_price.py):
    the insertion-ordered dictionaries the program manipulates, the
    [merge_data] routine, the fetch-window decision of [process_market],
    the persistence step and the per-class failure isolation of [run]. *)

From Stdlib Require Import ZArith Lia Bool List String Ascii.
From Stdlib Require Import Sorting.Sorted Sorting.Permutation.
Import ListNotations.

Local Open Scope string_scope.
Local Open Scope list_scope.
Local Open Scope Z_scope.

(** ** Python values carried in a time series

    Observations are floats that the program stores and moves but never
    computes with.  The only operations the runtime may apply to them are
    the rich comparisons [==] and [<] used by tuple comparison inside
    [sorted].  They are kept abstract behind this interface. *)

Class PyOrd (V : Type) := {
  py_eq : V -> V -> bool;
  py_lt : V -> V -> bool
}.

#[export] Instance PyOrd_Z : PyOrd Z := {| py_eq := Z.eqb; py_lt := Z.ltb |}.

(** ** Insertion-ordered dictionaries keyed by [str]

    A Python [dict] keeps its keys in insertion order; assigning to an
    existing key replaces the value in place. *)

Module PyDict.
Section Ops.
Context {A : Type}.

Definition dict := list (string * A).

Definition keys (d : list (string * A)) : list string := map fst d.

Definition items (d : list (string * A)) : list (string * A) := d.

(** [d.get(k)] *)
Fixpoint get (k : string) (d : list (string * A)) : option A :=
  match d with
  | [] => None
  | (k', v) :: r => if String.eqb k k' then Some v else get k r
  end.

(** [k in d] *)
Definition mem (k : string) (d : list (string * A)) : bool :=
  match get k d with Some _ => true | None => false end.

(** [d[k] = v] *)
Fixpoint set (k : string) (v : A) (d : list (string * A)) : list (string * A) :=
  match d with
  | [] => [(k, v)]
  | (k', v') :: r =>
      if String.eqb k k' then (k, v) :: r else (k', v') :: set k v r
  end.

(** [d.update(new)] *)
Definition update (d new : list (string * A)) : list (string * A) :=
  fold_left (fun acc kv => set (fst kv) (snd kv) acc) new d.

(** [dict(pairs)] *)
Definition of_items (l : list (string * A)) : list (string * A) :=
  update [] l.

(** truthiness: [not d] holds exactly for the empty dict *)
Definition is_empty (d : list (string * A)) : bool :=
  match d with [] => true | _ => false end.

(** Keys of a dictionary are pairwise distinct. *)
Definition wf (d : list (string * A)) : Prop := NoDup (keys d).

Fixpoint wfb (d : list (string * A)) : bool :=
  match d with
  | [] => true
  | (k, _) :: r => negb (mem k r) && wfb r
  end.
End Ops.
Arguments dict A : clear implicits.
End PyDict.

(** ** [sorted] on a list of [(key, value)] tuples *)

Section Sorted.
Context {V : Type} `{PyOrd V}.

(** Tuple comparison: the first position where the tuples differ
    decides. *)
Definition tuple_lt (a b : string * V) : bool :=
  if String.eqb (fst a) (fst b)
  then (if py_eq (snd a) (snd b) then false else py_lt (snd a) (snd b))
  else String.ltb (fst a) (fst b).

Fixpoint insert_sorted (x : string * V) (l : list (string * V)) :=
  match l with
  | [] => [x]
  | y :: r => if tuple_lt y x then y :: insert_sorted x r else x :: y :: r
  end.

(** A stable sort. *)
Fixpoint py_sorted (l : list (string * V)) : list (string * V) :=
  match l with
  | [] => []
  | x :: r => insert_sorted x (py_sorted r)
  end.

(** [MarketDataManager.merge_data] (the [ticker] argument is unused). *)
Definition merge_data (existing_data new_data : PyDict.dict V) : PyDict.dict V :=
  if PyDict.is_empty existing_data then new_data
  else
    let merged := PyDict.update existing_data new_data in
    PyDict.of_items (py_sorted (PyDict.items merged)).
End Sorted.

(** ** Calendar arithmetic of [datetime]

    Dates are proleptic Gregorian, years 1 to 9999.  Day arithmetic goes
    through the ordinal of a date (0001-01-01 is day 1), as the runtime's
    [datetime] does. *)

Module Calendar.

Record date := mkdate { year : Z; month : Z; day : Z }.

Definition is_leap (y : Z) : bool :=
  (y mod 4 =? 0) && (negb (y mod 100 =? 0) || (y mod 400 =? 0)).

Definition DAYS_IN_MONTH : list Z :=
  [-1; 31; 28; 31; 30; 31; 30; 31; 31; 30; 31; 30; 31].

Definition DAYS_BEFORE_MONTH : list Z :=
  [-1; 0; 31; 59; 90; 120; 151; 181; 212; 243; 273; 304; 334].

Definition table (t : list Z) (m : Z) : Z := nth (Z.to_nat m) t (-1).

Definition days_in_month (y m : Z) : Z :=
  if (m =? 2) && is_leap y then 29 else table DAYS_IN_MONTH m.

Definition days_before_month (y m : Z) : Z :=
  table DAYS_BEFORE_MONTH m + (if (2 <? m) && is_leap y then 1 else 0).

Definition days_before_year (y : Z) : Z :=
  let p := y - 1 in p * 365 + p / 4 - p / 100 + p / 400.

Definition ymd2ord (y m d : Z) : Z :=
  days_before_year y + days_before_month y m + d.

Definition toordinal (t : date) : Z := ymd2ord (year t) (month t) (day t).

Definition DI400Y : Z := 146097.
Definition DI100Y : Z := 36524.
Definition DI4Y : Z := 1461.
Definition MAXORDINAL : Z := 3652059.

Definition ord2ymd (n : Z) : date :=
  let n := n - 1 in
  let n400 := n / DI400Y in
  let n := n mod DI400Y in
  let y := n400 * 400 + 1 in
  let n100 := n / DI100Y in
  let n := n mod DI100Y in
  let n4 := n / DI4Y in
  let n := n mod DI4Y in
  let n1 := n / 365 in
  let n := n mod 365 in
  let y := y + n100 * 100 + n4 * 4 + n1 in
  if (n1 =? 4) || (n100 =? 4) then mkdate (y - 1) 12 31
  else
    let leapyear := (n1 =? 3) && (negb (n4 =? 24) || (n100 =? 3)) in
    let m := Z.shiftr (n + 50) 5 in
    let preceding :=
      table DAYS_BEFORE_MONTH m + (if (2 <? m) && leapyear then 1 else 0) in
    if n <? preceding then
      let m := m - 1 in
      let preceding :=
        preceding
        - (table DAYS_IN_MONTH m + (if (m =? 2) && leapyear then 1 else 0)) in
      mkdate y m (n - preceding + 1)
    else mkdate y m (n - preceding + 1).

(** The date constructor's range check. *)
Definition valid (t : date) : bool :=
  (1 <=? year t) && (year t <=? 9999)
  && (1 <=? month t) && (month t <=? 12)
  && (1 <=? day t) && (day t <=? days_in_month (year t) (month t)).

(** [t + timedelta(days=n)]; [None] is [OverflowError]. *)
Definition add_days (t : date) (n : Z) : option date :=
  let o := toordinal t + n in
  if (0 <? o) && (o <=? MAXORDINAL) then Some (ord2ymd o) else None.

(** [a < b] on dates (both at midnight). *)
Definition ltb (a b : date) : bool :=
  (year a <? year b)
  || ((year a =? year b)
      && ((month a <? month b)
          || ((month a =? month b) && (day a <? day b)))).

(** The day before [t] read off the calendar, without ordinals. *)
Definition pred_day (t : date) : date :=
  if 1 <? day t then mkdate (year t) (month t) (day t - 1)
  else if 1 <? month t
       then mkdate (year t) (month t - 1)
                   (days_in_month (year t) (month t - 1))
       else mkdate (year t - 1) 12 31.

(** *** [strftime('%Y-%m-%d')]

    The year is printed with four digits.  For the years 1000 to 9999
    this is the text every platform prints; below 1000 the C library
    behind [strftime] may leave the year unpadded, so what is proved
    about the printed text of a date is stated for the years from 1000
    on. *)

Definition digit_char (n : Z) : ascii := ascii_of_N (Z.to_N (48 + n)).

Definition pad2 (n : Z) (k : string) : string :=
  String (digit_char (n / 10)) (String (digit_char (n mod 10)) k).

Definition pad4 (n : Z) (k : string) : string :=
  String (digit_char (n / 1000))
    (String (digit_char ((n / 100) mod 10)) (pad2 (n mod 100) k)).

Definition strftime (t : date) : string :=
  pad4 (year t) (String "-" (pad2 (month t) (String "-" (pad2 (day t) "")))).

(** *** [strptime(s, '%Y-%m-%d')]

    The year is exactly four digits; month and day take the first
    alternative that matches among the two-digit forms, the one-digit
    form and, for the day, a blank followed by a digit.  [None] is
    [ValueError].  A digit is one of the ASCII digits, those of the
    keys the program writes; the decimal digits of other scripts,
    which the runtime's pattern would accept too, are rejected here. *)

Definition digit_val (c : ascii) : option Z :=
  let n := Z.of_N (N_of_ascii c) in
  if (48 <=? n) && (n <=? 57) then Some (n - 48) else None.

Definition field2 (ok : Z -> Z -> bool) (l : list ascii)
  : option (Z * list ascii) :=
  match l with
  | a :: b :: r =>
      match digit_val a, digit_val b with
      | Some x, Some y => if ok x y then Some (10 * x + y, r) else None
      | _, _ => None
      end
  | _ => None
  end.

Definition field1 (l : list ascii) : option (Z * list ascii) :=
  match l with
  | a :: r =>
      match digit_val a with
      | Some x => if 1 <=? x then Some (x, r) else None
      | None => None
      end
  | [] => None
  end.

Definition month_ok (x y : Z) : bool :=
  ((x =? 1) && (y <=? 2)) || ((x =? 0) && (1 <=? y)).

Definition day_ok (x y : Z) : bool :=
  ((x =? 3) && (y <=? 1)) || ((1 <=? x) && (x <=? 2))
  || ((x =? 0) && (1 <=? y)).

Definition month_field (l : list ascii) : option (Z * list ascii) :=
  match field2 month_ok l with
  | Some p => Some p
  | None => field1 l
  end.

Definition day_field (l : list ascii) : option (Z * list ascii) :=
  match field2 day_ok l with
  | Some p => Some p
  | None =>
      match field1 l with
      | Some p => Some p
      | None =>
          match l with
          | " "%char :: r => field1 r
          | _ => None
          end
      end
  end.

Definition year_field (l : list ascii) : option (Z * list ascii) :=
  match l with
  | a :: b :: c :: d :: r =>
      match digit_val a, digit_val b, digit_val c, digit_val d with
      | Some x3, Some x2, Some x1, Some x0 =>
          Some (1000 * x3 + 100 * x2 + 10 * x1 + x0, r)
      | _, _, _, _ => None
      end
  | _ => None
  end.

Definition strptime (s : string) : option date :=
  match year_field (list_ascii_of_string s) with
  | Some (y, "-"%char :: r1) =>
      match month_field r1 with
      | Some (m, "-"%char :: r2) =>
          match day_field r2 with
          | Some (d, []) =>
              let t := mkdate y m d in
              if valid t then Some t else None
          | _ => None
          end
      | _ => None
      end
  | _ => None
  end.

(** A date key in canonical ISO form: it parses, and printing the
    parsed date gives the key back. *)
Definition is_iso_date (s : string) : bool :=
  match strptime s with
  | Some t => String.eqb (strftime t) s
  | None => false
  end.

End Calendar.

(** ** Static configuration tables of [MarketDataManager.__init__] *)

Definition ticker_to_ric : PyDict.dict string :=
  [ ("^GSPC", ".SPX"); ("^IXIC", ".IXIC"); ("^SOX", ".SOX"); ("^DJI", ".DJI");
    ("^TWII", ".TWII"); ("000001.SS", ".SSEC"); ("000300.SS", ".CSI300");
    ("^HSI", ".HSI"); ("^KS11", ".KS11"); ("^GDAXI", ".GDAXI");
    ("^N225", ".N225"); ("^FCHI", ".FCHI");
    ("MSFT", "MSFT.O"); ("GOOGL", "GOOGL.O"); ("AMZN", "AMZN.O");
    ("AAPL", "AAPL.O"); ("NVDA", "NVDA.O"); ("META", "META.O");
    ("TSLA", "TSLA.O"); ("AVGO", "AVGO.O"); ("AMD", "AMD.O");
    ("QCOM", "QCOM.O"); ("INTC", "INTC.O"); ("MU", "MU.O");
    ("ASML", "ASML.O"); ("NFLX", "NFLX.O"); ("MRVL", "MRVL.O");
    ("TSM", "TSM.N");
    ("2330.TW", "2330.TW"); ("2317.TW", "2317.TW"); ("2454.TW", "2454.TW");
    ("2308.TW", "2308.TW"); ("5347.TWO", "5347.TWO"); ("3443.TW", "3443.TW");
    ("3374.TWO", "3374.TWO"); ("6789.TW", "6789.TW");
    ("DGS3MO", "US3MT=RR"); ("DGS2", "US2YT=RR"); ("DGS5", "US5YT=RR");
    ("DGS10", "US10YT=RR"); ("DGS30", "US30YT=RR");
    ("DX-Y.NYB", ".DXY"); ("EURUSD=X", "EUR="); ("JPY=X", "JPY=");
    ("TWD=X", "TWD="); ("KRW=X", "KRW="); ("CNY=X", "CNY=");
    ("CL=F", "CLc1"); ("GC=F", "GCc1") ].

Definition market_data : PyDict.dict (PyDict.dict string) :=
  [ ("Equity_Index",
      [ ("^GSPC", "S&P 500"); ("^IXIC", "Nasdaq"); ("^SOX", "SOX");
        ("^DJI", "Dow Jones"); ("^TWII", "TWSE"); ("000001.SS", "SSE");
        ("000300.SS", "CSI300"); ("^HSI", "HSI"); ("^KS11", "KOSPI");
        ("^GDAXI", "DAX"); ("^N225", "Nikkei"); ("^FCHI", "CAC40") ]);
    ("US_Stocks",
      [ ("MSFT", "Microsoft"); ("GOOGL", "Google"); ("AMZN", "Amazon");
        ("AAPL", "Apple"); ("NVDA", "NVIDIA"); ("META", "Meta");
        ("TSLA", "Tesla"); ("AVGO", "Broadcom"); ("AMD", "AMD");
        ("QCOM", "Qualcomm"); ("INTC", "Intel"); ("MU", "Micron");
        ("ASML", "ASML"); ("NFLX", "Netflix"); ("MRVL", "Marvell");
        ("TSM", "TSMC ADR") ]);
    ("TW_Stocks",
      [ ("2330.TW", "TSMC"); ("2317.TW", "Hon Hai"); ("2454.TW", "MediaTek");
        ("2308.TW", "Delta"); ("5347.TWO", "Vanguard"); ("3443.TW", "Unichip");
        ("3374.TWO", "Xintec"); ("6789.TW", "VisEra") ]);
    ("US_Rates",
      [ ("DGS3MO", "UST 3M"); ("DGS2", "UST 2Y"); ("DGS5", "UST 5Y");
        ("DGS10", "UST 10Y"); ("DGS30", "UST 30Y") ]);
    ("FX",
      [ ("DX-Y.NYB", "DXY"); ("EURUSD=X", "EUR="); ("JPY=X", "JPY=");
        ("TWD=X", "TWD="); ("KRW=X", "KRW="); ("CNY=X", "CNY=") ]);
    ("Commodity",
      [ ("CL=F", "WTI Oil"); ("GC=F", "Gold") ]) ].

(** Truthiness of a [str] (and of [None], modelled as the empty string). *)
Definition truthy (s : string) : bool := negb (String.eqb s "").

(** [max(keys)]: the first greatest key; [None] on an empty iterable. *)
Definition py_max (l : list string) : option string :=
  match l with
  | [] => None
  | x :: r => Some (fold_left (fun m k => if String.ltb m k then k else m) r x)
  end.

(** ** Exceptions, results and the orchestrator's monad *)

Inductive exn : Set :=
| JSONDecodeError | ValueError | OverflowError | KeyError | OSError.

Inductive result (A : Type) : Type :=
| Ok (a : A)
| Raise (e : exn).
Arguments Ok {A} a.
Arguments Raise {A} e.

Section Manager.
Context {V : Type} `{PyOrd V}.

(** One entry of a persisted document; a loaded entry may lack the
    ["data"] member. *)
Record item := mkitem { name : string; data : option (PyDict.dict V) }.

Definition document := PyDict.dict item.

(** Content of a local file: JSON that decodes to a document, or
    content on which reading raises (text that is not JSON, bytes that
    are not text). *)
Inductive file :=
| Json (doc : document)
| Garbage.

Inductive event :=
| Processing (market : string)
| Window (market start : string)
| Saved (market : string) (doc : document)
| Uploaded (market : string) (doc : document)
| UploadFailed (market : string)
| UploadSkipped (market : string)
| NoData (market : string)
| Failed (market : string) (e : exn).

(** The mutable surroundings of one run: the files under
    [market_data/] and what has been printed or published so far. *)
Record world := mkworld {
  local : string -> option file;
  out : list event
}.

(** The collaborators, as seen during one run. *)
Record env := mkenv {
  now : Calendar.date;
  remote_get : string -> option document;
  yf_download : string -> string -> option (PyDict.dict V);
  fred_csv : string -> string -> option (PyDict.dict V);
  write_ok : string -> bool;
  put_ok : string -> bool
}.

Record manager := mkmanager { github_token : string; github_repo : string }.

Definition M (A : Type) : Type := world -> world * result A.

Definition ret {A} (a : A) : M A := fun w => (w, Ok a).
Definition raise {A} (e : exn) : M A := fun w => (w, Raise e).
Definition bind {A B} (c : M A) (k : A -> M B) : M B :=
  fun w => match c w with
           | (w', Ok a) => k a w'
           | (w', Raise e) => (w', Raise e)
           end.
Definition lift {A} (r : result A) : M A := fun w => (w, r).
Definition print (e : event) : M unit :=
  fun w => (mkworld (local w) (out w ++ [e]), Ok tt).
Definition write_file (market : string) (f : file) : M unit :=
  fun w => (mkworld (fun m => if String.eqb m market then Some f else local w m)
                    (out w), Ok tt).
Definition read_file (market : string) : M (option file) :=
  fun w => (w, Ok (local w market)).

Notation "x <- c ;; k" := (bind c (fun x => k))
  (at level 61, c at next level, right associativity).
Notation "c ;;; k" := (bind c (fun _ => k))
  (at level 61, right associativity).

Variable self : manager.
Variable E : env.

(** [load_existing_data].  A local file that cannot be read raises;
    the error is named [JSONDecodeError] here and stands for whatever
    [open] and [json.load] raise on it.  A failed remote read or cache
    write is caught (line 186) and the load returns the empty
    document; the message printed for it (line 187) is not among the
    events of the model. *)
Definition load_existing_data (market : string) : M document :=
  f <- read_file market ;;
  match f with
  | Some (Json doc) => ret doc
  | Some Garbage => raise JSONDecodeError
  | None =>
      if truthy (github_repo self) && truthy (github_token self) then
        match remote_get E market with
        | Some doc =>
            if write_ok E market
            then write_file market (Json doc) ;;; ret doc
            else ret []
        | None => ret []
        end
      else ret []
  end.

(** [download_yfinance_data]: one request per configured ticker; a
    failed request or an empty answer contributes nothing. *)
Definition download_yfinance_data (tickers_dict : PyDict.dict string)
           (start_date : string) : PyDict.dict (PyDict.dict V) :=
  fold_left
    (fun acc tn =>
       match yf_download E (fst tn) start_date with
       | Some data_dict =>
           if PyDict.is_empty data_dict then acc
           else PyDict.set (fst tn) data_dict acc
       | None => acc
       end)
    (PyDict.items tickers_dict) [].

(** [download_fred_rates] *)
Definition download_fred_rates (start_date : string)
  : PyDict.dict (PyDict.dict V) :=
  fold_left
    (fun acc sn =>
       match fred_csv E (fst sn) start_date with
       | Some rows =>
           if PyDict.is_empty rows then acc
           else PyDict.set (fst sn) rows acc
       | None => acc
       end)
    (PyDict.items
       (match PyDict.get "US_Rates" market_data with
        | Some d => d
        | None => []
        end)) [].

(** [convert_to_ric_format] *)
Definition lookup_name (ticker : string) : option string :=
  match find (fun mt => PyDict.mem ticker (snd mt)) (PyDict.items market_data) with
  | Some mt => PyDict.get ticker (snd mt)
  | None => None
  end.

Definition to_ric (ticker : string) : string :=
  match PyDict.get ticker ticker_to_ric with
  | Some ric => ric
  | None => ticker
  end.

Definition convert_to_ric_format (md : PyDict.dict (PyDict.dict V))
  : document :=
  fold_left
    (fun ric_data tp =>
       let ticker := fst tp in
       let ric := to_ric ticker in
       let nm := match lookup_name ticker with
                 | Some n => if truthy n then n else ticker
                 | None => ticker
                 end in
       PyDict.set ric (mkitem nm (Some (snd tp))) ric_data)
    (PyDict.items md) [].

(** [save_to_json] *)
Definition save_to_json (market : string) (md : PyDict.dict (PyDict.dict V))
  : M document :=
  let ric_data := convert_to_ric_format md in
  if write_ok E market then
    write_file market (Json ric_data) ;;;
    print (Saved market ric_data) ;;;
    ret ric_data
  else raise OSError.

(** [upload_to_github]: never raises. *)
Definition upload_to_github (market : string) (doc : document) : M unit :=
  if negb (truthy (github_repo self)) || negb (truthy (github_token self))
  then print (UploadSkipped market)
  else if put_ok E market then print (Uploaded market doc)
       else print (UploadFailed market).

(** The scan for the latest stored date (lines 417 to 423). *)
Definition scan_item (latest_date : option Calendar.date) (item_data : item)
  : result (option Calendar.date) :=
  match data item_data with
  | Some series =>
      if PyDict.is_empty series then Ok latest_date
      else
        match py_max (PyDict.keys series) with
        | Some item_latest_date_str =>
            match Calendar.strptime item_latest_date_str with
            | Some item_latest_date =>
                match latest_date with
                | None => Ok (Some item_latest_date)
                | Some l =>
                    if Calendar.ltb l item_latest_date
                    then Ok (Some item_latest_date)
                    else Ok latest_date
                end
            | None => Raise ValueError
            end
        | None => Raise ValueError
        end
  | None => Ok latest_date
  end.

Fixpoint scan_latest (latest_date : option Calendar.date)
         (values : list item) : result (option Calendar.date) :=
  match values with
  | [] => Ok latest_date
  | item_data :: rest =>
      match scan_item latest_date item_data with
      | Ok l => scan_latest l rest
      | Raise e => Raise e
      end
  end.

Definition shifted (t : Calendar.date) (n : Z) : result string :=
  match Calendar.add_days t n with
  | Some t' => Ok (Calendar.strftime t')
  | None => Raise OverflowError
  end.

(** The fetch-window decision (lines 412 to 432). *)
Definition start_date (is_first_run : bool) (existing_data : document)
  : result string :=
  if is_first_run || PyDict.is_empty existing_data then Ok "2020-01-01"
  else
    match scan_latest None (map snd existing_data) with
    | Raise e => Raise e
    | Ok (Some latest_date) => shifted latest_date (-1)
    | Ok None => shifted (now E) (- (365 * 5))
    end.

(** Lines 435 to 439. *)
Definition fetch_new_data (market start : string)
  : result (PyDict.dict (PyDict.dict V)) :=
  if String.eqb market "US_Rates" then Ok (download_fred_rates start)
  else
    match PyDict.get market market_data with
    | Some tickers_dict => Ok (download_yfinance_data tickers_dict start)
    | None => Raise KeyError
    end.

Definition old_prices_of (existing_data : document) (ric : string)
  : PyDict.dict V :=
  match PyDict.get ric existing_data with
  | Some it => match data it with Some s => s | None => [] end
  | None => []
  end.

(** Lines 442 to 448. *)
Definition merge_all (existing_data : document)
           (new_data : PyDict.dict (PyDict.dict V))
  : PyDict.dict (PyDict.dict V) :=
  fold_left
    (fun merged_data tp =>
       let ric := to_ric (fst tp) in
       let old_prices := old_prices_of existing_data ric in
       PyDict.set (fst tp) (merge_data old_prices (snd tp)) merged_data)
    (PyDict.items new_data) [].

(** [process_market] *)
Definition process_market (market : string) (is_first_run : bool) : M unit :=
  print (Processing market) ;;;
  existing_data <- load_existing_data market ;;
  start <- lift (start_date is_first_run existing_data) ;;
  print (Window market start) ;;;
  new_data <- lift (fetch_new_data market start) ;;
  let merged_data := merge_all existing_data new_data in
  if negb (PyDict.is_empty merged_data) then
    doc <- save_to_json market merged_data ;;
    upload_to_github market doc
  else print (NoData market).

(** [run]: every configured class in turn, each inside its own
    [try ... except Exception]. *)
Definition run_one (is_first_run : bool) (w : world) (market : string) : world :=
  match process_market market is_first_run w with
  | (w', Ok _) => w'
  | (w', Raise e) => mkworld (local w') (out w' ++ [Failed market e])
  end.

Definition run (is_first_run : bool) (w : world) : world :=
  fold_left (run_one is_first_run) (PyDict.keys market_data) w.

End Manager.

(** ** Properties stated about time series *)

(** Keys in strictly ascending lexical order (hence without repetition). *)
Definition str_lt (a b : string) : Prop := String.ltb a b = true.

Definition ascending (l : list string) : Prop := StronglySorted str_lt l.

Fixpoint ascendingb (l : list string) : bool :=
  match l with
  | [] => true
  | a :: r =>
      match r with
      | [] => true
      | b :: _ => String.ltb a b && ascendingb r
      end
  end.

(** Pairs ordered by their keys alone. *)
Definition key_lt {V : Type} (x y : string * V) : Prop :=
  str_lt (fst x) (fst y).

(** ** Auxiliary calendar notions

    The month and leap-day tables read with an explicit leap flag, and
    the last stage of [Calendar.ord2ymd], which turns a day-of-year
    index into a month and a day. *)

Module CalendarAux.
Import Calendar.

Definition dim (L : bool) (m : Z) : Z :=
  if (m =? 2) && L then 29 else table DAYS_IN_MONTH m.

Definition dbm (L : bool) (m : Z) : Z :=
  table DAYS_BEFORE_MONTH m + (if (2 <? m) && L then 1 else 0).

Definition month_day (leapyear : bool) (y n : Z) : date :=
  let m := Z.shiftr (n + 50) 5 in
  let preceding :=
    table DAYS_BEFORE_MONTH m + (if (2 <? m) && leapyear then 1 else 0) in
  if n <? preceding then
    let m := m - 1 in
    let preceding :=
      preceding
      - (table DAYS_IN_MONTH m + (if (m =? 2) && leapyear then 1 else 0)) in
    mkdate y m (n - preceding + 1)
  else mkdate y m (n - preceding + 1).

(** The leap rule on the decomposition
    [year - 1 = 400 a + 100 b + 4 c + e]. *)
Definition leap_of (b c e : Z) : bool :=
  (e =? 3) && (negb (c =? 24) || (b =? 3)).

(** Chronological order, as a proposition. *)
Definition lex_lt (a b : date) : Prop :=
  year a < year b
  \/ (year a = year b
      /\ (month a < month b \/ (month a = month b /\ day a < day b))).
End CalendarAux.

(** ** What a persisted document contains *)

Section Observed.
Context {V : Type}.

(** The date keys of one entry (none when ["data"] is missing). *)
Definition item_keys (it : @item V) : list string :=
  match data it with
  | Some series => PyDict.keys series
  | None => []
  end.

Definition keys_of (its : list (@item V)) : list string :=
  flat_map item_keys its.

(** Every date key stored anywhere in the document. *)
Definition observed_keys (existing : @document V) : list string :=
  keys_of (map snd existing).

Definition iso_keys (its : list (@item V)) : Prop :=
  forall d, In d (keys_of its) -> Calendar.is_iso_date d = true.

(** What the accumulator of the scan of lines 417 to 423 stands for
    once the entries [its] have been visited: a stored key that no
    stored key exceeds, as text and as a date. *)
Definition latest_of (latest : option Calendar.date)
           (its : list (@item V)) : Prop :=
  match latest with
  | None => keys_of its = []
  | Some t =>
      exists d, In d (keys_of its) /\ Calendar.strptime d = Some t
                /\ (forall d', In d' (keys_of its) ->
                               String.ltb d d' = false)
                /\ (forall d' t', In d' (keys_of its) ->
                                  Calendar.strptime d' = Some t' ->
                                  Calendar.ltb t t' = false)
  end.

(** Some instrument has at least one time-series entry (the test of
    line 419 succeeds for it). *)
Definition has_entries (existing : @document V) : bool :=
  existsb (fun it => match data it with
                     | Some series => negb (PyDict.is_empty series)
                     | None => false
                     end) (map snd existing).

(** Every stored key is a canonical ISO date other than the first
    representable day. *)
Definition well_dated (existing : @document V) : bool :=
  forallb (fun d => Calendar.is_iso_date d
                    && negb (String.eqb d "0001-01-01"))
          (observed_keys existing).

(** The classes whose processing was begun, in order of printing. *)
Fixpoint attempted (evs : list (@event V)) : list string :=
  match evs with
  | [] => []
  | Processing market :: r => market :: attempted r
  | _ :: r => attempted r
  end.

(** Lines printed by the steps before persistence, or by [run]. *)
Definition quiet (e : @event V) : bool :=
  match e with
  | Processing _ | Window _ _ | NoData _ | Failed _ _ => true
  | Saved _ _ | Uploaded _ _ | UploadFailed _ | UploadSkipped _ => false
  end.

End Observed.

(** ** Sample data for the concrete runs *)

Definition today : Calendar.date := Calendar.mkdate 2023 1 13.

(** The manager of the script's entry point: a repository, no token. *)
Definition me_offline : manager :=
  mkmanager "" "andychu221/yhfinance-fred-data".

Definition me_online : manager :=
  mkmanager "token" "andychu221/yhfinance-fred-data".

(** Collaborators that answer nothing. *)
Definition E_silent : @env Z :=
  mkenv today (fun _ => None) (fun _ _ => None) (fun _ _ => None)
        (fun _ => true) (fun _ => true).

(** Only the MSFT quote request succeeds. *)
Definition E_partial : @env Z :=
  mkenv today (fun _ => None)
        (fun ticker _ =>
           if String.eqb ticker "MSFT"
           then Some [("2023-01-12", 101); ("2023-01-13", 102)]
           else None)
        (fun _ _ => None) (fun _ => true) (fun _ => true).

(** A quote provider that holds the full history only: it answers the
    MSFT request of a first run and nothing for a later start. *)
Definition E_history : @env Z :=
  mkenv today (fun _ => None)
        (fun ticker start =>
           if String.eqb ticker "MSFT" && String.eqb start "2020-01-01"
           then Some [("2020-01-02", 90)]
           else None)
        (fun _ _ => None) (fun _ => true) (fun _ => true).

Definition doc_remote : @document Z :=
  [("EUR=", mkitem "EUR=" (Some [("2023-01-12", 1)]))].

(** No quote arrives, and the remote store holds a document for FX. *)
Definition E_cache : @env Z :=
  mkenv today
        (fun market => if String.eqb market "FX" then Some doc_remote else None)
        (fun _ _ => None) (fun _ _ => None) (fun _ => true) (fun _ => true).

Definition doc_prior : @document Z :=
  [("MSFT.O", mkitem "Microsoft" (Some [("2023-01-09", 98); ("2023-01-10", 100)]));
   ("AAPL.O", mkitem "Apple" (Some [("2023-01-11", 50); ("2023-01-12", 51)]))].

Definition doc_hollow : @document Z :=
  [("MSFT.O", mkitem "Microsoft" (Some [])); ("AAPL.O", mkitem "Apple" None)].

Definition w_none : @world Z := mkworld (fun _ => None) [].

Definition w_prior : @world Z :=
  mkworld (fun m => if String.eqb m "US_Stocks" then Some (Json doc_prior)
                    else None) [].

Definition w_garbage : @world Z :=
  mkworld (fun m => if String.eqb m "US_Stocks" then Some Garbage else None) [].

Definition doc_after : @document Z :=
  [("MSFT.O",
    mkitem "Microsoft"
           (Some [("2023-01-09", 98); ("2023-01-10", 100);
                  ("2023-01-12", 101); ("2023-01-13", 102)]))].

(** An unsorted fresh series for the examples below. *)
Definition fresh_unsorted : PyDict.dict Z :=
  [("2023-01-02", 102); ("2023-01-01", 101)].

Definition prior_sample : PyDict.dict Z :=
  [("2023-01-03", 90); ("2023-01-01", 100)].

(** ** Auxiliary notions for the collaborators' wrappers *)

(** The display name stored for a ticker: the configured name, or the
    ticker itself when no class lists it (lines 326 to 335). *)
Definition display_name (ticker : string) : string :=
  match lookup_name ticker with
  | Some n => if truthy n then n else ticker
  | None => ticker
  end.

Section DownloadAux.
Context {A B : Type}.
Variable q : string -> option (list (string * B)).

(** What one request contributes to the result of a download loop. *)
Definition answered (t : string) : list (string * list (string * B)) :=
  match q t with
  | Some d => if PyDict.is_empty d then [] else [(t, d)]
  | None => []
  end.

(** The body of the download loops (lines 240 to 286 and 196 to 231),
    over the answer [q] of the provider. *)
Definition download_step (acc : list (string * list (string * B)))
           (tn : string * A) :=
  match q (fst tn) with
  | Some d => if PyDict.is_empty d then acc else PyDict.set (fst tn) d acc
  | None => acc
  end.

Definition nonempty_answer (t : string) : bool :=
  match q t with
  | Some d => negb (PyDict.is_empty d)
  | None => false
  end.
End DownloadAux.

Section ConvertAux.
Context {V : Type}.

(** The entry written for one ticker (lines 334 to 337). *)
Definition ric_entry (tp : string * PyDict.dict V) : string * @item V :=
  (to_ric (fst tp), mkitem (display_name (fst tp)) (Some (snd tp))).

Definition ric_step (ric_data : @document V) (tp : string * PyDict.dict V) :=
  PyDict.set (fst (ric_entry tp)) (snd (ric_entry tp)) ric_data.

(** The entry computed for one ticker by the merge loop (lines 445 to
    448). *)
Definition merged_entry `{PyOrd V} (existing : @document V)
           (tp : string * PyDict.dict V) :=
  (fst tp, merge_data (old_prices_of existing (to_ric (fst tp))) (snd tp)).
End ConvertAux.

(** ** Sample data for the further properties *)

Definition md_sample : PyDict.dict (PyDict.dict Z) :=
  [("MSFT", [("2023-01-12", 101); ("2023-01-13", 102)]);
   ("AAPL", [("2023-01-13", 52)])].

Definition md_unmapped : PyDict.dict (PyDict.dict Z) :=
  [("XYZ", [("2023-01-01", 7)])].

Definition us_stocks : PyDict.dict string :=
  match PyDict.get "US_Stocks" market_data with
  | Some tickers_dict => tickers_dict
  | None => []
  end.

(** A comparison of observations that orders nothing sensibly. *)
Definition PyOrd_odd : PyOrd Z :=
  {| py_eq := fun _ _ => false; py_lt := fun _ _ => true |}.

(** * Proofs *)

(** ** The model on small inputs *)

Example merge_scenario :
  merge_data [("2023-01-01", 100)] [("2023-01-01", 101); ("2023-01-02", 102)]
  = [("2023-01-01", 101); ("2023-01-02", 102)].
Proof. reflexivity. Qed.

Example merge_sorts :
  merge_data [("2023-01-05", 5)] [("2023-01-07", 7); ("2023-01-02", 2)]
  = [("2023-01-02", 2); ("2023-01-05", 5); ("2023-01-07", 7)].
Proof. reflexivity. Qed.

Example strptime_ex : Calendar.strptime "2023-01-12" = Some (Calendar.mkdate 2023 1 12).
Proof. reflexivity. Qed.

Example strptime_short : Calendar.strptime "2023-1-5" = Some (Calendar.mkdate 2023 1 5).
Proof. reflexivity. Qed.

Example strptime_bad : Calendar.strptime "2023-02-30" = None.
Proof. reflexivity. Qed.

Example strptime_bad2 : Calendar.strptime "2023-01-123" = None.
Proof. reflexivity. Qed.

Example add_days_ex :
  option_map Calendar.strftime (Calendar.add_days (Calendar.mkdate 2023 1 12) (-1))
  = Some "2023-01-11".
Proof. reflexivity. Qed.

Example add_days_ex2 :
  option_map Calendar.strftime (Calendar.add_days (Calendar.mkdate 2024 3 1) (-1))
  = Some "2024-02-29".
Proof. reflexivity. Qed.

Example add_days_ex3 :
  option_map Calendar.strftime (Calendar.add_days (Calendar.mkdate 2026 11 3) (-(365*5)))
  = Some "2021-11-04".
Proof. reflexivity. Qed.

Example add_days_ex4 :
  option_map Calendar.strftime (Calendar.add_days (Calendar.mkdate 2001 1 1) (-1))
  = Some "2000-12-31".
Proof. reflexivity. Qed.

Example iso_ex : Calendar.is_iso_date "2023-01-12" = true /\ Calendar.is_iso_date "2023-1-5" = false.
Proof. split; reflexivity. Qed.


(** The scenario of the specification: one stored observation for
    MSFT.O, two fresh ones for MSFT. *)
Example scenario_msft :
  convert_to_ric_format
    (merge_all [("MSFT.O", mkitem "Microsoft" (Some [("2023-01-01", 100)]))]
               [("MSFT", [("2023-01-01", 101); ("2023-01-02", 102)])])
  = [("MSFT.O",
      mkitem "Microsoft" (Some [("2023-01-01", 101); ("2023-01-02", 102)]))].
Proof. reflexivity. Qed.

(** A symbol outside the static tables is stored under its own name. *)
Example scenario_unmapped :
  convert_to_ric_format [("XYZ", [("2023-01-01", 7)])]
  = [("XYZ", mkitem "XYZ" (Some [("2023-01-01", 7)]))].
Proof. reflexivity. Qed.

(** Keys that [strptime] accepts but that are not zero-padded defeat the
    textual [max]: the stored dates are 5 and 10 January, the window
    starts on 4 January. *)
Example start_date_unpadded_keys :
  start_date E_silent false
    [("MSFT.O", mkitem "Microsoft" (Some [("2023-01-10", 1); ("2023-1-5", 2)]))]
  = Ok "2023-01-04".
Proof. reflexivity. Qed.

(** A key that is not a date makes the scan raise. *)
Example start_date_bad_key :
  start_date E_silent false
    [("MSFT.O", mkitem "Microsoft" (Some [("yesterday", 1)]))]
  = Raise ValueError.
Proof. reflexivity. Qed.

(** One class fails on an unreadable file; the others are still
    processed. *)
Example run_isolates_failure :
  out (run me_offline E_silent true w_garbage)
  = [Processing "Equity_Index"; Window "Equity_Index" "2020-01-01";
     NoData "Equity_Index";
     Processing "US_Stocks"; Failed "US_Stocks" JSONDecodeError;
     Processing "TW_Stocks"; Window "TW_Stocks" "2020-01-01";
     NoData "TW_Stocks";
     Processing "US_Rates"; Window "US_Rates" "2020-01-01";
     NoData "US_Rates";
     Processing "FX"; Window "FX" "2020-01-01"; NoData "FX";
     Processing "Commodity"; Window "Commodity" "2020-01-01";
     NoData "Commodity"].
Proof. reflexivity. Qed.

(** ** The order on [str] *)

Module StrOrder.

Lemma ascii_compare_refl a : Ascii.compare a a = Eq.
Proof. unfold Ascii.compare. apply N.compare_refl. Qed.

Lemma compare_refl s : String.compare s s = Eq.
Proof.
  induction s as [|a s IH]; simpl; [reflexivity|].
  now rewrite ascii_compare_refl.
Qed.

Lemma compare_eq s t : String.compare s t = Eq <-> s = t.
Proof.
  split; [apply String.compare_eq_iff|intros ->; apply compare_refl].
Qed.

Lemma ascii_compare_trans a b c :
  Ascii.compare a b = Lt -> Ascii.compare b c = Lt -> Ascii.compare a c = Lt.
Proof.
  unfold Ascii.compare. rewrite !N.compare_lt_iff. apply N.lt_trans.
Qed.

Lemma compare_trans s : forall t u,
  String.compare s t = Lt -> String.compare t u = Lt -> String.compare s u = Lt.
Proof.
  induction s as [|a s IH]; intros [|b t] [|c u]; simpl; try congruence.
  destruct (Ascii.compare a b) eqn:Eab; try discriminate;
    destruct (Ascii.compare b c) eqn:Ebc; try discriminate; intros Hst Htu.
  - apply Ascii.compare_eq_iff in Eab, Ebc. subst.
    rewrite ascii_compare_refl. eauto.
  - apply Ascii.compare_eq_iff in Eab. subst. now rewrite Ebc.
  - apply Ascii.compare_eq_iff in Ebc. subst. now rewrite Eab.
  - now rewrite (ascii_compare_trans _ _ _ Eab Ebc).
Qed.

Lemma ltb_irrefl s : String.ltb s s = false.
Proof. unfold String.ltb. now rewrite compare_refl. Qed.

Lemma ltb_trans s t u :
  String.ltb s t = true -> String.ltb t u = true -> String.ltb s u = true.
Proof.
  unfold String.ltb.
  destruct (String.compare s t) eqn:E1; try discriminate.
  destruct (String.compare t u) eqn:E2; try discriminate.
  now rewrite (compare_trans _ _ _ E1 E2).
Qed.

Lemma ltb_asym s t : String.ltb s t = true -> String.ltb t s = false.
Proof.
  intros Hst. destruct (String.ltb t s) eqn:Hts; [|reflexivity].
  pose proof (ltb_trans _ _ _ Hst Hts) as Hss.
  rewrite ltb_irrefl in Hss. discriminate.
Qed.

Lemma ltb_total s t :
  String.ltb s t = false -> String.ltb t s = false -> s = t.
Proof.
  unfold String.ltb. rewrite (String.compare_antisym t s).
  destruct (String.compare s t) eqn:E; simpl; try discriminate.
  intros _ _. now apply compare_eq.
Qed.

End StrOrder.

(** ** Dictionaries *)

Module DictFacts.
Import PyDict.
Section Facts.
Context {A : Type}.
Implicit Types (d new l : list (string * A)) (k : string) (v : A).

Lemma get_None_iff k d : get k d = None <-> ~ In k (keys d).
Proof.
  induction d as [|[k' v'] d IH]; simpl.
  - tauto.
  - destruct (String.eqb_spec k k') as [->|Hne].
    + split; [discriminate|]. intros Hn. exfalso. apply Hn. now left.
    + rewrite IH. split.
      * intros Hn [Heq|Hin]; [congruence|tauto].
      * tauto.
Qed.

Lemma get_Some_In k v d : get k d = Some v -> In (k, v) d.
Proof.
  induction d as [|[k' v'] d IH]; simpl; [discriminate|].
  destruct (String.eqb_spec k k') as [->|Hne].
  - intros [= ->]. now left.
  - intros Hg. right. auto.
Qed.

Lemma In_get k v d : wf d -> In (k, v) d -> get k d = Some v.
Proof.
  unfold wf. induction d as [|[k' v'] d IH]; simpl; [tauto|].
  intros Hnd [Heq|Hin].
  - injection Heq as -> ->. now rewrite String.eqb_refl.
  - inversion Hnd as [|? ? Hnotin Hnd']; subst.
    destruct (String.eqb_spec k k') as [->|Hne]; [|auto].
    exfalso. apply Hnotin. change (In (fst (k', v)) (map fst d)).
    now apply in_map.
Qed.

Lemma mem_In k d : mem k d = true <-> In k (keys d).
Proof.
  unfold mem. destruct (get k d) eqn:Hg.
  - split; [intros _|reflexivity].
    apply get_Some_In in Hg. change k with (fst (k, a)). now apply in_map.
  - apply get_None_iff in Hg. split; [discriminate|tauto].
Qed.

Lemma wfb_wf d : wfb d = true <-> wf d.
Proof.
  unfold wf. induction d as [|[k v] d IH]; simpl.
  - split; [constructor|reflexivity].
  - rewrite andb_true_iff, negb_true_iff, IH. split.
    + intros [Hm Hd]. constructor; [|assumption].
      rewrite <- mem_In. congruence.
    + intros Hnd. inversion Hnd as [|? ? Hnotin Hnd']; subst. split; [|assumption].
      destruct (mem k d) eqn:Hm; [|reflexivity].
      exfalso. apply Hnotin. now apply mem_In.
Qed.

Lemma get_set k k' v d :
  get k (set k' v d) = if String.eqb k k' then Some v else get k d.
Proof.
  induction d as [|[k0 v0] d IH]; simpl.
  - reflexivity.
  - destruct (String.eqb_spec k' k0) as [->|Hne]; simpl.
    + destruct (String.eqb k k0); reflexivity.
    + rewrite IH. destruct (String.eqb_spec k k0) as [->|Hne'].
      * destruct (String.eqb_spec k0 k'); [congruence|reflexivity].
      * reflexivity.
Qed.

Lemma keys_set_present k v d :
  In k (keys d) -> keys (set k v d) = keys d.
Proof.
  induction d as [|[k0 v0] d IH]; simpl; [tauto|].
  intros Hin. destruct (String.eqb_spec k k0) as [->|Hne]; simpl.
  - reflexivity.
  - f_equal. apply IH. destruct Hin; [congruence|assumption].
Qed.

Lemma set_absent k v d :
  ~ In k (keys d) -> set k v d = d ++ [(k, v)].
Proof.
  induction d as [|[k0 v0] d IH]; simpl; [reflexivity|].
  intros Hn. destruct (String.eqb_spec k k0) as [->|Hne].
  - exfalso. apply Hn. now left.
  - f_equal. apply IH. tauto.
Qed.

Lemma In_keys_set k k' v d :
  In k (keys (set k' v d)) <-> k = k' \/ In k (keys d).
Proof.
  destruct (in_dec string_dec k' (keys d)) as [Hin|Hn].
  - rewrite keys_set_present by assumption. split; [tauto|].
    intros [->|H]; assumption.
  - rewrite set_absent by assumption. unfold keys.
    rewrite map_app, in_app_iff. simpl. split.
    + intros [H|[H|[]]]; auto.
    + intros [->|H]; auto.
Qed.

Lemma wf_set k v d : wf d -> wf (set k v d).
Proof.
  unfold wf. intros Hd.
  destruct (in_dec string_dec k (keys d)) as [Hin|Hn].
  - now rewrite keys_set_present.
  - rewrite set_absent by assumption. unfold keys in *.
    rewrite map_app. simpl.
    apply NoDup_app; [assumption|repeat constructor; intros []|].
    intros x Hx [<-|[]]. tauto.
Qed.

Lemma wf_update new : forall d, wf d -> wf (update d new).
Proof.
  unfold update. induction new as [|[k v] new IH]; simpl; intros d Hd.
  - assumption.
  - apply IH. now apply wf_set.
Qed.

Lemma get_update k new : forall d,
  wf new ->
  get k (update d new) =
  match get k new with Some v => Some v | None => get k d end.
Proof.
  unfold update, wf.
  induction new as [|[k' v'] new IH]; simpl; intros d Hnew.
  - reflexivity.
  - inversion Hnew as [|? ? Hnotin Hnd]; subst.
    rewrite IH by assumption. rewrite get_set.
    destruct (String.eqb_spec k k') as [->|Hne].
    + apply get_None_iff in Hnotin. now rewrite Hnotin.
    + reflexivity.
Qed.

Lemma In_keys_update k new : forall d,
  In k (keys (update d new)) <-> In k (keys d) \/ In k (keys new).
Proof.
  unfold update. induction new as [|[k' v'] new IH]; simpl; intros d.
  - tauto.
  - rewrite IH, In_keys_set. split.
    + intros [[->|H]|H]; auto.
    + intros [H|[<-|H]]; auto.
Qed.

(** Building a dictionary from pairs with distinct keys keeps the
    pairs as they come. *)
Lemma update_fresh l : forall d,
  NoDup (keys (d ++ l)) -> update d l = d ++ l.
Proof.
  unfold update. induction l as [|[k v] l IH]; simpl; intros d Hnd.
  - now rewrite app_nil_r.
  - assert (Hk : ~ In k (keys d)).
    { unfold keys in *. rewrite map_app in Hnd. simpl in Hnd.
      apply NoDup_remove_2 in Hnd. rewrite in_app_iff in Hnd. tauto. }
    rewrite (set_absent _ _ _ Hk).
    replace (d ++ (k, v) :: l) with ((d ++ [(k, v)]) ++ l)
      by (now rewrite <- app_assoc).
    apply IH. now rewrite <- app_assoc.
Qed.

Lemma of_items_wf l : wf l -> of_items l = l.
Proof. intros Hl. unfold of_items. now rewrite update_fresh. Qed.

Lemma set_same k v d : get k d = Some v -> set k v d = d.
Proof.
  induction d as [|[k0 v0] d IH]; simpl; [discriminate|].
  destruct (String.eqb_spec k k0) as [->|Hne].
  - now intros [= ->].
  - intros Hg. now rewrite IH.
Qed.

Lemma update_same l : forall d,
  (forall k v, In (k, v) l -> get k d = Some v) -> update d l = d.
Proof.
  unfold update. induction l as [|[k v] l IH]; simpl; intros d Hl.
  - reflexivity.
  - rewrite set_same by (apply Hl; now left).
    apply IH. intros k' v' Hin. apply Hl. now right.
Qed.

(** Updating a dictionary with itself changes nothing. *)
Lemma update_self d : wf d -> update d d = d.
Proof. intros Hd. apply update_same. intros k v. now apply In_get. Qed.

(** Lookup does not depend on the order of a dictionary's items. *)
Lemma get_Permutation k l l' :
  Permutation l l' -> wf l -> get k l = get k l'.
Proof.
  intros Hp Hl.
  assert (Hl' : wf l').
  { unfold wf, keys in *. eapply Permutation_NoDup; [|eassumption].
    now apply Permutation_map. }
  destruct (get k l) eqn:Hg.
  - symmetry. apply In_get; [assumption|].
    eapply Permutation_in; [eassumption|]. now apply get_Some_In.
  - symmetry. apply get_None_iff. apply get_None_iff in Hg.
    intros Hin. apply Hg. unfold keys in *.
    eapply Permutation_in; [|eassumption].
    apply Permutation_map. now symmetry.
Qed.

End Facts.
End DictFacts.

(** ** Ascending key lists *)

Lemma ascending_NoDup l : ascending l -> NoDup l.
Proof.
  unfold ascending. induction 1 as [|a l Hs IH Hall]; constructor; [|assumption].
  intros Hin. rewrite Forall_forall in Hall. specialize (Hall _ Hin).
  unfold str_lt in Hall. rewrite StrOrder.ltb_irrefl in Hall. discriminate.
Qed.

Lemma ascendingb_ascending l : ascendingb l = true <-> ascending l.
Proof.
  unfold ascending. split.
  - intros Hb. apply Sorted_StronglySorted.
    + intros a b c. apply StrOrder.ltb_trans.
    + induction l as [|a [|b r] IH]; simpl in *.
      * constructor.
      * repeat constructor.
      * apply andb_true_iff in Hb as [Hab Hr]. constructor; [auto|].
        constructor. exact Hab.
  - intros Hs. apply StronglySorted_Sorted in Hs.
    induction Hs as [|a l Hs IH Hhd]; [reflexivity|].
    destruct l as [|b r]; [reflexivity|].
    change (String.ltb a b && ascendingb (b :: r) = true).
    inversion Hhd; subst. apply andb_true_iff. split; assumption.
Qed.

(** ** [sorted] *)

Section SortedFacts.
Context {V : Type} `{PyOrd V}.
Implicit Types (x y : string * V) (l : list (string * V)).

Lemma tuple_lt_keys x y :
  fst x <> fst y -> tuple_lt x y = String.ltb (fst x) (fst y).
Proof.
  intros Hne. unfold tuple_lt.
  destruct (String.eqb_spec (fst x) (fst y)); [contradiction|reflexivity].
Qed.

Lemma insert_sorted_perm x l : Permutation (insert_sorted x l) (x :: l).
Proof.
  induction l as [|y l IH]; simpl; [reflexivity|].
  destruct (tuple_lt y x); [|reflexivity].
  rewrite IH. apply perm_swap.
Qed.

Lemma py_sorted_perm l : Permutation (py_sorted l) l.
Proof.
  induction l as [|x l IH]; simpl; [reflexivity|].
  rewrite insert_sorted_perm. now constructor.
Qed.

Lemma insert_sorted_sorted x l :
  StronglySorted key_lt l -> ~ In (fst x) (PyDict.keys l) ->
  StronglySorted key_lt (insert_sorted x l).
Proof.
  induction 1 as [|y l Hs IH Hall]; simpl; intros Hx.
  - repeat constructor.
  - assert (Hne : fst y <> fst x) by (intros Heq; apply Hx; now left).
    rewrite (tuple_lt_keys _ _ Hne).
    destruct (String.ltb (fst y) (fst x)) eqn:Hyx.
    + constructor; [apply IH; tauto|].
      eapply Permutation_Forall; [symmetry; apply insert_sorted_perm|].
      constructor; assumption.
    + assert (Hxy : String.ltb (fst x) (fst y) = true).
      { destruct (String.ltb (fst x) (fst y)) eqn:Hxy; [reflexivity|].
        exfalso. apply Hne. symmetry. now apply StrOrder.ltb_total. }
      constructor; [constructor; assumption|].
      constructor; [exact Hxy|].
      eapply Forall_impl; [|exact Hall].
      intros z Hz. unfold key_lt, str_lt in *. eapply StrOrder.ltb_trans; eauto.
Qed.

Lemma py_sorted_sorted l :
  PyDict.wf l -> StronglySorted key_lt (py_sorted l).
Proof.
  unfold PyDict.wf. induction l as [|x l IH]; simpl; intros Hnd.
  - constructor.
  - inversion Hnd as [|? ? Hnotin Hnd']; subst.
    apply insert_sorted_sorted; [auto|].
    intros Hin. apply Hnotin. unfold PyDict.keys in *.
    eapply Permutation_in; [|exact Hin].
    apply Permutation_map, py_sorted_perm.
Qed.

(** Sorting an already ascending list of pairs returns it unchanged. *)
Lemma py_sorted_fixed l : StronglySorted key_lt l -> py_sorted l = l.
Proof.
  induction 1 as [|x l Hs IH Hall]; simpl; [reflexivity|].
  rewrite IH. destruct l as [|y l]; [reflexivity|]. simpl.
  inversion Hall as [|? ? Hxy _]; subst. unfold key_lt, str_lt in Hxy.
  rewrite tuple_lt_keys
    by (intros Heq; rewrite Heq, StrOrder.ltb_irrefl in Hxy; discriminate).
  now rewrite (StrOrder.ltb_asym _ _ Hxy).
Qed.

Lemma sorted_keys_ascending l :
  StronglySorted key_lt l <-> ascending (PyDict.keys l).
Proof.
  unfold ascending, PyDict.keys. induction l as [|x l IH]; simpl.
  - split; constructor.
  - split; intros Hs; inversion Hs as [|? ? Hs' Hall]; subst;
      (constructor; [now apply IH|]).
    + rewrite Forall_map. exact Hall.
    + rewrite Forall_map in Hall. exact Hall.
Qed.

Lemma wf_py_sorted l : PyDict.wf l -> PyDict.wf (py_sorted l).
Proof.
  unfold PyDict.wf, PyDict.keys. intros Hl.
  eapply Permutation_NoDup; [|exact Hl].
  apply Permutation_map. symmetry. apply py_sorted_perm.
Qed.

(** ** [merge_data] *)

Lemma merge_data_empty (P F : PyDict.dict V) :
  PyDict.is_empty P = true -> merge_data P F = F.
Proof. unfold merge_data. now intros ->. Qed.

Lemma merge_data_nonempty (P F : PyDict.dict V) :
  PyDict.is_empty P = false -> PyDict.wf P ->
  merge_data P F = py_sorted (PyDict.update P F).
Proof.
  unfold merge_data. intros -> HP. cbv zeta. unfold PyDict.items.
  apply DictFacts.of_items_wf, wf_py_sorted, DictFacts.wf_update, HP.
Qed.

Lemma merge_data_get (P F : PyDict.dict V) k :
  PyDict.wf P -> PyDict.wf F ->
  PyDict.get k (merge_data P F) =
  match PyDict.get k F with
  | Some v => Some v
  | None => PyDict.get k P
  end.
Proof.
  intros HP HF. destruct (PyDict.is_empty P) eqn:HE.
  - rewrite merge_data_empty by assumption.
    destruct P; [|discriminate]. simpl. now destruct (PyDict.get k F).
  - rewrite merge_data_nonempty by assumption.
    rewrite <- (DictFacts.get_update k F P HF).
    symmetry. apply DictFacts.get_Permutation.
    + symmetry. apply py_sorted_perm.
    + now apply DictFacts.wf_update.
Qed.

Lemma merge_data_keys (P F : PyDict.dict V) k :
  PyDict.wf P ->
  In k (PyDict.keys (merge_data P F)) <->
  In k (PyDict.keys P) \/ In k (PyDict.keys F).
Proof.
  intros HP. destruct (PyDict.is_empty P) eqn:HE.
  - rewrite merge_data_empty by assumption.
    destruct P; [|discriminate]. simpl. tauto.
  - rewrite merge_data_nonempty by assumption.
    rewrite <- DictFacts.In_keys_update. unfold PyDict.keys.
    split; apply Permutation_in, Permutation_map;
      [|symmetry]; apply py_sorted_perm.
Qed.

Lemma merge_data_wf (P F : PyDict.dict V) :
  PyDict.wf P -> PyDict.wf F -> PyDict.wf (merge_data P F).
Proof.
  intros HP HF. destruct (PyDict.is_empty P) eqn:HE.
  - now rewrite merge_data_empty.
  - rewrite merge_data_nonempty by assumption.
    now apply wf_py_sorted, DictFacts.wf_update.
Qed.

End SortedFacts.

(** ** The calendar: ordinals and dates *)

Module CalendarFacts.
Import Calendar CalendarAux.

Ltac Zify.zify_post_hook ::= Z.to_euclidean_division_equations.

Lemma dby_split a b c e :
  0 <= a -> 0 <= b <= 3 -> 0 <= c <= 24 -> 0 <= e <= 3 ->
  days_before_year (400 * a + 100 * b + 4 * c + e + 1)
  = 146097 * a + 36524 * b + 1461 * c + 365 * e.
Proof.
  intros. unfold days_before_year. cbv zeta.
  replace (400 * a + 100 * b + 4 * c + e + 1 - 1)
    with (400 * a + 100 * b + 4 * c + e) by lia.
  lia.
Qed.

Lemma is_leap_split a b c e :
  0 <= a -> 0 <= b <= 3 -> 0 <= c <= 24 -> 0 <= e <= 3 ->
  is_leap (400 * a + 100 * b + 4 * c + e + 1) = leap_of b c e.
Proof.
  intros. unfold is_leap, leap_of.
  set (y := 400 * a + 100 * b + 4 * c + e + 1).
  destruct (Z.eqb_spec (y mod 4) 0); destruct (Z.eqb_spec (y mod 100) 0);
    destruct (Z.eqb_spec (y mod 400) 0);
    destruct (Z.eqb_spec e 3); destruct (Z.eqb_spec c 24);
    destruct (Z.eqb_spec b 3);
    simpl; try reflexivity; exfalso; subst y; lia.
Qed.

Lemma year_split y :
  1 <= y ->
  exists a b c e,
    0 <= a /\ 0 <= b <= 3 /\ 0 <= c <= 24 /\ 0 <= e <= 3
    /\ y = 400 * a + 100 * b + 4 * c + e + 1.
Proof.
  intros Hy.
  exists ((y - 1) / 400), (((y - 1) mod 400) / 100),
         (((y - 1) mod 100) / 4), ((y - 1) mod 4).
  lia.
Qed.

Lemma ord2ymd_regular a b c e doy :
  0 <= a -> 0 <= b <= 3 -> 0 <= c <= 24 -> 0 <= e <= 3 -> 0 <= doy <= 364 ->
  ord2ymd (146097 * a + 36524 * b + 1461 * c + 365 * e + doy + 1)
  = month_day (leap_of b c e) (400 * a + 100 * b + 4 * c + e + 1) doy.
Proof.
  intros Ha Hb Hc He Hd. unfold ord2ymd, DI400Y, DI100Y, DI4Y. cbv zeta.
  set (n0 := 146097 * a + 36524 * b + 1461 * c + 365 * e + doy + 1 - 1).
  assert (H400 : n0 / 146097 = a) by (subst n0; lia).
  assert (R400 : n0 mod 146097 = 36524 * b + 1461 * c + 365 * e + doy)
    by (subst n0; lia).
  rewrite H400, R400.
  set (n1 := 36524 * b + 1461 * c + 365 * e + doy).
  assert (H100 : n1 / 36524 = b) by (subst n1; lia).
  assert (R100 : n1 mod 36524 = 1461 * c + 365 * e + doy) by (subst n1; lia).
  rewrite H100, R100.
  set (n2 := 1461 * c + 365 * e + doy).
  assert (H4 : n2 / 1461 = c) by (subst n2; lia).
  assert (R4 : n2 mod 1461 = 365 * e + doy) by (subst n2; lia).
  rewrite H4, R4.
  assert (H1 : (365 * e + doy) / 365 = e) by lia.
  assert (R1 : (365 * e + doy) mod 365 = doy) by lia.
  rewrite H1, R1.
  replace (e =? 4) with false by (symmetry; apply Z.eqb_neq; lia).
  replace (b =? 4) with false by (symmetry; apply Z.eqb_neq; lia).
  simpl orb. cbv iota. unfold month_day, leap_of. cbv zeta.
  replace (a * 400 + 1 + b * 100 + c * 4 + e)
    with (400 * a + 100 * b + 4 * c + e + 1) by lia.
  reflexivity.
Qed.

(** The last day of a leap year takes the early exit of [ord2ymd]. *)
Lemma ord2ymd_leap_end a b c :
  0 <= a -> 0 <= b <= 3 -> 0 <= c <= 24 -> (c <> 24 \/ b = 3) ->
  ord2ymd (146097 * a + 36524 * b + 1461 * c + 365 * 3 + 365 + 1)
  = mkdate (400 * a + 100 * b + 4 * c + 3 + 1) 12 31.
Proof.
  intros Ha Hb Hc Hl. unfold ord2ymd, DI400Y, DI100Y, DI4Y. cbv zeta.
  set (n0 := 146097 * a + 36524 * b + 1461 * c + 365 * 3 + 365 + 1 - 1).
  assert (H400 : n0 / 146097 = a) by (subst n0; lia).
  assert (R400 : n0 mod 146097 = 36524 * b + 1461 * c + 1460)
    by (subst n0; lia).
  rewrite H400, R400.
  destruct (Z.eq_dec c 24) as [->|Hc24].
  - assert (b = 3) by lia. subst b.
    change (36524 * 3 + 1461 * 24 + 1460) with 146096.
    change (146096 / 36524) with 4. change (146096 mod 36524) with 0.
    change (0 / 1461) with 0. change (0 mod 1461) with 0.
    change (0 / 365) with 0. change (0 mod 365) with 0.
    simpl orb. cbv iota. f_equal. lia.
  - set (n1 := 36524 * b + 1461 * c + 1460).
    assert (H100 : n1 / 36524 = b) by (subst n1; lia).
    assert (R100 : n1 mod 36524 = 1461 * c + 1460) by (subst n1; lia).
    rewrite H100, R100.
    assert (H4 : (1461 * c + 1460) / 1461 = c) by lia.
    assert (R4 : (1461 * c + 1460) mod 1461 = 1460) by lia.
    rewrite H4, R4.
    change (1460 / 365) with 4. simpl orb. cbv iota. f_equal. lia.
Qed.

Lemma month_cases m : 1 <= m <= 12 ->
  m = 1 \/ m = 2 \/ m = 3 \/ m = 4 \/ m = 5 \/ m = 6 \/
  m = 7 \/ m = 8 \/ m = 9 \/ m = 10 \/ m = 11 \/ m = 12.
Proof. lia. Qed.

Lemma estimate_cases q : 1 <= q <= 13 ->
  q = 1 \/ q = 2 \/ q = 3 \/ q = 4 \/ q = 5 \/ q = 6 \/ q = 7 \/
  q = 8 \/ q = 9 \/ q = 10 \/ q = 11 \/ q = 12 \/ q = 13.
Proof. lia. Qed.

Ltac each_month H :=
  apply month_cases in H;
  repeat (destruct H as [H|H]); subst.

Ltac month_estimate :=
  match goal with
  | |- context [?e / 32] =>
      let q := fresh "q" in
      let Hq := fresh "Hq" in
      let Hr := fresh "Hr" in
      remember (e / 32) as q eqn:Hq;
      assert (Hr : 1 <= q <= 13) by lia;
      apply estimate_cases in Hr;
      repeat (destruct Hr as [Hr|Hr]);
      rewrite Hr in Hq |- *; clear Hr; try (exfalso; lia)
  end.

Ltac eval_tables :=
  repeat match goal with
         | |- context [table ?t ?k] =>
             let v := eval vm_compute in (table t k) in
             change (table t k) with v
         end;
  repeat match goal with
         | |- context [if ?b then 1 else 0] =>
             let v := eval vm_compute in b in
             change (if b then 1 else 0) with (if v then 1 else 0); cbv iota
         end.

Ltac eval_in H f :=
  repeat match type of H with
         | context [f ?l ?k] =>
             let v := eval vm_compute in (f l k) in
             change (f l k) with v in H
         end.

Ltac eval_goal f :=
  repeat match goal with
         | |- context [f ?l ?k] =>
             let v := eval vm_compute in (f l k) in
             change (f l k) with v
         end.

Lemma month_day_spec L y m d :
  1 <= m <= 12 -> 1 <= d <= dim L m ->
  month_day L y (dbm L m + d - 1) = mkdate y m d.
Proof.
  intros Hm Hd. unfold month_day. cbv zeta.
  rewrite Z.shiftr_div_pow2 by lia. change (2 ^ 5) with 32.
  each_month Hm; destruct L; eval_in Hd dim; eval_goal dbm.
  all: month_estimate.
  all: eval_tables.
  all: match goal with
       | |- context [?a <? ?b] =>
           destruct (Z.ltb_spec a b); try (exfalso; lia)
       end.
  all: f_equal; lia.
Qed.

Lemma doy_bound L m d :
  1 <= m <= 12 -> 1 <= d <= dim L m ->
  0 <= dbm L m + d - 1 <= 364 + (if L then 1 else 0).
Proof.
  intros Hm Hd.
  each_month Hm; destruct L; eval_in Hd dim; eval_goal dbm; lia.
Qed.

Lemma doy_last L m d :
  1 <= m <= 12 -> 1 <= d <= dim L m ->
  dbm L m + d - 1 = 365 -> L = true /\ m = 12 /\ d = 31.
Proof.
  intros Hm Hd.
  each_month Hm; destruct L; eval_in Hd dim; eval_goal dbm;
    intros Hdoy; repeat split; try reflexivity; lia.
Qed.

Lemma valid_bounds t :
  valid t = true ->
  1 <= year t <= 9999 /\ 1 <= month t <= 12
  /\ 1 <= day t <= days_in_month (year t) (month t).
Proof.
  unfold valid. rewrite !andb_true_iff, !Z.leb_le. tauto.
Qed.

(** [ord2ymd] inverts [ymd2ord] on every valid date. *)
Lemma ord2ymd_ymd2ord t :
  valid t = true -> ord2ymd (toordinal t) = t.
Proof.
  intros Hv. apply valid_bounds in Hv as (Hy & Hm & Hd).
  destruct t as [y m d]. unfold toordinal. simpl in *.
  destruct (year_split y) as (a & b & c & e & Ha & Hb & Hc & He & ->);
    [lia|].
  unfold ymd2ord.
  change (days_in_month ?y m) with (dim (is_leap y) m) in Hd.
  change (days_before_month ?y m) with (dbm (is_leap y) m).
  rewrite dby_split by assumption.
  rewrite is_leap_split in * by assumption.
  set (L := leap_of b c e) in *.
  pose proof (doy_bound L m d Hm Hd) as Hdoy.
  destruct (Z.eq_dec (dbm L m + d - 1) 365) as [Hlast|Hreg].
  - destruct (doy_last L m d Hm Hd Hlast) as (HL & -> & ->).
    unfold L, leap_of in HL.
    apply andb_true_iff in HL as [He3 HL]. apply Z.eqb_eq in He3. subst e.
    replace (146097 * a + 36524 * b + 1461 * c + 365 * 3 + dbm L 12 + 31)
      with (146097 * a + 36524 * b + 1461 * c + 365 * 3 + 365 + 1) by lia.
    apply ord2ymd_leap_end; try assumption.
    apply orb_true_iff in HL as [HL|HL].
    + left. apply negb_true_iff, Z.eqb_neq in HL. exact HL.
    + right. now apply Z.eqb_eq.
  - replace (146097 * a + 36524 * b + 1461 * c + 365 * e + dbm L m + d)
      with (146097 * a + 36524 * b + 1461 * c + 365 * e
            + (dbm L m + d - 1) + 1) by lia.
    rewrite ord2ymd_regular; try assumption.
    + now apply month_day_spec.
    + destruct L; lia.
Qed.

Lemma dbm_pred L m :
  2 <= m <= 12 -> dbm L (m - 1) + dim L (m - 1) = dbm L m.
Proof.
  intros Hm. assert (Hm' : 1 <= m <= 12) by lia.
  each_month Hm'; try lia; destruct L; reflexivity.
Qed.

Lemma dim_range L m : 1 <= m <= 12 -> 28 <= dim L m <= 31.
Proof.
  intros Hm. each_month Hm; destruct L; vm_compute; split; discriminate.
Qed.

Lemma dby_pred y :
  2 <= y ->
  days_before_year y
  = days_before_year (y - 1) + 365 + (if is_leap (y - 1) then 1 else 0).
Proof.
  intros Hy. unfold days_before_year, is_leap. cbv zeta.
  destruct (Z.eqb_spec ((y - 1) mod 4) 0);
    destruct (Z.eqb_spec ((y - 1) mod 100) 0);
    destruct (Z.eqb_spec ((y - 1) mod 400) 0); simpl; lia.
Qed.

Lemma dby_mono y : 1 <= y <= 9999 ->
  0 <= days_before_year y /\
  days_before_year y + 365 + (if is_leap y then 1 else 0) <= MAXORDINAL.
Proof.
  intros Hy. unfold days_before_year, is_leap, MAXORDINAL. cbv zeta.
  destruct (Z.eqb_spec (y mod 4) 0);
    destruct (Z.eqb_spec (y mod 100) 0);
    destruct (Z.eqb_spec (y mod 400) 0); simpl; lia.
Qed.

Lemma toordinal_range t :
  valid t = true -> 1 <= toordinal t <= MAXORDINAL.
Proof.
  intros Hv. apply valid_bounds in Hv as (Hy & Hm & Hd).
  destruct t as [y m d]. unfold toordinal, ymd2ord. simpl in *.
  change (days_in_month y m) with (dim (is_leap y) m) in Hd.
  change (days_before_month y m) with (dbm (is_leap y) m).
  pose proof (doy_bound _ m d Hm Hd) as Hdoy.
  pose proof (dby_mono y Hy) as Hby.
  destruct (is_leap y); lia.
Qed.

Lemma valid_pred_day t :
  valid t = true -> t <> mkdate 1 1 1 ->
  valid (pred_day t) = true /\ toordinal (pred_day t) = toordinal t - 1.
Proof.
  intros Hv Hne. apply valid_bounds in Hv as (Hy & Hm & Hd).
  destruct t as [y m d]. unfold pred_day, toordinal, valid. simpl in *.
  change (days_in_month y m) with (dim (is_leap y) m) in Hd.
  destruct (Z.ltb_spec 1 d) as [Hd1|Hd1]; simpl.
  - change (days_in_month y m) with (dim (is_leap y) m).
    split; [|unfold ymd2ord; lia].
    rewrite !andb_true_iff, !Z.leb_le. lia.
  - assert (d = 1) by lia. subst d.
    destruct (Z.ltb_spec 1 m) as [Hm1|Hm1]; simpl.
    + change (days_in_month y (m - 1)) with (dim (is_leap y) (m - 1)).
      pose proof (dim_range (is_leap y) (m - 1)) as Hr.
      split.
      * rewrite !andb_true_iff, !Z.leb_le. lia.
      * unfold ymd2ord.
        change (days_before_month y ?k) with (dbm (is_leap y) k).
        pose proof (dbm_pred (is_leap y) m). lia.
    + assert (m = 1) by lia. subst m.
      assert (Hy2 : 2 <= y).
      { destruct (Z.eq_dec y 1) as [->|]; [now elim Hne|lia]. }
      split.
      * change (days_in_month (y - 1) 12) with (dim (is_leap (y - 1)) 12).
        pose proof (dim_range (is_leap (y - 1)) 12) as Hr.
        rewrite !andb_true_iff, !Z.leb_le.
        assert (dim (is_leap (y - 1)) 12 = 31) by (destruct (is_leap (y - 1)); reflexivity).
        lia.
      * unfold ymd2ord. rewrite (dby_pred y Hy2).
        change (days_before_month ?y ?k) with (dbm (is_leap y) k).
        destruct (is_leap (y - 1)), (is_leap y); vm_compute dbm; lia.
Qed.

(** Subtracting one day through ordinals lands on the calendar's
    previous day. *)
Lemma add_days_pred t :
  valid t = true -> t <> mkdate 1 1 1 ->
  add_days t (-1) = Some (pred_day t).
Proof.
  intros Hv Hne. destruct (valid_pred_day t Hv Hne) as [Hvp Hop].
  pose proof (toordinal_range _ Hvp) as Hr.
  unfold add_days. cbv zeta.
  replace (toordinal t + -1) with (toordinal (pred_day t)) by lia.
  destruct (Z.ltb_spec 0 (toordinal (pred_day t))); [|lia].
  destruct (Z.leb_spec (toordinal (pred_day t)) MAXORDINAL); [|lia].
  simpl. now rewrite ord2ymd_ymd2ord.
Qed.

(** Going back [k] days through ordinals is [k] steps of [pred_day]. *)
Lemma iter_pred_day k : forall t,
  valid t = true -> Z.of_nat k < toordinal t ->
  valid (Nat.iter k pred_day t) = true
  /\ toordinal (Nat.iter k pred_day t) = toordinal t - Z.of_nat k.
Proof.
  induction k as [|k IH]; intros t Hv Hk.
  - simpl. split; [assumption|lia].
  - destruct (IH t Hv) as [Hvk Hok]; [lia|].
    change (Nat.iter (S k) pred_day t) with (pred_day (Nat.iter k pred_day t)).
    assert (Hne : Nat.iter k pred_day t <> mkdate 1 1 1).
    { intros Heq. rewrite Heq in Hok.
      change (toordinal (mkdate 1 1 1)) with 1 in Hok. lia. }
    destruct (valid_pred_day _ Hvk Hne) as [Hv' Ho'].
    split; [assumption|lia].
Qed.

Lemma add_days_back t k :
  valid t = true -> Z.of_nat k < toordinal t ->
  add_days t (- Z.of_nat k) = Some (Nat.iter k pred_day t).
Proof.
  intros Hv Hk. destruct (iter_pred_day k t Hv Hk) as [Hvk Hok].
  pose proof (toordinal_range _ Hvk) as Hr.
  unfold add_days. cbv zeta.
  replace (toordinal t + - Z.of_nat k)
    with (toordinal (Nat.iter k pred_day t)) by lia.
  destruct (Z.ltb_spec 0 (toordinal (Nat.iter k pred_day t))); [|lia].
  destruct (Z.leb_spec (toordinal (Nat.iter k pred_day t)) MAXORDINAL); [|lia].
  simpl. now rewrite ord2ymd_ymd2ord.
Qed.

End CalendarFacts.

(** ** Dates as text: [strftime], [strptime] and the order on keys *)

Module DateTextFacts.
Import Calendar CalendarAux CalendarFacts.

Lemma ltb_lex a b : Calendar.ltb a b = true <-> lex_lt a b.
Proof.
  unfold Calendar.ltb, lex_lt.
  destruct (Z.ltb_spec (year a) (year b)); destruct (Z.eqb_spec (year a) (year b));
    destruct (Z.ltb_spec (month a) (month b));
    destruct (Z.eqb_spec (month a) (month b));
    destruct (Z.ltb_spec (day a) (day b)); simpl;
    (split; [intros Hc; try discriminate Hc; lia
            |intros Hl; try reflexivity; exfalso; lia]).
Qed.

Lemma date_ltb_trans a b c :
  Calendar.ltb a b = true -> Calendar.ltb b c = true ->
  Calendar.ltb a c = true.
Proof. rewrite !ltb_lex. unfold lex_lt. lia. Qed.

Lemma date_ltb_total a b :
  Calendar.ltb a b = false -> Calendar.ltb b a = false -> a = b.
Proof.
  intros Hab Hba.
  assert (Ha : ~ lex_lt a b) by (rewrite <- ltb_lex; congruence).
  assert (Hb : ~ lex_lt b a) by (rewrite <- ltb_lex; congruence).
  unfold lex_lt in *. destruct a, b. simpl in *.
  f_equal; lia.
Qed.

Lemma digit_char_compare a b :
  0 <= a <= 9 -> 0 <= b <= 9 ->
  Ascii.compare (digit_char a) (digit_char b) = (a ?= b).
Proof.
  intros Ha Hb. unfold Ascii.compare, digit_char.
  rewrite !N_ascii_embedding by lia.
  rewrite Z2N.inj_compare by lia.
  apply Z.add_compare_mono_l.
Qed.

Lemma compare_digit a b s s' :
  0 <= a <= 9 -> 0 <= b <= 9 ->
  String.compare (String (digit_char a) s) (String (digit_char b) s')
  = match a ?= b with Eq => String.compare s s' | c => c end.
Proof.
  intros Ha Hb. simpl. rewrite digit_char_compare by assumption.
  now destruct (a ?= b).
Qed.

Lemma compare_dash s s' :
  String.compare (String "-" s) (String "-" s') = String.compare s s'.
Proof. reflexivity. Qed.

Lemma valid_day_bound t : valid t = true -> 1 <= day t <= 31.
Proof.
  intros Hv. apply valid_bounds in Hv as (Hy & Hm & Hd).
  change (days_in_month (year t) (month t))
    with (dim (is_leap (year t)) (month t)) in Hd.
  pose proof (dim_range (is_leap (year t)) (month t) Hm). lia.
Qed.

(** On valid dates the ISO text is ordered as the dates are. *)
Lemma strftime_compare t1 t2 :
  valid t1 = true -> valid t2 = true ->
  String.compare (strftime t1) (strftime t2) = Lt <-> lex_lt t1 t2.
Proof.
  intros Hv1 Hv2.
  pose proof (valid_day_bound _ Hv1) as Hd1.
  pose proof (valid_day_bound _ Hv2) as Hd2.
  apply valid_bounds in Hv1 as (Hy1 & Hm1 & _).
  apply valid_bounds in Hv2 as (Hy2 & Hm2 & _).
  destruct t1 as [y1 m1 d1], t2 as [y2 m2 d2].
  unfold strftime, pad4, pad2, lex_lt. cbn [year month day] in *.
  rewrite !compare_digit, !compare_dash by lia.
  rewrite !compare_digit, !compare_dash by lia.
  rewrite !compare_digit by lia.
  change (String.compare "" "") with Eq.
  repeat match goal with
         | |- context [?a ?= ?b] => destruct (Z.compare_spec a b)
         end;
    (split; [intros Hc; try discriminate Hc; lia
            |intros Hl; try reflexivity; exfalso; lia]).
Qed.

Lemma strftime_ltb t1 t2 :
  valid t1 = true -> valid t2 = true ->
  String.ltb (strftime t1) (strftime t2) = Calendar.ltb t1 t2.
Proof.
  intros Hv1 Hv2. pose proof (strftime_compare t1 t2 Hv1 Hv2) as Hc.
  rewrite <- ltb_lex in Hc. unfold String.ltb.
  destruct (String.compare (strftime t1) (strftime t2)) eqn:E;
    destruct (Calendar.ltb t1 t2) eqn:E'; try reflexivity.
  - destruct Hc as [_ Hc]. now specialize (Hc eq_refl).
  - destruct Hc as [Hc _]. now specialize (Hc eq_refl).
  - destruct Hc as [_ Hc]. now specialize (Hc eq_refl).
Qed.

(** A parsed date passed the constructor's range check. *)
Lemma strptime_valid s t : strptime s = Some t -> valid t = true.
Proof.
  unfold strptime.
  destruct (year_field (list_ascii_of_string s)) as [[y r]|]; [|discriminate].
  destruct r as [|c1 r1]; [discriminate|].
  destruct (Ascii.eqb_spec c1 "-"%char) as [->|Hc1].
  - destruct (month_field r1) as [[m r]|]; [|discriminate].
    destruct r as [|c2 r2]; [discriminate|].
    destruct (Ascii.eqb_spec c2 "-"%char) as [->|Hc2].
    + destruct (day_field r2) as [[d r]|]; [|discriminate].
      destruct r; [|discriminate].
      destruct (valid (mkdate y m d)) eqn:Hv; [|discriminate].
      now intros [= <-].
    + destruct c2 as [[] [] [] [] [] [] [] []]; try discriminate.
      now elim Hc2.
  - destruct c1 as [[] [] [] [] [] [] [] []]; try discriminate.
    now elim Hc1.
Qed.

Lemma is_iso_date_spec s :
  is_iso_date s = true ->
  exists t, strptime s = Some t /\ strftime t = s /\ valid t = true.
Proof.
  unfold is_iso_date. destruct (strptime s) as [t|] eqn:Hp; [|discriminate].
  intros He. apply String.eqb_eq in He.
  exists t. repeat split; [assumption|].
  eapply strptime_valid; eassumption.
Qed.

(** On canonical ISO keys the order of the text is the order of the
    dates. *)
Lemma iso_ltb s1 s2 t1 t2 :
  is_iso_date s1 = true -> is_iso_date s2 = true ->
  strptime s1 = Some t1 -> strptime s2 = Some t2 ->
  String.ltb s1 s2 = Calendar.ltb t1 t2.
Proof.
  intros H1 H2 P1 P2.
  apply is_iso_date_spec in H1 as (u1 & Q1 & F1 & V1).
  apply is_iso_date_spec in H2 as (u2 & Q2 & F2 & V2).
  rewrite P1 in Q1. rewrite P2 in Q2.
  injection Q1 as <-. injection Q2 as <-.
  rewrite <- F1, <- F2 at 1. now apply strftime_ltb.
Qed.

End DateTextFacts.

(** ** The scan for the latest stored date *)

Module ScanFacts.
Import Calendar CalendarFacts DateTextFacts.

Lemma str_lt_le m k x :
  String.ltb m k = true -> String.ltb x k = false -> String.ltb m x = true.
Proof.
  intros Hmk Hxk. destruct (String.ltb k x) eqn:Hkx.
  - eapply StrOrder.ltb_trans; eauto.
  - now rewrite (StrOrder.ltb_total _ _ Hxk Hkx).
Qed.

Lemma fold_max_spec r : forall x,
  let m := fold_left (fun m k => if String.ltb m k then k else m) r x in
  In m (x :: r) /\ forall k, In k (x :: r) -> String.ltb m k = false.
Proof.
  induction r as [|k r IH]; intros x; cbn zeta.
  - simpl. split; [now left|]. intros k [<-|[]]. apply StrOrder.ltb_irrefl.
  - simpl fold_left.
    specialize (IH (if String.ltb x k then k else x)). cbn zeta in IH.
    set (m := fold_left _ r _) in *. destruct IH as [Hin Hmax].
    destruct (String.ltb x k) eqn:Hxk.
    + split.
      * destruct Hin as [<-|Hin]; [right; now left|right; now right].
      * intros k' [<-|[<-|Hk']].
        -- destruct (String.ltb m x) eqn:Hmx; [|reflexivity].
           rewrite <- (Hmax k (or_introl eq_refl)).
           symmetry. eapply StrOrder.ltb_trans; eauto.
        -- apply Hmax. now left.
        -- apply Hmax. now right.
    + split.
      * destruct Hin as [<-|Hin]; [now left|right; now right].
      * intros k' [<-|[<-|Hk']].
        -- apply Hmax. now left.
        -- destruct (String.ltb m k) eqn:Hmk; [|reflexivity].
           rewrite <- (Hmax x (or_introl eq_refl)).
           symmetry. eapply str_lt_le; eauto.
        -- apply Hmax. now right.
Qed.

(** [max] returns a key of the list that no key exceeds. *)
Lemma py_max_spec l :
  l <> [] ->
  exists m, py_max l = Some m /\ In m l
            /\ forall k, In k l -> String.ltb m k = false.
Proof.
  destruct l as [|x r]; [congruence|]. intros _.
  eexists. split; [reflexivity|]. apply fold_max_spec.
Qed.

Lemma date_lt_le a b c :
  Calendar.ltb a b = true -> Calendar.ltb c b = false ->
  Calendar.ltb a c = true.
Proof.
  intros Hab Hcb. destruct (Calendar.ltb b c) eqn:Hbc.
  - eapply date_ltb_trans; eauto.
  - now rewrite (date_ltb_total _ _ Hcb Hbc).
Qed.

Section Scan.
Context {V : Type}.
Implicit Types (it : @item V) (its done rest : list (@item V)).

Lemma keys_of_app its its' :
  keys_of (its ++ its') = keys_of its ++ keys_of its'.
Proof. unfold keys_of. apply flat_map_app. Qed.

Lemma keys_of_single it : keys_of [it] = item_keys it.
Proof. unfold keys_of. simpl. apply app_nil_r. Qed.

Lemma scan_item_skip latest it :
  item_keys it = [] -> scan_item latest it = Ok latest.
Proof.
  unfold item_keys, scan_item. destruct (data it) as [series|]; [|reflexivity].
  destruct series; [reflexivity|discriminate].
Qed.

Lemma scan_item_spec latest done it :
  iso_keys (done ++ [it]) -> latest_of latest done ->
  exists latest', scan_item latest it = Ok latest'
                  /\ latest_of latest' (done ++ [it]).
Proof.
  intros Hiso Hinv.
  destruct (item_keys it) as [|k0 ks] eqn:Hk.
  - exists latest. split; [now apply scan_item_skip|].
    unfold latest_of in *. rewrite keys_of_app, keys_of_single, Hk, app_nil_r.
    exact Hinv.
  - unfold scan_item. unfold item_keys in Hk.
    destruct (data it) as [series|] eqn:Hd; [|discriminate].
    destruct series as [|p series]; [discriminate|].
    cbn [PyDict.is_empty]. rewrite Hk.
    destruct (py_max_spec (k0 :: ks)) as (m & -> & Hm & Hmax); [discriminate|].
    assert (Hin_it : forall d, In d (k0 :: ks) -> In d (keys_of (done ++ [it]))).
    { intros d Hin. rewrite keys_of_app, keys_of_single. unfold item_keys.
      rewrite Hd, Hk. apply in_or_app. now right. }
    pose proof (Hiso m (Hin_it m Hm)) as Hmiso.
    destruct (is_iso_date_spec m Hmiso) as (tm & Hpm & _ & _).
    rewrite Hpm.
    assert (Hdate : forall d' t', In d' (k0 :: ks) -> strptime d' = Some t' ->
                                  Calendar.ltb tm t' = false).
    { intros d' t' Hin Hp.
      rewrite <- (iso_ltb m d' tm t' Hmiso (Hiso d' (Hin_it d' Hin)) Hpm Hp).
      now apply Hmax. }
    assert (Hsplit : forall d, In d (keys_of (done ++ [it])) ->
                               In d (keys_of done) \/ In d (k0 :: ks)).
    { intros d Hin. rewrite keys_of_app, keys_of_single in Hin.
      unfold item_keys in Hin. rewrite Hd, Hk in Hin.
      now apply in_app_or in Hin. }
    assert (Hiso_done : forall d, In d (keys_of done) -> is_iso_date d = true).
    { intros d Hin. apply Hiso. rewrite keys_of_app. apply in_or_app. now left. }
    destruct latest as [l|]; simpl in Hinv.
    + destruct Hinv as (dl & Hdl & Hpl & Hsmax & Hdmax).
      pose proof (Hiso_done dl Hdl) as Hliso.
      destruct (Calendar.ltb l tm) eqn:Hltm.
      * eexists. split; [reflexivity|]. simpl.
        exists m. repeat split; [auto|assumption| |].
        -- intros d' Hd'. apply Hsplit in Hd' as [Hd'|Hd']; [|now apply Hmax].
           pose proof (Hiso_done d' Hd') as Hd'iso.
           destruct (is_iso_date_spec d' Hd'iso) as (t' & Hp' & _ & _).
           rewrite (iso_ltb m d' tm t' Hmiso Hd'iso Hpm Hp').
           destruct (Calendar.ltb tm t') eqn:Hc; [|reflexivity].
           rewrite <- (Hdmax d' t' Hd' Hp'). symmetry. eapply date_ltb_trans; eauto.
        -- intros d' t' Hd' Hp'. apply Hsplit in Hd' as [Hd'|Hd']; [|eauto].
           destruct (Calendar.ltb tm t') eqn:Hc; [|reflexivity].
           rewrite <- (Hdmax d' t' Hd' Hp'). symmetry. eapply date_ltb_trans; eauto.
      * eexists. split; [reflexivity|]. simpl.
        exists dl. repeat split;
          [rewrite keys_of_app; apply in_or_app; now left|assumption| |].
        -- intros d' Hd'. apply Hsplit in Hd' as [Hd'|Hd']; [now apply Hsmax|].
           pose proof (Hiso d' (Hin_it d' Hd')) as Hd'iso.
           destruct (is_iso_date_spec d' Hd'iso) as (t' & Hp' & _ & _).
           rewrite (iso_ltb dl d' l t' Hliso Hd'iso Hpl Hp').
           destruct (Calendar.ltb l t') eqn:Hc; [|reflexivity].
           rewrite <- Hltm. symmetry. eapply date_lt_le; eauto.
        -- intros d' t' Hd' Hp'. apply Hsplit in Hd' as [Hd'|Hd']; [eauto|].
           destruct (Calendar.ltb l t') eqn:Hc; [|reflexivity].
           rewrite <- Hltm. symmetry. eapply date_lt_le; eauto.
    + eexists. split; [reflexivity|]. simpl.
      exists m. repeat split; [auto|assumption| |].
      * intros d' Hd'. apply Hsplit in Hd' as [Hd'|Hd']; [|now apply Hmax].
        rewrite Hinv in Hd'. destruct Hd'.
      * intros d' t' Hd' Hp'. apply Hsplit in Hd' as [Hd'|Hd']; [|eauto].
        rewrite Hinv in Hd'. destruct Hd'.
Qed.

Lemma scan_latest_spec rest : forall done latest,
  iso_keys (done ++ rest) -> latest_of latest done ->
  exists latest', scan_latest latest rest = Ok latest'
                  /\ latest_of latest' (done ++ rest).
Proof.
  induction rest as [|it rest IH]; intros done latest Hiso Hinv.
  - exists latest. rewrite app_nil_r. now split.
  - assert (Hiso1 : iso_keys (done ++ [it])).
    { intros d Hd. apply Hiso. rewrite keys_of_app in *.
      apply in_app_or in Hd as [Hd|Hd]; apply in_or_app; [now left|right].
      rewrite keys_of_single in Hd. unfold keys_of. simpl.
      apply in_or_app. now left. }
    destruct (scan_item_spec latest done it Hiso1 Hinv) as (l1 & Hs & Hinv1).
    simpl. rewrite Hs.
    replace (done ++ it :: rest) with ((done ++ [it]) ++ rest)
      by (now rewrite <- app_assoc).
    apply IH; [|assumption]. now rewrite <- app_assoc.
Qed.

(** When no entry holds a date, the scan returns [None] without
    parsing anything. *)
Lemma scan_latest_none its latest :
  keys_of its = [] -> scan_latest latest its = Ok latest.
Proof.
  induction its as [|it its IH]; intros Hk; [reflexivity|].
  unfold keys_of in Hk. simpl in Hk. apply app_eq_nil in Hk as [Hit Hits].
  simpl. rewrite scan_item_skip by assumption. now apply IH.
Qed.

Lemma has_entries_keys (existing : @document V) :
  has_entries existing = false <-> observed_keys existing = [].
Proof.
  unfold has_entries, observed_keys, keys_of.
  induction (map snd existing) as [|it its IH]; simpl; [tauto|].
  rewrite orb_false_iff, IH. unfold item_keys.
  destruct (data it) as [[|p series]|]; simpl; split;
    try (intros [? ?]); try assumption; try discriminate;
    try (intros Hnil; split; [reflexivity|assumption]).
Qed.

End Scan.
End ScanFacts.

(** * The properties of [merge_data] *)

Section MergeClaims.
Context {V : Type} `{PyOrd V}.
Implicit Types (P F S : PyDict.dict V).

(** C2 (merge union and overwrite).  The merged series has exactly the
    dates of the prior and of the fresh series; at each date it holds
    the fresh value when the fresh series has one and the prior value
    otherwise; and no date occurs twice. *)
Theorem merge_data_union_overwrite P F :
  PyDict.wf P -> PyDict.wf F ->
  (forall d, In d (PyDict.keys (merge_data P F))
             <-> In d (PyDict.keys P) \/ In d (PyDict.keys F))
  /\ (forall d, PyDict.get d (merge_data P F)
                = match PyDict.get d F with
                  | Some v => Some v
                  | None => PyDict.get d P
                  end)
  /\ PyDict.wf (merge_data P F).
Proof.
  intros HP HF. split; [|split].
  - intros d. now apply merge_data_keys.
  - intros d. now apply merge_data_get.
  - now apply merge_data_wf.
Qed.

(** C3, as amended (sort invariant).  When the prior series is not
    empty, the merged series has its dates in strictly ascending
    lexical order, whatever the order of the fresh series; when the
    prior series is empty the result is ascending as soon as the fresh
    series is.  In both cases no date is repeated. *)
Theorem merge_data_ascending P F :
  PyDict.wf P ->
  PyDict.is_empty P = false \/ ascending (PyDict.keys F) ->
  ascending (PyDict.keys (merge_data P F))
  /\ PyDict.wf (merge_data P F).
Proof.
  intros HP Hcase.
  assert (Hasc : ascending (PyDict.keys (merge_data P F))).
  { destruct (PyDict.is_empty P) eqn:HE.
    - destruct Hcase as [Hc|Hc]; [discriminate|].
      now rewrite merge_data_empty.
    - rewrite merge_data_nonempty by assumption.
      apply sorted_keys_ascending, py_sorted_sorted.
      now apply DictFacts.wf_update. }
  split; [assumption|]. now apply ascending_NoDup.
Qed.

(** C7 (merge idempotence).  Merging a series with an exact copy of
    itself gives back the same entries: every date has the value it
    had, the entries are those of the original, none is repeated, and
    a series stored in ascending order is returned unchanged. *)
Theorem merge_data_idempotent S :
  PyDict.wf S ->
  (forall d, PyDict.get d (merge_data S S) = PyDict.get d S)
  /\ Permutation (merge_data S S) S
  /\ PyDict.wf (merge_data S S)
  /\ (ascending (PyDict.keys S) -> merge_data S S = S).
Proof.
  intros HS.
  assert (Hperm : Permutation (merge_data S S) S).
  { destruct (PyDict.is_empty S) eqn:HE.
    - now rewrite merge_data_empty.
    - rewrite merge_data_nonempty by assumption.
      rewrite DictFacts.update_self by assumption.
      apply py_sorted_perm. }
  split; [|split; [|split]].
  - intros d. rewrite merge_data_get by assumption.
    now destruct (PyDict.get d S).
  - exact Hperm.
  - now apply merge_data_wf.
  - intros Hasc. destruct (PyDict.is_empty S) eqn:HE.
    + now rewrite merge_data_empty.
    + rewrite merge_data_nonempty by assumption.
      rewrite DictFacts.update_self by assumption.
      now apply py_sorted_fixed, sorted_keys_ascending.
Qed.

(** C10 (empty prior).  With an empty prior series [merge_data]
    returns the fresh series exactly as given: same entries, same
    order, nothing sorted. *)
Theorem merge_data_empty_prior F :
  merge_data [] F = F
  /\ PyDict.keys (merge_data [] F) = PyDict.keys F.
Proof. split; reflexivity. Qed.

End MergeClaims.

Lemma merge_data_union_overwrite_witness :
  PyDict.wf prior_sample /\ PyDict.wf fresh_unsorted
  /\ PyDict.get "2023-01-01" (merge_data prior_sample fresh_unsorted) = Some 101
  /\ PyDict.get "2023-01-03" (merge_data prior_sample fresh_unsorted) = Some 90.
Proof.
  assert (HP : PyDict.wf prior_sample) by (apply DictFacts.wfb_wf; reflexivity).
  assert (HF : PyDict.wf fresh_unsorted) by (apply DictFacts.wfb_wf; reflexivity).
  destruct (merge_data_union_overwrite prior_sample fresh_unsorted HP HF)
    as (_ & Hget & _).
  split; [exact HP|]. split; [exact HF|]. split.
  - rewrite Hget. reflexivity.
  - rewrite Hget. reflexivity.
Defined.

Lemma merge_data_ascending_witness :
  PyDict.wf prior_sample
  /\ PyDict.is_empty prior_sample = false
  /\ ascending (PyDict.keys (merge_data prior_sample fresh_unsorted)).
Proof.
  assert (HP : PyDict.wf prior_sample) by (apply DictFacts.wfb_wf; reflexivity).
  split; [exact HP|]. split; [reflexivity|].
  apply (merge_data_ascending prior_sample fresh_unsorted HP).
  left. reflexivity.
Defined.

(** C3 as stated fails: with an empty prior series an unsorted fresh
    series comes back unsorted. *)
Lemma merge_data_unsorted_counterexample :
  PyDict.wf (@nil (string * Z)) /\ PyDict.wf fresh_unsorted
  /\ merge_data [] fresh_unsorted
     = [("2023-01-02", 102); ("2023-01-01", 101)]
  /\ ~ ascending (PyDict.keys (merge_data [] fresh_unsorted)).
Proof.
  split; [constructor|].
  split; [apply DictFacts.wfb_wf; reflexivity|].
  split; [reflexivity|].
  intros Hasc. apply ascendingb_ascending in Hasc. discriminate Hasc.
Qed.

Lemma merge_data_idempotent_witness :
  PyDict.wf prior_sample
  /\ Permutation (merge_data prior_sample prior_sample) prior_sample
  /\ PyDict.get "2023-01-03" (merge_data prior_sample prior_sample) = Some 90.
Proof.
  assert (HP : PyDict.wf prior_sample) by (apply DictFacts.wfb_wf; reflexivity).
  destruct (merge_data_idempotent prior_sample HP) as (Hget & Hperm & _ & _).
  split; [exact HP|]. split; [exact Hperm|].
  rewrite Hget. reflexivity.
Defined.

(** * The fetch window *)

Section WindowClaims.
Context {V : Type}.
Implicit Types (E : @env V) (existing : @document V).

Import Calendar.

(** C5 (first run or no prior document).  The fetch starts at
    2020-01-01 on a first run, whatever the existing document holds,
    and also whenever the existing document is empty. *)
Theorem start_date_first_run E existing (is_first_run : bool) :
  start_date E true existing = Ok "2020-01-01"
  /\ start_date E is_first_run [] = Ok "2020-01-01".
Proof.
  split; [reflexivity|].
  unfold start_date. now rewrite orb_true_r.
Qed.

Lemma well_dated_iso existing :
  well_dated existing = true ->
  iso_keys (map snd existing)
  /\ ~ In "0001-01-01" (observed_keys existing).
Proof.
  unfold well_dated, iso_keys, observed_keys. rewrite forallb_forall.
  intros Hall. split.
  - intros d Hd. specialize (Hall d Hd).
    now apply andb_true_iff in Hall as [Hiso _].
  - intros Hd. specialize (Hall _ Hd).
    apply andb_true_iff in Hall as [_ Hne]. discriminate Hne.
Qed.

(** C4 (incremental window).  On a routine run over a document in
    which some instrument has entries, all keyed by canonical ISO
    dates, the fetch starts on the day before the latest stored date:
    some stored key [dmax] is exceeded by no stored key, neither as
    text nor as a date, and the start date is the calendar day that
    precedes it. *)
Theorem start_date_incremental E existing :
  has_entries existing = true ->
  well_dated existing = true ->
  exists dmax tmax,
    In dmax (observed_keys existing)
    /\ strptime dmax = Some tmax
    /\ (forall d, In d (observed_keys existing) -> String.ltb dmax d = false)
    /\ (forall d t, In d (observed_keys existing) -> strptime d = Some t ->
                    Calendar.ltb tmax t = false)
    /\ start_date E false existing = Ok (strftime (pred_day tmax)).
Proof.
  intros Hent Hwd.
  destruct (well_dated_iso existing Hwd) as [Hiso Hfirst].
  assert (Hne : existing <> []) by (intros ->; discriminate Hent).
  destruct (ScanFacts.scan_latest_spec (map snd existing) [] None)
    as (latest & Hscan & Hinv); [exact Hiso|reflexivity|].
  simpl app in Hinv. unfold start_date.
  destruct existing as [|p existing']; [congruence|].
  set (existing := p :: existing') in *.
  cbn [orb PyDict.is_empty existing]. rewrite Hscan.
  destruct latest as [tmax|]; simpl in Hinv.
  - destruct Hinv as (dmax & Hin & Hp & Hsmax & Hdmax).
    exists dmax, tmax. repeat split; try assumption.
    unfold shifted. rewrite CalendarFacts.add_days_pred; [reflexivity| |].
    + eapply DateTextFacts.strptime_valid; eassumption.
    + intros ->. apply Hfirst.
      pose proof (Hiso dmax Hin) as Hd.
      apply DateTextFacts.is_iso_date_spec in Hd as (t & Hp' & Hf & _).
      rewrite Hp in Hp'. injection Hp' as <-. rewrite <- Hf in Hin. exact Hin.
  - exfalso. apply (ScanFacts.has_entries_keys existing) in Hinv.
    congruence.
Qed.

(** C6 (degenerate window).  On a routine run over a non-empty
    document in which no instrument has any entry, the fetch starts
    1825 days before the current date. *)
Theorem start_date_fallback E existing :
  PyDict.is_empty existing = false ->
  has_entries existing = false ->
  valid (now E) = true ->
  1825 < toordinal (now E) ->
  start_date E false existing
  = Ok (strftime (Nat.iter 1825 pred_day (now E)))
  /\ toordinal (Nat.iter 1825 pred_day (now E)) = toordinal (now E) - 1825.
Proof.
  intros Hne Hent Hv Hord. split.
  - unfold start_date. rewrite Hne. cbn [orb].
    rewrite ScanFacts.scan_latest_none
      by (now apply (ScanFacts.has_entries_keys existing)).
    unfold shifted. change (- (365 * 5)) with (- Z.of_nat 1825).
    rewrite CalendarFacts.add_days_back; [reflexivity|assumption|].
    change (Z.of_nat 1825) with 1825. assumption.
  - destruct (CalendarFacts.iter_pred_day 1825 (now E) Hv) as [_ Ho].
    + change (Z.of_nat 1825) with 1825. assumption.
    + rewrite Ho. reflexivity.
Qed.

End WindowClaims.

(** * The orchestrator *)

Section RunFacts.
Context {V : Type} `{PyOrd V}.
Variable self : manager.
Variable E : @env V.
Implicit Types (w : @world V) (market : string).

Ltac run_monad :=
  unfold process_market, load_existing_data, save_to_json,
    upload_to_github, bind, ret, raise, lift, print, write_file, read_file.

Ltac split_matches :=
  repeat (match goal with
          | |- context [match ?x with _ => _ end] =>
              lazymatch x with
              | context [match _ with _ => _ end] => fail
              | _ => destruct x eqn:?
              end
          end; cbv beta iota).

Lemma attempted_app (a b : list (@event V)) :
  attempted (a ++ b) = attempted a ++ attempted b.
Proof.
  induction a as [|e a IH]; simpl; [reflexivity|].
  destruct e; simpl; now rewrite IH.
Qed.

(** One class: a [Processing] line first, and no other such line. *)
Lemma process_market_out market is_first_run w :
  exists evs,
    out (fst (process_market self E market is_first_run w))
    = out w ++ Processing market :: evs
    /\ attempted evs = [].
Proof.
  run_monad. cbv beta. cbn [local out]. split_matches; cbn [fst out];
    rewrite <- ?app_assoc; cbn [app]; eexists; split; reflexivity.
Qed.

Lemma run_one_attempted is_first_run w market :
  attempted (out (run_one self E is_first_run w market))
  = attempted (out w) ++ [market].
Proof.
  unfold run_one.
  destruct (process_market_out market is_first_run w) as (evs & Hout & Hatt).
  destruct (process_market self E market is_first_run w) as [w' [u|e]];
    cbn [fst out] in *; rewrite Hout, ?attempted_app; cbn [attempted];
    rewrite ?attempted_app, Hatt; cbn [attempted]; now rewrite ?app_nil_r.
Qed.

Lemma fold_run_attempted is_first_run markets : forall w,
  attempted (out (fold_left (run_one self E is_first_run) markets w))
  = attempted (out w) ++ markets.
Proof.
  induction markets as [|m markets IH]; intros w; simpl.
  - now rewrite app_nil_r.
  - rewrite IH, run_one_attempted, <- app_assoc. reflexivity.
Qed.

(** What has been printed plays no part in a load. *)
Lemma load_existing_data_out market w evs :
  load_existing_data self E market (mkworld (local w) evs)
  = (mkworld (local (fst (load_existing_data self E market w))) evs,
     snd (load_existing_data self E market w)).
Proof.
  unfold load_existing_data, bind, ret, raise, read_file, write_file.
  cbv beta. cbn [local out].
  destruct (local w market) as [[doc|]|]; [reflexivity|reflexivity|].
  destruct (truthy (github_repo self) && truthy (github_token self));
    [destruct (remote_get E market) as [doc|];
     [destruct (write_ok E market)|]|]; reflexivity.
Qed.

Lemma load_existing_data_frame market w :
  (forall m, m <> market ->
             local (fst (load_existing_data self E market w)) m = local w m)
  /\ (local w market <> None ->
      forall m, local (fst (load_existing_data self E market w)) m = local w m).
Proof.
  unfold load_existing_data, bind, ret, raise, read_file, write_file.
  cbv beta.
  destruct (local w market) as [[doc|]|]; cbn [fst local];
    [split; reflexivity|split; reflexivity|].
  split; [|congruence].
  intros m Hm. apply String.eqb_neq in Hm.
  destruct (truthy (github_repo self) && truthy (github_token self));
    [destruct (remote_get E market) as [doc|];
     [destruct (write_ok E market)|]|]; cbn [fst local]; rewrite ?Hm;
    reflexivity.
Qed.

End RunFacts.

Section RunClaims.
Context {V : Type} `{PyOrd V}.
Variable self : manager.
Variable E : @env V.
Implicit Types (w : @world V) (market : string).

(** C9 (failure isolation).  A run begins the processing of every
    configured class, in the configured order, whatever happens inside
    each of them; and when processing a class raises, [run] reports
    the failure and carries on with the classes that follow. *)
Theorem run_attempts_every_class (is_first_run : bool) w :
  attempted (out (run self E is_first_run w))
  = attempted (out w)
    ++ ["Equity_Index"; "US_Stocks"; "TW_Stocks"; "US_Rates"; "FX";
        "Commodity"]
  /\ (forall pre market post w' e,
        PyDict.keys market_data = pre ++ market :: post ->
        process_market self E market is_first_run
          (fold_left (run_one self E is_first_run) pre w) = (w', Raise e) ->
        run self E is_first_run w
        = fold_left (run_one self E is_first_run) post
            (mkworld (local w') (out w' ++ [Failed market e]))).
Proof.
  split.
  - unfold run. now rewrite fold_run_attempted.
  - intros pre market post w' e Hkeys Hraise.
    unfold run. rewrite Hkeys, fold_left_app. cbn [fold_left].
    unfold run_one at 2. now rewrite Hraise.
Qed.

(** C8, as amended (empty fetch).  When the fetch that a run performs
    for a class, from the start date the run has computed, returns no
    instrument, the persistence step does nothing: no document is saved
    or uploaded, the files of the other classes are untouched, and a
    local file that existed before the run is left as it was.  The only
    local write such a run can make is the one of the load step, which
    stores a remotely fetched document when no local file existed. *)
Theorem empty_fetch_no_save market (is_first_run : bool) w :
  (forall existing start,
      snd (load_existing_data self E market w) = Ok existing ->
      start_date E is_first_run existing = Ok start ->
      fetch_new_data E market start = Ok []) ->
  let w' := fst (process_market self E market is_first_run w) in
  (exists evs, out w' = out w ++ evs /\ forallb quiet evs = true)
  /\ (forall m, local w' m
                = local (fst (load_existing_data self E market w)) m)
  /\ (forall m, m <> market -> local w' m = local w m)
  /\ (local w market <> None -> forall m, local w' m = local w m).
Proof.
  intros Hfetch. cbv zeta.
  destruct (load_existing_data_frame self E market w) as [Hframe Hkeep].
  assert (Hrun :
            (exists evs,
                out (fst (process_market self E market is_first_run w))
                = out w ++ evs /\ forallb quiet evs = true)
            /\ forall m,
                local (fst (process_market self E market is_first_run w)) m
                = local (fst (load_existing_data self E market w)) m).
  { unfold process_market, bind, print, lift. cbv beta. cbn [local out].
    rewrite (load_existing_data_out self E market w).
    destruct (snd (load_existing_data self E market w))
      as [existing|e] eqn:Hl; cbn [fst local out].
    - destruct (start_date E is_first_run existing) as [start|e] eqn:Hs;
        cbn [fst local out].
      + rewrite (Hfetch existing start eq_refl Hs).
        cbn [merge_all fold_left PyDict.items PyDict.is_empty negb
             fst local out].
        split; [|reflexivity].
        rewrite <- !app_assoc. eexists. split; reflexivity.
      + split; [|reflexivity]. eexists. split; reflexivity.
    - split; [|reflexivity]. eexists. split; reflexivity. }
  destruct Hrun as [Hout Hloc].
  split; [exact Hout|]. split; [exact Hloc|]. split.
  - intros m Hm. rewrite Hloc. now apply Hframe.
  - intros Hsome m. rewrite Hloc. now apply Hkeep.
Qed.

End RunClaims.

(** * Concrete runs *)

(** C1 fails on the code.  The prior document holds MSFT.O and AAPL.O;
    in the next run only the MSFT request succeeds; the document
    written by that run holds MSFT.O alone: the entry of AAPL.O, whose
    request failed, is gone with all its prior data. *)
Lemma failed_fetch_drops_instrument :
  local w_prior "US_Stocks" = Some (Json doc_prior)
  /\ PyDict.mem "AAPL.O" doc_prior = true
  /\ process_market me_offline E_partial "US_Stocks" false w_prior
     = (mkworld (fun m => if String.eqb m "US_Stocks"
                          then Some (Json doc_after)
                          else local w_prior m)
                [Processing "US_Stocks"; Window "US_Stocks" "2023-01-11";
                 Saved "US_Stocks" doc_after; UploadSkipped "US_Stocks"],
        Ok tt)
  /\ PyDict.mem "AAPL.O" doc_after = false.
Proof. repeat split. Qed.

Lemma start_date_incremental_witness :
  has_entries doc_prior = true
  /\ well_dated doc_prior = true
  /\ start_date E_silent false doc_prior = Ok "2023-01-11".
Proof.
  split; [reflexivity|]. split; [reflexivity|].
  destruct (start_date_incremental E_silent doc_prior eq_refl eq_refl)
    as (dmax & tmax & Hin & Hp & Hs & _ & Hstart).
  rewrite Hstart.
  pose proof (Hs "2023-01-12") as Hle.
  simpl in Hin, Hle.
  destruct Hin as [<-|[<-|[<-|[<-|[]]]]];
    try (specialize (Hle (or_intror (or_intror (or_intror (or_introl eq_refl)))));
         discriminate Hle).
  injection Hp as <-. reflexivity.
Defined.

Lemma start_date_fallback_witness :
  PyDict.is_empty doc_hollow = false
  /\ has_entries doc_hollow = false
  /\ Calendar.valid (now E_silent) = true
  /\ 1825 < Calendar.toordinal (now E_silent)
  /\ start_date E_silent false doc_hollow = Ok "2018-01-14".
Proof.
  assert (Hord : 1825 < Calendar.toordinal (now E_silent)) by reflexivity.
  split; [reflexivity|]. split; [reflexivity|]. split; [reflexivity|].
  split; [exact Hord|].
  destruct (start_date_fallback E_silent doc_hollow eq_refl eq_refl eq_refl Hord)
    as [Hstart _].
  rewrite Hstart. vm_compute. reflexivity.
Defined.

(** C8 as stated fails: no quote arrives for FX, no local file exists,
    the remote store has one; after the run a local FX file exists. *)
Lemma empty_fetch_local_write_counterexample :
  (forall start, fetch_new_data E_cache "FX" start = Ok [])
  /\ local w_none "FX" = None
  /\ local (fst (process_market me_online E_cache "FX" false w_none)) "FX"
     = Some (Json doc_remote).
Proof. repeat split. Qed.

Lemma empty_fetch_no_save_witness :
  snd (load_existing_data me_online E_history "US_Stocks" w_prior)
  = Ok doc_prior
  /\ start_date E_history false doc_prior = Ok "2023-01-11"
  /\ fetch_new_data E_history "US_Stocks" "2023-01-11" = Ok []
  /\ fetch_new_data E_history "US_Stocks" "2020-01-01"
     = Ok [("MSFT", [("2020-01-02", 90)])]
  /\ local w_prior "US_Stocks" <> None
  /\ forall m,
       local (fst (process_market me_online E_history "US_Stocks" false
                     w_prior)) m
       = local w_prior m.
Proof.
  assert (Hfetch : forall existing start,
             snd (load_existing_data me_online E_history "US_Stocks" w_prior)
             = Ok existing ->
             start_date E_history false existing = Ok start ->
             fetch_new_data E_history "US_Stocks" start = Ok []).
  { intros existing start Hl Hs.
    change (Ok doc_prior = Ok existing) in Hl. injection Hl as <-.
    change (Ok "2023-01-11" = Ok start) in Hs. injection Hs as <-.
    reflexivity. }
  assert (Hsome : local w_prior "US_Stocks" <> None) by discriminate.
  split; [reflexivity|]. split; [reflexivity|]. split; [reflexivity|].
  split; [reflexivity|]. split; [exact Hsome|].
  destruct (empty_fetch_no_save me_online E_history "US_Stocks" false w_prior
              Hfetch) as (_ & _ & _ & Hkeep).
  exact (Hkeep Hsome).
Defined.

Lemma run_attempts_every_class_witness :
  PyDict.keys market_data
  = ["Equity_Index"] ++ "US_Stocks" :: ["TW_Stocks"; "US_Rates"; "FX"; "Commodity"]
  /\ snd (process_market me_offline E_silent "US_Stocks" false
            (fold_left (run_one me_offline E_silent false) ["Equity_Index"] w_garbage))
     = Raise JSONDecodeError
  /\ attempted (out (run me_offline E_silent false w_garbage))
     = ["Equity_Index"; "US_Stocks"; "TW_Stocks"; "US_Rates"; "FX"; "Commodity"]
  /\ In (Failed "US_Stocks" JSONDecodeError)
        (out (run me_offline E_silent false w_garbage)).
Proof.
  destruct (run_attempts_every_class me_offline E_silent false w_garbage)
    as [Hall Hcont].
  split; [reflexivity|]. split; [reflexivity|]. split; [exact Hall|].
  rewrite (Hcont ["Equity_Index"] "US_Stocks"
             ["TW_Stocks"; "US_Rates"; "FX"; "Commodity"]
             (fst (process_market me_offline E_silent "US_Stocks" false
                     (fold_left (run_one me_offline E_silent false)
                                ["Equity_Index"] w_garbage)))
             JSONDecodeError eq_refl eq_refl).
  vm_compute. tauto.
Defined.

(** * Further properties of the collaborators' wrappers *)

Section LoadFacts.
Context {V : Type}.
Implicit Types (self : manager) (E : @env V) (w : @world V) (market : string).

(** X1 (loading: errors and frame).  [load_existing_data] raises
    exactly when the local file of the class exists and cannot be read
    as a document, and a load that raises changes nothing; a load never
    touches the file of another class, and changes nothing at all when
    the local file of the class already exists. *)
Theorem load_existing_data_outcome self E market w :
  ((exists e, snd (load_existing_data self E market w) = Raise e)
   <-> local w market = Some Garbage)
  /\ (forall e, snd (load_existing_data self E market w) = Raise e ->
                fst (load_existing_data self E market w) = w)
  /\ (forall m, m <> market ->
                local (fst (load_existing_data self E market w)) m = local w m)
  /\ (local w market <> None ->
      fst (load_existing_data self E market w) = w).
Proof.
  unfold load_existing_data, bind, ret, raise, read_file, write_file.
  cbv beta.
  destruct (local w market) as [[doc|]|] eqn:Hl; cbn [fst snd out local].
  - split; [split; [intros [e He]; discriminate|discriminate]|].
    repeat split.
  - split; [split; [reflexivity|intros _; now eexists]|].
    repeat split.
  - destruct (truthy (github_repo self) && truthy (github_token self));
      [destruct (remote_get E market) as [doc|];
       [destruct (write_ok E market)|]|];
      cbn [fst snd out local];
      (split; [split; [intros [e He]; discriminate|discriminate]|]);
      (split; [discriminate|]);
      (split; [|congruence]);
      intros m Hm; try reflexivity.
    destruct (String.eqb_spec m market); [contradiction|reflexivity].
Qed.


Lemma load_existing_data_local_first self self' E E' market w f :
  local w market = Some f ->
  load_existing_data self E market w = load_existing_data self' E' market w.
Proof.
  intros Hl. unfold load_existing_data, bind, read_file. cbv beta.
  rewrite Hl. destruct f; reflexivity.
Qed.

(** X3 (the cache survives the remote store).  When no local file
    exists, the credentials are set, the remote store answers with a
    document and the local write succeeds, the load returns that
    document and stores it; every later load, under any manager and any
    collaborators, returns the same document without changing
    anything. *)
Theorem load_existing_data_caches self self' E E' market w doc :
  local w market = None ->
  truthy (github_repo self) && truthy (github_token self) = true ->
  remote_get E market = Some doc ->
  write_ok E market = true ->
  let w1 := fst (load_existing_data self E market w) in
  snd (load_existing_data self E market w) = Ok doc
  /\ local w1 market = Some (Json doc)
  /\ load_existing_data self' E' market w1 = (w1, Ok doc).
Proof.
  intros Hl Hc Hr Hw. cbv zeta.
  assert (Hload : load_existing_data self E market w
                  = (mkworld (fun m => if String.eqb m market
                                       then Some (Json doc) else local w m)
                             (out w), Ok doc)).
  { unfold load_existing_data, bind, ret, read_file, write_file. cbv beta.
    now rewrite Hl, Hc, Hr, Hw. }
  rewrite Hload. cbn [fst snd local].
  rewrite String.eqb_refl. repeat split.
  unfold load_existing_data, bind, ret, read_file. cbv beta. cbn [local].
  now rewrite String.eqb_refl.
Qed.

End LoadFacts.

(** ** The download loops *)

Section DownloadFacts.
Context {A B : Type}.
Variable q : string -> option (list (string * B)).

Lemma keys_answered t k : In k (PyDict.keys (answered q t)) -> k = t.
Proof.
  unfold answered. destruct (q t) as [[|p d]|]; simpl; intuition.
Qed.

Lemma keys_flat_answered (l : list (string * A)) k :
  In k (PyDict.keys (flat_map (fun tn => answered q (fst tn)) l)) ->
  In k (PyDict.keys l).
Proof.
  unfold PyDict.keys. induction l as [|[t n] l IH]; simpl; [tauto|].
  rewrite map_app, in_app_iff. intros [Hk|Hk].
  - left. symmetry. now apply keys_answered.
  - right. now apply IH.
Qed.

(** A download loop over distinct symbols collects the answers in the
    order of the requests. *)
Lemma download_loop (l : list (string * A)) : forall acc,
  NoDup (PyDict.keys acc ++ PyDict.keys l) ->
  fold_left (download_step q) l acc
  = acc ++ flat_map (fun tn => answered q (fst tn)) l.
Proof.
  induction l as [|[t n] l IH]; intros acc Hnd; simpl.
  - now rewrite app_nil_r.
  - assert (Ht : ~ In t (PyDict.keys acc)).
    { intros Hin. apply NoDup_remove_2 in Hnd. apply Hnd.
      apply in_or_app. now left. }
    assert (Hnd' : NoDup (PyDict.keys acc ++ PyDict.keys l)).
    { now apply NoDup_remove_1 in Hnd. }
    assert (Htl : ~ In t (PyDict.keys acc ++ PyDict.keys l)).
    { now apply NoDup_remove_2 in Hnd. }
    unfold download_step at 2, answered at 1. cbn [fst].
    destruct (q t) as [d|]; [destruct (PyDict.is_empty d)|];
      cbn [app]; try (now apply IH).
    rewrite (DictFacts.set_absent _ _ _ Ht), IH.
    + now rewrite <- app_assoc.
    + unfold PyDict.keys in *. rewrite map_app. cbn [map fst].
      rewrite <- app_assoc. cbn [app].
      eapply Permutation_NoDup; [apply Permutation_middle|].
      now constructor.
Qed.

Lemma keys_flat_filter (l : list (string * A)) :
  PyDict.keys (flat_map (fun tn => answered q (fst tn)) l)
  = filter (nonempty_answer q) (PyDict.keys l).
Proof.
  unfold PyDict.keys. induction l as [|[t n] l IH]; simpl; [reflexivity|].
  rewrite map_app, IH. unfold answered, nonempty_answer.
  destruct (q t) as [[|p d]|]; reflexivity.
Qed.

Lemma In_flat_answered (l : list (string * A)) t d :
  In (t, d) (flat_map (fun tn => answered q (fst tn)) l)
  <-> In t (PyDict.keys l) /\ q t = Some d /\ d <> [].
Proof.
  rewrite in_flat_map. unfold PyDict.keys. rewrite in_map_iff. split.
  - intros ([t' n] & Hin & Ha). unfold answered in Ha. cbn [fst] in Ha.
    destruct (q t') as [[|p d']|] eqn:Hq; simpl in Ha;
      try contradiction.
    destruct Ha as [Ha|[]]. injection Ha as -> <-.
    split; [exists (t, n); now split|]. split; [assumption|discriminate].
  - intros (([t' n] & Ht & Hin) & Hq & Hd). cbn [fst] in Ht. subst t'.
    exists (t, n). split; [assumption|].
    unfold answered. cbn [fst]. rewrite Hq.
    destruct d; [congruence|]. now left.
Qed.

(** The result of a download loop over distinct symbols: exactly the
    non-empty answers, under the symbols asked, in the order asked. *)
Lemma download_loop_spec (l : list (string * A)) :
  PyDict.wf l ->
  let res := fold_left (download_step q) l [] in
  (forall t d, PyDict.get t res = Some d
               <-> In t (PyDict.keys l) /\ q t = Some d /\ d <> [])
  /\ PyDict.keys res = filter (nonempty_answer q) (PyDict.keys l)
  /\ PyDict.wf res.
Proof.
  intros Hl. cbv zeta. rewrite download_loop by exact Hl. cbn [app].
  assert (Hwf : PyDict.wf (flat_map (fun tn => answered q (fst tn)) l)).
  { unfold PyDict.wf. rewrite keys_flat_filter. now apply NoDup_filter. }
  split; [|split; [apply keys_flat_filter|exact Hwf]].
  intros t d. rewrite <- In_flat_answered. split.
  - apply DictFacts.get_Some_In.
  - now apply DictFacts.In_get.
Qed.

End DownloadFacts.

Section DownloadClaims.
Context {V : Type}.
Implicit Types (E : @env V).

(** X4 (quote download).  Over a table of distinct tickers,
    [download_yfinance_data] returns exactly the non-empty answers of
    the quote provider: a ticker is in the result if and only if it is
    in the table and its request returned a non-empty series, which is
    then stored unchanged; a failed or empty request removes only its
    own ticker; the result keeps the order of the table and has no
    duplicate ticker. *)
Theorem download_yfinance_data_answers E (tickers_dict : PyDict.dict string)
        (start : string) :
  PyDict.wf tickers_dict ->
  (forall t d,
      PyDict.get t (download_yfinance_data E tickers_dict start) = Some d
      <-> In t (PyDict.keys tickers_dict)
          /\ yf_download E t start = Some d /\ d <> [])
  /\ PyDict.keys (download_yfinance_data E tickers_dict start)
     = filter (fun t => match yf_download E t start with
                        | Some d => negb (PyDict.is_empty d)
                        | None => false
                        end) (PyDict.keys tickers_dict)
  /\ PyDict.wf (download_yfinance_data E tickers_dict start).
Proof.
  intros Hwf.
  exact (download_loop_spec (fun t => yf_download E t start) tickers_dict Hwf).
Qed.

(** X5 (rate download).  [download_fred_rates] asks for the five
    configured Treasury series and returns exactly those whose CSV gave
    at least one row, unchanged and in the configured order. *)
Theorem download_fred_rates_answers E (start : string) :
  (forall id rows,
      PyDict.get id (download_fred_rates E start) = Some rows
      <-> In id ["DGS3MO"; "DGS2"; "DGS5"; "DGS10"; "DGS30"]
          /\ fred_csv E id start = Some rows /\ rows <> [])
  /\ PyDict.keys (download_fred_rates E start)
     = filter (fun id => match fred_csv E id start with
                         | Some rows => negb (PyDict.is_empty rows)
                         | None => false
                         end) ["DGS3MO"; "DGS2"; "DGS5"; "DGS10"; "DGS30"]
  /\ PyDict.wf (download_fred_rates E start).
Proof.
  apply (download_loop_spec (fun t => fred_csv E t start)
           [("DGS3MO", "UST 3M"); ("DGS2", "UST 2Y"); ("DGS5", "UST 5Y");
            ("DGS10", "UST 10Y"); ("DGS30", "UST 30Y")]).
  apply DictFacts.wfb_wf. reflexivity.
Qed.

End DownloadClaims.

(** ** The static tables *)

Module TableFacts.

Lemma ric_injective t1 t2 :
  In t1 (PyDict.keys ticker_to_ric) -> In t2 (PyDict.keys ticker_to_ric) ->
  to_ric t1 = to_ric t2 -> t1 = t2.
Proof.
  assert (Hall : forallb (fun a => forallb (fun b =>
                   implb (String.eqb (to_ric a) (to_ric b)) (String.eqb a b))
                   (PyDict.keys ticker_to_ric)) (PyDict.keys ticker_to_ric)
                 = true) by (vm_compute; reflexivity).
  intros H1 H2 Heq. rewrite forallb_forall in Hall.
  specialize (Hall t1 H1). rewrite forallb_forall in Hall.
  specialize (Hall t2 H2). rewrite Heq, String.eqb_refl in Hall.
  now apply String.eqb_eq.
Qed.

Lemma configured_facts market td t n :
  In (market, td) market_data -> In (t, n) td ->
  In t (PyDict.keys ticker_to_ric)
  /\ lookup_name t = Some n /\ truthy n = true /\ PyDict.wf td.
Proof.
  assert (Hall : forallb (fun mt => PyDict.wfb (snd mt) && forallb (fun tn =>
                   PyDict.mem (fst tn) ticker_to_ric
                   && match lookup_name (fst tn) with
                      | Some n' => String.eqb n' (snd tn)
                      | None => false
                      end
                   && truthy (snd tn)) (snd mt)) market_data = true)
    by (vm_compute; reflexivity).
  intros Hm Ht. rewrite forallb_forall in Hall.
  specialize (Hall _ Hm). cbn [snd] in Hall.
  apply andb_true_iff in Hall as [Hwf Hall].
  rewrite forallb_forall in Hall. specialize (Hall _ Ht). cbn [fst snd] in Hall.
  apply andb_true_iff in Hall as [Hall Htr].
  apply andb_true_iff in Hall as [Hmem Hname].
  split; [now apply DictFacts.mem_In|].
  split; [|split; [assumption|now apply DictFacts.wfb_wf]].
  destruct (lookup_name t) as [n'|]; [|discriminate].
  apply String.eqb_eq in Hname. now subst.
Qed.

Lemma lookup_name_configured t n :
  lookup_name t = Some n ->
  exists market td, In (market, td) market_data /\ In (t, n) td.
Proof.
  unfold lookup_name.
  destruct (find (fun mt => PyDict.mem t (snd mt)) (PyDict.items market_data))
    as [[market td]|] eqn:Hf; [|discriminate].
  apply find_some in Hf as [Hin _]. cbn [snd]. intros Hg.
  exists market, td. split; [exact Hin|]. now apply DictFacts.get_Some_In.
Qed.

(** A symbol without a canonical code has no configured name either,
    and stands for itself. *)
Lemma unmapped_symbol t :
  PyDict.get t ticker_to_ric = None -> to_ric t = t /\ display_name t = t.
Proof.
  intros Hg. split; [unfold to_ric; now rewrite Hg|].
  unfold display_name. destruct (lookup_name t) as [n|] eqn:Hn; [|reflexivity].
  exfalso. apply lookup_name_configured in Hn as (market & td & Hm & Ht).
  destruct (configured_facts _ _ _ _ Hm Ht) as (Hin & _).
  apply DictFacts.get_None_iff in Hg. contradiction.
Qed.

Lemma configured_symbol market td t n :
  In (market, td) market_data -> PyDict.get t td = Some n ->
  In t (PyDict.keys ticker_to_ric) /\ display_name t = n.
Proof.
  intros Hm Hg. apply DictFacts.get_Some_In in Hg.
  destruct (configured_facts _ _ _ _ Hm Hg) as (Hin & Hname & Htr & _).
  split; [assumption|]. unfold display_name. now rewrite Hname, Htr.
Qed.

End TableFacts.

(** ** [convert_to_ric_format] and the merge loop *)

Section ConvertFacts.
Context {V : Type}.
Implicit Types (md : PyDict.dict (PyDict.dict V)) (t : string).

Lemma convert_fold md :
  convert_to_ric_format md = fold_left ric_step md [].
Proof. reflexivity. Qed.

Lemma ric_fold_other md r : forall acc,
  (forall t, In t (PyDict.keys md) -> to_ric t <> r) ->
  PyDict.get r (fold_left ric_step md acc) = PyDict.get r acc.
Proof.
  induction md as [|[t0 s0] md IH]; intros acc Hno; simpl; [reflexivity|].
  rewrite IH by (intros t Ht; apply Hno; now right).
  unfold ric_step, ric_entry. cbn [fst snd]. rewrite DictFacts.get_set.
  destruct (String.eqb_spec r (to_ric t0)) as [->|]; [|reflexivity].
  exfalso. apply (Hno t0); [now left|reflexivity].
Qed.

(** The entry stored for a ticker whose canonical code no other ticker
    of the same mapping shares. *)
Lemma ric_fold_get md t series : forall acc,
  PyDict.wf md -> In (t, series) md ->
  (forall t', In t' (PyDict.keys md) -> to_ric t' = to_ric t -> t' = t) ->
  PyDict.get (to_ric t) (fold_left ric_step md acc)
  = Some (mkitem (display_name t) (Some series)).
Proof.
  unfold PyDict.wf.
  induction md as [|[t0 s0] md IH]; intros acc Hwf Hin Huniq; [destruct Hin|].
  simpl in Hwf. inversion Hwf as [|? ? Hnotin Hwf']; subst.
  simpl fold_left. destruct Hin as [Heq|Hin].
  - injection Heq as -> ->.
    rewrite ric_fold_other.
    + unfold ric_step, ric_entry. cbn [fst snd].
      now rewrite DictFacts.get_set, String.eqb_refl.
    + intros t' Ht' Heq. apply Hnotin.
      rewrite <- (Huniq t' (or_intror Ht') Heq). exact Ht'.
  - apply IH; [assumption|assumption|].
    intros t' Ht'. apply Huniq. now right.
Qed.

Lemma fold_left_mapped {A B C : Type} (f : C -> B -> C) (h : A -> B)
      (l : list A) : forall a,
  fold_left (fun acc x => f acc (h x)) l a = fold_left f (map h l) a.
Proof. induction l as [|x l IH]; intros a; simpl; [reflexivity|apply IH]. Qed.

(** With pairwise distinct canonical codes nothing is merged away: the
    document has one entry per ticker, in the same order. *)
Lemma convert_entries md :
  NoDup (map to_ric (PyDict.keys md)) ->
  convert_to_ric_format md = map ric_entry md.
Proof.
  intros Hnd. rewrite convert_fold. unfold ric_step.
  rewrite (fold_left_mapped
             (fun acc kv => PyDict.set (fst kv) (snd kv) acc) (@ric_entry V)).
  apply (DictFacts.update_fresh (map ric_entry md) []).
  cbn [app]. unfold PyDict.keys in *. rewrite !map_map in *. exact Hnd.
Qed.

End ConvertFacts.

Section ConvertClaims.
Context {V : Type}.
Implicit Types (md : PyDict.dict (PyDict.dict V)) (t : string).

Lemma NoDup_map_local {A B : Type} (f : A -> B) (l : list A) :
  NoDup l -> (forall a b, In a l -> In b l -> f a = f b -> a = b) ->
  NoDup (map f l).
Proof.
  induction 1 as [|a l Hnotin Hnd IH]; intros Hinj; simpl; constructor.
  - rewrite in_map_iff. intros (b & Heq & Hb). apply Hnotin.
    rewrite (Hinj a b); [assumption|now left|now right|now symmetry].
  - apply IH. intros x y Hx Hy. apply Hinj; now right.
Qed.

Lemma configured_codes_distinct md :
  PyDict.wf md ->
  (forall t, In t (PyDict.keys md) -> In t (PyDict.keys ticker_to_ric)) ->
  NoDup (map to_ric (PyDict.keys md)).
Proof.
  intros Hwf Htab. apply NoDup_map_local; [exact Hwf|].
  intros a b Ha Hb. apply TableFacts.ric_injective; auto.
Qed.

Lemma convert_get_configured md t series market td n :
  PyDict.wf md ->
  (forall t', In t' (PyDict.keys md) -> In t' (PyDict.keys ticker_to_ric)) ->
  PyDict.get t md = Some series ->
  In (market, td) market_data -> PyDict.get t td = Some n ->
  PyDict.get (to_ric t) (convert_to_ric_format md)
  = Some (mkitem n (Some series)).
Proof.
  intros Hwf Htab Hg Hm Hn.
  destruct (TableFacts.configured_symbol _ _ _ _ Hm Hn) as [_ <-].
  rewrite convert_fold. apply ric_fold_get; [exact Hwf| |].
  - now apply DictFacts.get_Some_In.
  - intros t' Ht' Heq. apply TableFacts.ric_injective; auto.
    apply Htab. apply DictFacts.get_Some_In in Hg.
    change t with (fst (t, series)). now apply in_map.
Qed.

Lemma convert_keys_configured md :
  PyDict.wf md ->
  (forall t, In t (PyDict.keys md) -> In t (PyDict.keys ticker_to_ric)) ->
  PyDict.keys (convert_to_ric_format md) = map to_ric (PyDict.keys md).
Proof.
  intros Hwf Htab.
  rewrite convert_entries by (now apply configured_codes_distinct).
  unfold PyDict.keys. now rewrite !map_map.
Qed.

(** X8 (conversion of configured tickers).  For fetched data whose
    tickers are distinct and all listed in the symbol table, the
    persisted document has one entry per ticker, in the same order,
    keyed by the ticker's canonical code; the entry carries the display
    name configured for the ticker and the ticker's series unchanged. *)
Theorem convert_to_ric_format_configured md :
  PyDict.wf md ->
  (forall t, In t (PyDict.keys md) -> In t (PyDict.keys ticker_to_ric)) ->
  PyDict.keys (convert_to_ric_format md) = map to_ric (PyDict.keys md)
  /\ PyDict.wf (convert_to_ric_format md)
  /\ (forall t series market td n,
         PyDict.get t md = Some series ->
         In (market, td) market_data -> PyDict.get t td = Some n ->
         PyDict.get (to_ric t) (convert_to_ric_format md)
         = Some (mkitem n (Some series))).
Proof.
  intros Hwf Htab.
  pose proof (convert_keys_configured md Hwf Htab) as Hkeys.
  split; [exact Hkeys|]. split.
  - unfold PyDict.wf. rewrite Hkeys. now apply configured_codes_distinct.
  - intros t series market td n Hg Hm Hn.
    now apply (convert_get_configured md t series market td n).
Qed.

(** X9 (what is saved is what the next run finds).  Under the same
    conditions, looking up the prior series of a ticker in the
    converted document, the way the merge loop of the next run does,
    gives back exactly the series that was converted. *)
Theorem saved_series_found_again md t series :
  PyDict.wf md ->
  (forall t', In t' (PyDict.keys md) -> In t' (PyDict.keys ticker_to_ric)) ->
  PyDict.get t md = Some series ->
  old_prices_of (convert_to_ric_format md) (to_ric t) = series.
Proof.
  intros Hwf Htab Hg. unfold old_prices_of.
  rewrite convert_fold, (ric_fold_get md t series); [reflexivity|exact Hwf| |].
  - now apply DictFacts.get_Some_In.
  - intros t' Ht' Heq. apply TableFacts.ric_injective; auto.
    apply Htab. apply DictFacts.get_Some_In in Hg.
    change t with (fst (t, series)). now apply in_map.
Qed.

(** X10 (symbols outside the tables).  A ticker without an entry in the
    symbol table is stored under its own symbol, with its own symbol as
    display name and its series unchanged, provided no other ticker of
    the mapping has that symbol as canonical code. *)
Theorem convert_to_ric_format_unmapped md t series :
  PyDict.wf md ->
  PyDict.get t md = Some series ->
  PyDict.get t ticker_to_ric = None ->
  (forall t', In t' (PyDict.keys md) -> to_ric t' = t -> t' = t) ->
  PyDict.get t (convert_to_ric_format md) = Some (mkitem t (Some series)).
Proof.
  intros Hwf Hg Hnone Huniq.
  destruct (TableFacts.unmapped_symbol t Hnone) as [Hric Hname].
  rewrite convert_fold. rewrite <- Hric at 1. rewrite <- Hname at 2.
  apply ric_fold_get; [exact Hwf|now apply DictFacts.get_Some_In|].
  intros t' Ht'. rewrite Hric. now apply Huniq.
Qed.

End ConvertClaims.

Section MergeAllClaims.
Context {V : Type} `{PyOrd V}.
Implicit Types (existing : @document V) (new_data : PyDict.dict (PyDict.dict V)).

Lemma merge_all_map existing new_data :
  PyDict.wf new_data ->
  merge_all existing new_data = map (merged_entry existing) new_data.
Proof.
  intros Hwf. unfold merge_all, PyDict.items.
  change (fold_left
            (fun acc tp => PyDict.set (fst (merged_entry existing tp))
                                      (snd (merged_entry existing tp)) acc)
            new_data []
          = map (merged_entry existing) new_data).
  rewrite (fold_left_mapped
             (fun acc kv => PyDict.set (fst kv) (snd kv) acc)
             (merged_entry existing)).
  apply (DictFacts.update_fresh (map (merged_entry existing) new_data) []).
  cbn [app]. unfold PyDict.keys. rewrite map_map. exact Hwf.
Qed.

Lemma get_map_values {A B : Type} (g : string -> A -> B)
      (l : list (string * A)) k :
  PyDict.get k (map (fun tp => (fst tp, g (fst tp) (snd tp))) l)
  = match PyDict.get k l with Some a => Some (g k a) | None => None end.
Proof.
  induction l as [|[k0 a0] l IH]; simpl; [reflexivity|].
  destruct (String.eqb_spec k k0) as [->|]; [reflexivity|exact IH].
Qed.

(** X7 (the merge loop).  The loop of lines 442 to 448 produces one
    merged series per fetched ticker and nothing else: the result has
    the tickers of the fresh fetch, in the same order, and under each of
    them the merge of the series stored under the ticker's canonical
    code (empty when the document has none) with the fresh series. *)
Theorem merge_all_entries existing new_data :
  PyDict.wf new_data ->
  PyDict.keys (merge_all existing new_data) = PyDict.keys new_data
  /\ (forall t,
         PyDict.get t (merge_all existing new_data)
         = match PyDict.get t new_data with
           | Some fresh =>
               Some (merge_data (old_prices_of existing (to_ric t)) fresh)
           | None => None
           end)
  /\ PyDict.wf (merge_all existing new_data).
Proof.
  intros Hwf. rewrite merge_all_map by exact Hwf.
  assert (Hk : PyDict.keys (map (merged_entry existing) new_data)
               = PyDict.keys new_data).
  { unfold PyDict.keys. rewrite map_map. reflexivity. }
  split; [exact Hk|]. split; [|unfold PyDict.wf; now rewrite Hk].
  intros t.
  exact (get_map_values
           (fun k fresh => merge_data (old_prices_of existing (to_ric k)) fresh)
           new_data t).
Qed.

End MergeAllClaims.

Section FetchClaims.
Context {V : Type}.
Implicit Types (E : @env V).

Lemma tickers_of_market market td :
  PyDict.get market market_data = Some td -> In (market, td) market_data.
Proof. apply DictFacts.get_Some_In. Qed.

Lemma market_table_wf market td :
  PyDict.get market market_data = Some td -> PyDict.wf td.
Proof.
  intros Hg. destruct td as [|[t n] td']; [constructor|].
  apply (TableFacts.configured_facts market _ t n);
    [now apply DictFacts.get_Some_In|now left].
Qed.

(** What a successful fetch returns: distinct tickers of the class's
    own table, each with a non-empty series. *)
Lemma fetch_new_data_ok E (market start : string) new_data :
  fetch_new_data E market start = Ok new_data ->
  PyDict.wf new_data
  /\ exists td,
       PyDict.get market market_data = Some td
       /\ forall t series,
            PyDict.get t new_data = Some series ->
            In t (PyDict.keys td) /\ series <> [].
Proof.
  unfold fetch_new_data.
  destruct (String.eqb_spec market "US_Rates") as [->|Hne].
  - intros [= <-].
    destruct (download_loop_spec (fun t => fred_csv E t start)
                [("DGS3MO", "UST 3M"); ("DGS2", "UST 2Y"); ("DGS5", "UST 5Y");
                 ("DGS10", "UST 10Y"); ("DGS30", "UST 30Y")])
      as (Hget & _ & Hwf); [apply DictFacts.wfb_wf; reflexivity|].
    split; [exact Hwf|]. eexists. split; [reflexivity|].
    intros t series Hg. apply Hget in Hg as (Hin & _ & Hne). now split.
  - destruct (PyDict.get market market_data) as [td|] eqn:Hg; [|discriminate].
    intros [= <-].
    destruct (download_loop_spec (fun t => yf_download E t start) td
                (market_table_wf market td Hg)) as (Hget & _ & Hwf').
    split; [exact Hwf'|]. exists td. split; [reflexivity|].
    intros t series Hs. apply Hget in Hs as (Hin & _ & Hne'). now split.
Qed.

(** X6 (dispatch of the fetch).  [fetch_new_data] fails only with
    [KeyError], and exactly for a class that is not configured; for a
    configured class it returns distinct tickers that all belong to
    that class's table, each with a non-empty series. *)
Theorem fetch_new_data_dispatch E (market start : string) :
  (fetch_new_data E market start = Raise KeyError
   <-> ~ In market (PyDict.keys market_data))
  /\ (forall e, fetch_new_data E market start = Raise e -> e = KeyError)
  /\ (forall new_data,
         fetch_new_data E market start = Ok new_data ->
         PyDict.wf new_data
         /\ exists td,
              PyDict.get market market_data = Some td
              /\ forall t series,
                   PyDict.get t new_data = Some series ->
                   In t (PyDict.keys td) /\ series <> []).
Proof.
  split; [|split; [|apply fetch_new_data_ok]].
  - unfold fetch_new_data.
    destruct (String.eqb_spec market "US_Rates") as [->|Hne].
    + split; [discriminate|]. intros Hn. exfalso. apply Hn. vm_compute. tauto.
    + destruct (PyDict.get market market_data) as [td|] eqn:Hg.
      * split; [discriminate|]. intros Hn. exfalso. apply Hn.
        apply DictFacts.get_Some_In in Hg.
        change market with (fst (market, td)). now apply in_map.
      * split; [intros _|reflexivity]. now apply DictFacts.get_None_iff.
  - unfold fetch_new_data. intros e.
    destruct (String.eqb market "US_Rates"); [discriminate|].
    destruct (PyDict.get market market_data); [discriminate|].
    now intros [= <-].
Qed.

End FetchClaims.

(** ** More on [process_market] and [run] *)

Section ProcessFacts.
Context {V : Type} `{PyOrd V}.
Variable self : manager.
Variable E : @env V.
Implicit Types (w : @world V) (market : string).

Ltac open_process :=
  unfold process_market, load_existing_data, save_to_json,
    upload_to_github, bind, ret, raise, lift, print, write_file, read_file;
  cbv beta.

Ltac innermost :=
  repeat (match goal with
          | |- context [match ?x with _ => _ end] =>
              lazymatch x with
              | context [match _ with _ => _ end] => fail
              | _ => destruct x eqn:?
              end
          end; cbv beta iota).

Lemma process_market_frame market (is_first_run : bool) w m :
  m <> market ->
  local (fst (process_market self E market is_first_run w)) m = local w m.
Proof.
  intros Hm. apply String.eqb_neq in Hm.
  open_process. cbn [local out]. innermost; cbn [fst local];
    rewrite ?Hm; reflexivity.
Qed.

Lemma run_one_frame (is_first_run : bool) w market m :
  m <> market ->
  local (run_one self E is_first_run w market) m = local w m.
Proof.
  intros Hm. unfold run_one.
  pose proof (process_market_frame market is_first_run w m Hm) as Hf.
  destruct (process_market self E market is_first_run w) as [w' [u|e]];
    exact Hf.
Qed.

Lemma fold_run_frame (is_first_run : bool) markets m : forall w,
  ~ In m markets ->
  local (fold_left (run_one self E is_first_run) markets w) m = local w m.
Proof.
  induction markets as [|k markets IH]; intros w Hm; simpl; [reflexivity|].
  rewrite IH by (intros Hin; apply Hm; now right).
  apply run_one_frame. intros ->. apply Hm. now left.
Qed.

(** X11 (one class, one file).  Whatever happens while a class is
    processed, the local files of all other classes are left exactly
    as they were. *)
Theorem process_market_touches_own_file market (is_first_run : bool) w :
  forall m, m <> market ->
            local (fst (process_market self E market is_first_run w)) m
            = local w m.
Proof. intros m. apply process_market_frame. Qed.

(** X12 (a run stays within the configured classes).  A full run never
    creates or changes a local file for a name that is not one of the
    configured classes. *)
Theorem run_touches_configured_files (is_first_run : bool) w :
  forall m, ~ In m (PyDict.keys market_data) ->
            local (run self E is_first_run w) m = local w m.
Proof. intros m. unfold run. apply fold_run_frame. Qed.

Lemma process_market_garbage market (is_first_run : bool) w :
  local w market = Some Garbage ->
  process_market self E market is_first_run w
  = (mkworld (local w) (out w ++ [Processing market]), Raise JSONDecodeError).
Proof.
  intros Hl. open_process. cbn [local out]. now rewrite Hl.
Qed.

Lemma run_one_garbage (is_first_run : bool) w market m :
  local w market = Some Garbage ->
  local (run_one self E is_first_run w m) market = Some Garbage.
Proof.
  intros Hl. destruct (String.eqb_spec market m) as [<-|Hne].
  - unfold run_one. now rewrite process_market_garbage.
  - now rewrite run_one_frame.
Qed.

Lemma run_one_out (is_first_run : bool) w market :
  exists evs, out (run_one self E is_first_run w market) = out w ++ evs.
Proof.
  unfold run_one.
  destruct (process_market_out self E market is_first_run w) as (evs & Ho & _).
  destruct (process_market self E market is_first_run w) as [w' [u|e]];
    cbn [fst out] in *; rewrite Ho.
  - eexists. reflexivity.
  - eexists. rewrite <- app_assoc. reflexivity.
Qed.

Lemma fold_run_out (is_first_run : bool) markets : forall w,
  exists evs,
    out (fold_left (run_one self E is_first_run) markets w) = out w ++ evs.
Proof.
  induction markets as [|k markets IH]; intros w; simpl.
  - exists []. now rewrite app_nil_r.
  - destruct (IH (run_one self E is_first_run w k)) as (evs & Ho).
    destruct (run_one_out is_first_run w k) as (evs0 & Ho0).
    exists (evs0 ++ evs). now rewrite Ho, Ho0, app_assoc.
Qed.

Lemma fold_run_unreadable (is_first_run : bool) markets market : forall w,
  local w market = Some Garbage ->
  local (fold_left (run_one self E is_first_run) markets w) market
  = Some Garbage
  /\ (In market markets ->
      exists e,
        In (Failed market e)
           (out (fold_left (run_one self E is_first_run) markets w))).
Proof.
  induction markets as [|k markets IH]; intros w Hl; simpl.
  - split; [assumption|tauto].
  - pose proof (run_one_garbage is_first_run w market k Hl) as Hl'.
    destruct (IH _ Hl') as [Hkeep Hfail]. split; [exact Hkeep|].
    intros [->|Hin]; [|auto].
    destruct (fold_run_out is_first_run markets
                (run_one self E is_first_run w market)) as (evs & ->).
    exists JSONDecodeError.
    apply in_or_app. left. unfold run_one.
    rewrite process_market_garbage by assumption. cbn [out].
    apply in_or_app. right. now left.
Qed.

(** X13 (an unreadable file is never overwritten).  When the local file
    of a configured class cannot be read as a document, the run reports
    a failure of that class and leaves the file as it was. *)
Theorem run_keeps_unreadable_file (is_first_run : bool) w market :
  In market (PyDict.keys market_data) ->
  local w market = Some Garbage ->
  local (run self E is_first_run w) market = Some Garbage
  /\ exists e, In (Failed market e) (out (run self E is_first_run w)).
Proof.
  intros Hin Hl. unfold run.
  destruct (fold_run_unreadable is_first_run (PyDict.keys market_data)
              market w Hl) as [Hkeep Hfail].
  split; [exact Hkeep|exact (Hfail Hin)].
Qed.

Lemma merge_all_nonempty (existing : @document V) new_data :
  new_data <> [] -> PyDict.is_empty (merge_all existing new_data) = false.
Proof.
  unfold merge_all, PyDict.items.
  destruct new_data as [|[t fresh] rest]; [congruence|]. intros _.
  cbn [fold_left].
  set (acc := PyDict.set _ _ []).
  assert (Hacc : acc <> []) by discriminate.
  clearbody acc. revert acc Hacc.
  induction rest as [|[t' f'] rest IH]; intros acc Hacc; cbn [fold_left].
  - destruct acc; [congruence|reflexivity].
  - apply IH. destruct acc as [|[k0 v0] acc]; [congruence|].
    cbn [fst PyDict.set]. destruct (String.eqb t' k0); discriminate.
Qed.

(** X14 (what a successful run persists).  When the local file of a
    class decodes to a document, the window is computed, the fetch
    returns at least one instrument and the local write succeeds, the
    class completes without error and the file then holds exactly the
    instruments fetched in this run, in fetch order, under their
    canonical codes: each with its configured display name and with the
    merge of its previously stored series and its fresh series. *)
Theorem process_market_persists market (is_first_run : bool) w
        existing start new_data :
  local w market = Some (Json existing) ->
  start_date E is_first_run existing = Ok start ->
  fetch_new_data E market start = Ok new_data ->
  new_data <> [] ->
  write_ok E market = true ->
  snd (process_market self E market is_first_run w) = Ok tt
  /\ exists doc td,
       local (fst (process_market self E market is_first_run w)) market
       = Some (Json doc)
       /\ PyDict.keys doc = map to_ric (PyDict.keys new_data)
       /\ PyDict.get market market_data = Some td
       /\ forall t fresh,
            PyDict.get t new_data = Some fresh ->
            exists n,
              PyDict.get t td = Some n
              /\ PyDict.get (to_ric t) doc
                 = Some (mkitem n
                           (Some (merge_data
                                    (old_prices_of existing (to_ric t))
                                    fresh))).
Proof.
  intros Hl Hs Hf Hne Hw.
  destruct (fetch_new_data_ok E market start new_data Hf)
    as (Hwf & td & Htd & Hfetched).
  assert (Hrun : process_market self E market is_first_run w
                 = (fst (process_market self E market is_first_run w), Ok tt)
                   /\ local (fst (process_market self E market is_first_run w))
                            market
                      = Some (Json (convert_to_ric_format
                                      (merge_all existing new_data)))).
  { open_process. cbn [local out]. rewrite Hl, Hs, Hf.
    rewrite (merge_all_nonempty existing new_data Hne). cbn [negb].
    rewrite Hw.
    destruct (negb (truthy (github_repo self))
              || negb (truthy (github_token self)));
      [|destruct (put_ok E market)];
      cbn [fst snd local]; rewrite String.eqb_refl; split; reflexivity. }
  destruct Hrun as [Hres Hfile]. split; [now rewrite Hres|].
  exists (convert_to_ric_format (merge_all existing new_data)), td.
  assert (Hmwf : PyDict.wf (merge_all existing new_data))
    by (rewrite merge_all_map by exact Hwf; unfold PyDict.wf, PyDict.keys;
        rewrite map_map; exact Hwf).
  assert (Hmkeys : PyDict.keys (merge_all existing new_data)
                   = PyDict.keys new_data)
    by (rewrite merge_all_map by exact Hwf; unfold PyDict.keys;
        now rewrite map_map).
  assert (Htab : forall t, In t (PyDict.keys (merge_all existing new_data)) ->
                           In t (PyDict.keys ticker_to_ric)).
  { intros t Ht. rewrite Hmkeys in Ht.
    destruct (PyDict.get t new_data) as [fresh|] eqn:Hg;
      [|apply DictFacts.get_None_iff in Hg; contradiction].
    destruct (Hfetched t fresh Hg) as [Hin _].
    unfold PyDict.keys in Hin. apply in_map_iff in Hin as ([t' n] & Heq & Hin).
    cbn [fst] in Heq. subst t'.
    apply (TableFacts.configured_facts market td t n);
      [now apply DictFacts.get_Some_In|exact Hin]. }
  split; [exact Hfile|]. split.
  - rewrite convert_keys_configured by assumption. now rewrite Hmkeys.
  - split; [exact Htd|]. intros t fresh Hg.
    destruct (Hfetched t fresh Hg) as [Hin _].
    destruct (PyDict.get t td) as [n|] eqn:Hn;
      [|apply DictFacts.get_None_iff in Hn; contradiction].
    exists n. split; [reflexivity|].
    apply (convert_get_configured _ t _ market td n); try assumption.
    + rewrite merge_all_map by exact Hwf. unfold merged_entry.
      rewrite (get_map_values
                 (fun k f => merge_data (old_prices_of existing (to_ric k)) f)
                 new_data t).
      now rewrite Hg.
    + now apply DictFacts.get_Some_In.
Qed.

End ProcessFacts.

Section CredentialFacts.
Context {V : Type} `{PyOrd V}.
Variable self : manager.
Variable E : @env V.
Implicit Types (w : @world V) (market : string).

Lemma bind_ext {A B : Type} (c c' : @M V A) (k k' : A -> @M V B) w :
  (forall w0, c w0 = c' w0) -> (forall a w0, k a w0 = k' a w0) ->
  bind c k w = bind c' k' w.
Proof.
  intros Hc Hk. unfold bind. rewrite Hc.
  destruct (c' w) as [w' [a|e]]; [apply Hk|reflexivity].
Qed.

Hypothesis no_credentials :
  truthy (github_repo self) && truthy (github_token self) = false.

Lemma load_without_credentials (E' : @env V) market w :
  load_existing_data self E' market w = load_existing_data self E market w.
Proof.
  unfold load_existing_data, bind, read_file. cbv beta.
  now rewrite no_credentials.
Qed.

Lemma upload_without_credentials (E' : @env V) market doc w :
  upload_to_github self E' market doc w
  = (mkworld (local w) (out w ++ [UploadSkipped market]), Ok tt).
Proof.
  unfold upload_to_github. rewrite <- negb_andb, no_credentials. reflexivity.
Qed.

(** X15 (no credentials, no remote store).  When the token or the
    repository name is missing, processing a class does not depend on
    the remote store in any way: whatever the remote store would answer
    to a read or to an upload, the outcome, the files and the printed
    lines are the same. *)
Theorem process_market_without_credentials
        (remote_get' : string -> option (@document V))
        (put_ok' : string -> bool) market (is_first_run : bool) w :
  process_market self
    (mkenv (now E) remote_get' (yf_download E) (fred_csv E) (write_ok E) put_ok')
    market is_first_run w
  = process_market self E market is_first_run w.
Proof.
  unfold process_market.
  apply bind_ext; [reflexivity|intros _ w1].
  apply bind_ext; [apply load_without_credentials|intros existing w2].
  apply bind_ext; [reflexivity|intros start w3].
  apply bind_ext; [reflexivity|intros _ w4].
  apply bind_ext; [reflexivity|intros new_data w5].
  cbv zeta.
  destruct (negb (PyDict.is_empty (merge_all existing new_data)));
    [|reflexivity].
  apply bind_ext; [reflexivity|intros doc w6].
  now rewrite !upload_without_credentials.
Qed.

End CredentialFacts.

(** ** More on [merge_data] *)

Section SortIndependence.
Context {V : Type}.
Variables (H1 H2 : PyOrd V).
Implicit Types (x : string * V) (l P F : list (string * V)).

Lemma insert_sorted_indep x l :
  ~ In (fst x) (PyDict.keys l) ->
  @insert_sorted V H1 x l = @insert_sorted V H2 x l.
Proof.
  induction l as [|y l IH]; simpl; intros Hx; [reflexivity|].
  assert (Hne : fst y <> fst x) by (intros Heq; apply Hx; now left).
  rewrite !(tuple_lt_keys _ _ Hne). rewrite IH by tauto. reflexivity.
Qed.

Lemma py_sorted_indep l :
  PyDict.wf l -> @py_sorted V H1 l = @py_sorted V H2 l.
Proof.
  unfold PyDict.wf. induction l as [|x l IH]; simpl; intros Hnd;
    [reflexivity|].
  inversion Hnd as [|? ? Hnotin Hnd']; subst.
  rewrite IH by assumption. apply insert_sorted_indep.
  intros Hin. apply Hnotin. unfold PyDict.keys in *.
  eapply Permutation_in; [|exact Hin].
  apply Permutation_map, py_sorted_perm.
Qed.

(** X16 (observations are never compared).  The merged series does not
    depend on how two observations compare: the dates of a series being
    distinct, the sort decides every comparison on the dates, so values
    that cannot be ordered cannot disturb the merge. *)
Theorem merge_data_never_compares_values P F :
  PyDict.wf P ->
  @merge_data V H1 P F = @merge_data V H2 P F.
Proof.
  intros HP. unfold merge_data. destruct (PyDict.is_empty P); [reflexivity|].
  cbv zeta. unfold PyDict.items. f_equal.
  apply py_sorted_indep. now apply DictFacts.wf_update.
Qed.

End SortIndependence.

(** ** More on dates *)

Module DateRoundTrip.
Import Calendar CalendarAux CalendarFacts DateTextFacts.

Lemma digit_val_char a : 0 <= a <= 9 -> digit_val (digit_char a) = Some a.
Proof.
  intros Ha. unfold digit_val, digit_char. cbv zeta.
  rewrite N_ascii_embedding by lia. rewrite Z2N.id by lia.
  destruct (Z.leb_spec 48 (48 + a)); [|lia].
  destruct (Z.leb_spec (48 + a) 57); [|lia].
  cbn [andb]. f_equal. lia.
Qed.

Lemma year_field_digits a b c d r :
  0 <= a <= 9 -> 0 <= b <= 9 -> 0 <= c <= 9 -> 0 <= d <= 9 ->
  year_field (digit_char a :: digit_char b :: digit_char c :: digit_char d :: r)
  = Some (1000 * a + 100 * b + 10 * c + d, r).
Proof.
  intros. unfold year_field. now rewrite !digit_val_char.
Qed.

Lemma field2_digits ok x y r :
  0 <= x <= 9 -> 0 <= y <= 9 ->
  field2 ok (digit_char x :: digit_char y :: r)
  = if ok x y then Some (10 * x + y, r) else None.
Proof.
  intros. unfold field2. now rewrite !digit_val_char.
Qed.

Lemma month_ok_digits m : 1 <= m <= 12 -> month_ok (m / 10) (m mod 10) = true.
Proof.
  intros Hm. unfold month_ok.
  destruct (Z.eqb_spec (m / 10) 1); destruct (Z.leb_spec (m mod 10) 2);
    destruct (Z.eqb_spec (m / 10) 0); destruct (Z.leb_spec 1 (m mod 10));
    simpl; try reflexivity; exfalso; lia.
Qed.

Lemma day_ok_digits d : 1 <= d <= 31 -> day_ok (d / 10) (d mod 10) = true.
Proof.
  intros Hd. unfold day_ok.
  destruct (Z.eqb_spec (d / 10) 3); destruct (Z.leb_spec (d mod 10) 1);
    destruct (Z.leb_spec 1 (d / 10)); destruct (Z.leb_spec (d / 10) 2);
    destruct (Z.eqb_spec (d / 10) 0); destruct (Z.leb_spec 1 (d mod 10));
    simpl; try reflexivity; exfalso; lia.
Qed.

Lemma strptime_strftime t : valid t = true -> strptime (strftime t) = Some t.
Proof.
  intros Hv. pose proof (valid_day_bound t Hv) as Hd.
  pose proof Hv as Hv'. apply valid_bounds in Hv' as (Hy & Hm & _).
  destruct t as [y m d]. cbn [year month day] in *.
  unfold strptime, strftime, pad4, pad2. cbn [year month day].
  cbn [list_ascii_of_string].
  rewrite year_field_digits by lia. cbv beta iota.
  unfold month_field. rewrite field2_digits by lia.
  rewrite month_ok_digits by assumption. cbv beta iota.
  unfold day_field. rewrite field2_digits by lia.
  rewrite day_ok_digits by assumption. cbv beta iota.
  replace (1000 * (y / 1000) + 100 * (y / 100 mod 10)
           + 10 * (y mod 100 / 10) + y mod 100 mod 10) with y by lia.
  replace (10 * (m / 10) + m mod 10) with m by lia.
  replace (10 * (d / 10) + d mod 10) with d by lia.
  now rewrite Hv.
Qed.

Lemma ordinal_reached n :
  1 <= n <= MAXORDINAL -> exists t, valid t = true /\ toordinal t = n.
Proof.
  intros Hn.
  destruct (iter_pred_day (Z.to_nat (MAXORDINAL - n)) (mkdate 9999 12 31))
    as [Hv Ho]; [reflexivity| |].
  - rewrite Z2Nat.id by lia.
    change (toordinal (mkdate 9999 12 31)) with MAXORDINAL. lia.
  - eexists. split; [exact Hv|]. rewrite Ho, Z2Nat.id by lia.
    change (toordinal (mkdate 9999 12 31)) with MAXORDINAL. lia.
Qed.

Lemma ord2ymd_valid n :
  1 <= n <= MAXORDINAL ->
  valid (ord2ymd n) = true /\ toordinal (ord2ymd n) = n.
Proof.
  intros Hn. destruct (ordinal_reached n Hn) as (t & Hv & <-).
  rewrite ord2ymd_ymd2ord by assumption. now split.
Qed.

Lemma pred_day_before t :
  valid t = true -> t <> mkdate 1 1 1 -> Calendar.ltb (pred_day t) t = true.
Proof.
  intros Hv Hne. apply ltb_lex. unfold lex_lt, pred_day.
  apply valid_bounds in Hv as (Hy & Hm & Hd).
  destruct t as [y m d]. cbn [year month day] in *.
  destruct (Z.ltb_spec 1 d); cbn [year month day]; [lia|].
  destruct (Z.ltb_spec 1 m); cbn [year month day]; lia.
Qed.

End DateRoundTrip.

Module DateYears.
Import Calendar CalendarAux CalendarFacts DateTextFacts.

(** The ordinals of the days of one year. *)
Lemma toordinal_in_year t :
  valid t = true ->
  days_before_year (year t) < toordinal t
  <= days_before_year (year t) + 365 + (if is_leap (year t) then 1 else 0).
Proof.
  intros Hv. apply valid_bounds in Hv as (Hy & Hm & Hd).
  destruct t as [y m d]. unfold toordinal, ymd2ord. simpl in *.
  change (days_in_month y m) with (dim (is_leap y) m) in Hd.
  change (days_before_month y m) with (dbm (is_leap y) m).
  pose proof (doy_bound _ m d Hm Hd) as Hdoy.
  destruct (is_leap y); lia.
Qed.

Lemma year_end_before y y' :
  1 <= y -> y < y' ->
  days_before_year y + 365 + (if is_leap y then 1 else 0)
  <= days_before_year y'.
Proof.
  intros Hy Hlt. unfold days_before_year, is_leap. cbv zeta.
  destruct (Z.eqb_spec (y mod 4) 0);
    destruct (Z.eqb_spec (y mod 100) 0);
    destruct (Z.eqb_spec (y mod 400) 0); simpl; lia.
Qed.

End DateYears.

Section DateClaims.
Import Calendar CalendarFacts DateTextFacts DateRoundTrip.

(** X17 (printing and parsing dates).  Printing a valid date of the
    year 1000 or later as [%Y-%m-%d] and parsing the text back gives
    the same date, so the printed text is a canonical ISO key; and
    whatever [strptime] accepts is a valid calendar date. *)
Theorem strptime_strftime_round_trip t :
  valid t = true ->
  1000 <= year t ->
  strptime (strftime t) = Some t
  /\ is_iso_date (strftime t) = true
  /\ (forall s t', strptime s = Some t' -> valid t' = true).
Proof.
  intros Hv _. pose proof (strptime_strftime t Hv) as Hp.
  split; [exact Hp|]. split.
  - unfold is_iso_date. rewrite Hp. apply String.eqb_refl.
  - apply strptime_valid.
Qed.

Lemma add_days_spec t n :
  valid t = true ->
  match add_days t n with
  | Some t' => valid t' = true /\ toordinal t' = toordinal t + n
  | None => toordinal t + n < 1 \/ MAXORDINAL < toordinal t + n
  end.
Proof.
  intros Hv. unfold add_days. cbv zeta.
  destruct (Z.ltb_spec 0 (toordinal t + n));
    destruct (Z.leb_spec (toordinal t + n) MAXORDINAL); cbn [andb];
    try lia.
  apply ord2ymd_valid. lia.
Qed.

(** X18 (day arithmetic is exact).  Adding a number of days to a valid
    date gives a valid date whose ordinal is the ordinal of the
    original plus that number; it overflows exactly when that ordinal
    would leave the range of representable days. *)
Theorem add_days_exact t n :
  valid t = true ->
  match add_days t n with
  | Some t' => valid t' = true /\ toordinal t' = toordinal t + n
  | None => toordinal t + n < 1 \/ MAXORDINAL < toordinal t + n
  end.
Proof.
  apply add_days_spec.
Qed.

(** X22 (the textual maximum is the latest date).  In a non-empty list
    of canonical ISO keys, [max] returns a key whose date no other key
    of the list exceeds: comparing the keys as text and comparing them
    as dates agree. *)
Theorem py_max_latest (ks : list string) :
  ks <> [] ->
  (forall k, In k ks -> is_iso_date k = true) ->
  exists k t,
    py_max ks = Some k /\ In k ks /\ strptime k = Some t
    /\ forall k' t', In k' ks -> strptime k' = Some t' ->
                     Calendar.ltb t t' = false.
Proof.
  intros Hne Hiso.
  destruct (ScanFacts.py_max_spec ks Hne) as (k & Hmax & Hin & Hle).
  destruct (is_iso_date_spec k (Hiso k Hin)) as (t & Hp & _ & _).
  exists k, t. repeat split; try assumption.
  intros k' t' Hin' Hp'.
  rewrite <- (iso_ltb k k' t t' (Hiso k Hin) (Hiso k' Hin') Hp Hp').
  now apply Hle.
Qed.

End DateClaims.

Section WindowFacts.
Context {V : Type}.
Implicit Types (E : @env V) (existing : @document V)
         (its : list (@item V)).
Import Calendar CalendarFacts DateTextFacts DateRoundTrip DateYears.

Lemma scan_item_valid latest (it : @item V) latest' :
  (forall t, latest = Some t -> valid t = true) ->
  scan_item latest it = Ok latest' ->
  forall t, latest' = Some t -> valid t = true.
Proof.
  intros Hl. unfold scan_item.
  destruct (data it) as [series|]; [|intros [= <-]; exact Hl].
  destruct (PyDict.is_empty series); [intros [= <-]; exact Hl|].
  destruct (py_max (PyDict.keys series)) as [k|]; [|discriminate].
  destruct (strptime k) as [tk|] eqn:Hp; [|discriminate].
  apply strptime_valid in Hp.
  destruct latest as [l|].
  - destruct (Calendar.ltb l tk); intros [= <-] t [= <-]; auto.
  - intros [= <-] t [= <-]; auto.
Qed.

Lemma scan_latest_valid its : forall latest latest',
  (forall t, latest = Some t -> valid t = true) ->
  scan_latest latest its = Ok latest' ->
  forall t, latest' = Some t -> valid t = true.
Proof.
  induction its as [|it its IH]; intros latest latest' Hl; simpl.
  - intros [= <-]. exact Hl.
  - destruct (scan_item latest it) as [l1|e] eqn:Hs; [|discriminate].
    apply IH. eapply scan_item_valid; eassumption.
Qed.

(** The date that the scan returns is the date of a stored key. *)
Lemma scan_item_key latest (it : @item V) latest' (P : date -> Prop) :
  (forall t, latest = Some t -> P t) ->
  (forall d t, In d (item_keys it) -> strptime d = Some t -> P t) ->
  scan_item latest it = Ok latest' ->
  forall t, latest' = Some t -> P t.
Proof.
  intros Hl Hk. unfold scan_item, item_keys in *.
  destruct (data it) as [series|]; [|intros [= <-]; exact Hl].
  destruct (PyDict.is_empty series) eqn:He; [intros [= <-]; exact Hl|].
  assert (Hne : PyDict.keys series <> [])
    by (destruct series; [discriminate|discriminate]).
  destruct (ScanFacts.py_max_spec _ Hne) as (k & Hmax & Hin & _).
  rewrite Hmax.
  destruct (strptime k) as [tk|] eqn:Hp; [|discriminate].
  pose proof (Hk k tk Hin Hp) as Hpk.
  destruct latest as [l|].
  - destruct (Calendar.ltb l tk); intros [= <-] t [= <-]; auto.
  - intros [= <-] t [= <-]; auto.
Qed.

Lemma scan_latest_key its (P : date -> Prop) : forall latest latest',
  (forall t, latest = Some t -> P t) ->
  (forall d t, In d (keys_of its) -> strptime d = Some t -> P t) ->
  scan_latest latest its = Ok latest' ->
  forall t, latest' = Some t -> P t.
Proof.
  induction its as [|it its IH]; intros latest latest' Hl Hk; simpl.
  - intros [= <-]. exact Hl.
  - destruct (scan_item latest it) as [l1|e] eqn:Hs; [|discriminate].
    apply IH.
    + eapply scan_item_key; [exact Hl| |exact Hs].
      intros d t Hin. apply Hk. unfold keys_of. simpl.
      apply in_or_app. now left.
    + intros d t Hin. apply Hk. unfold keys_of. simpl.
      apply in_or_app. now right.
Qed.

(** A shifted date that stays in the years of four digits prints as a
    canonical ISO date. *)
Lemma shifted_iso t n s :
  valid t = true ->
  days_before_year 1000 < toordinal t + n ->
  shifted t n = Ok s ->
  is_iso_date s = true
  /\ exists t', valid t' = true /\ 1000 <= year t' /\ s = strftime t'
                /\ toordinal t' = toordinal t + n.
Proof.
  intros Hv Hord. unfold shifted.
  pose proof (add_days_spec t n Hv) as Hx.
  destruct (add_days t n) as [t'|]; [|discriminate].
  intros [= <-]. destruct Hx as [Hv' Ho]. split.
  - unfold is_iso_date. rewrite strptime_strftime by assumption.
    apply String.eqb_refl.
  - exists t'. split; [exact Hv'|]. split; [|split; [reflexivity|exact Ho]].
    pose proof (toordinal_in_year t' Hv') as Ht'.
    pose proof (valid_bounds t' Hv') as (Hy' & _).
    destruct (Z.le_gt_cases 1000 (year t')) as [|Hlt]; [assumption|].
    pose proof (year_end_before (year t') 1000). lia.
Qed.

(** X19 (the window start is a well-formed date).  When the current
    date is a valid date of the year 1005 or later and every stored
    key that parses as a date lies in the year 1001 or later, a start
    date that is computed at all is the print of a valid date of the
    year 1000 or later, hence a canonical ISO date. *)
Theorem start_date_is_iso E (is_first_run : bool) existing s :
  valid (now E) = true ->
  1005 <= year (now E) ->
  (forall d t, In d (observed_keys existing) -> strptime d = Some t ->
               1001 <= year t) ->
  start_date E is_first_run existing = Ok s ->
  is_iso_date s = true
  /\ exists t, valid t = true /\ 1000 <= year t /\ s = strftime t.
Proof.
  intros Hnow Hyear Hkeys. unfold start_date.
  destruct (is_first_run || PyDict.is_empty existing).
  - intros [= <-]. split; [reflexivity|].
    exists (mkdate 2020 1 1). repeat split. cbn. lia.
  - destruct (scan_latest None (map snd existing)) as [[t|]|e] eqn:Hs;
      [| |discriminate].
    + intros Hsh.
      assert (Hv : valid t = true)
        by (eapply (scan_latest_valid _ None);
            [discriminate|exact Hs|reflexivity]).
      assert (Hy : 1001 <= year t)
        by (eapply (scan_latest_key _ (fun t => 1001 <= year t) None);
            [discriminate|exact Hkeys|exact Hs|reflexivity]).
      pose proof (toordinal_in_year t Hv) as Ht.
      pose proof (year_end_before 1000 (year t)) as Hend.
      change (is_leap 1000) with false in Hend. cbv iota in Hend.
      destruct (shifted_iso t (-1) s Hv) as (Hiso & t' & Hv' & Hy' & Hst & _);
        [lia|exact Hsh|].
      split; [exact Hiso|]. now exists t'.
    + intros Hsh.
      pose proof (toordinal_in_year (now E) Hnow) as Ht.
      assert (Hdby : days_before_year 1005 <= days_before_year (year (now E))).
      { destruct (Z.eq_dec (year (now E)) 1005) as [->|Hne]; [lia|].
        pose proof (year_end_before 1005 (year (now E))).
        destruct (is_leap 1005); lia. }
      change (days_before_year 1005) with 366703 in Hdby.
      destruct (shifted_iso (now E) (- (365 * 5)) s Hnow)
        as (Hiso & t' & Hv' & Hy' & Hst & _);
        [change (days_before_year 1000) with 364877; lia|exact Hsh|].
      split; [exact Hiso|]. now exists t'.
Qed.

Lemma scan_item_raises latest (it : @item V) e :
  scan_item latest it = Raise e ->
  e = ValueError
  /\ exists series k, data it = Some series
                      /\ py_max (PyDict.keys series) = Some k
                      /\ strptime k = None.
Proof.
  unfold scan_item.
  destruct (data it) as [series|]; [|discriminate].
  destruct (PyDict.is_empty series) eqn:He; [discriminate|].
  destruct (py_max (PyDict.keys series)) as [k|] eqn:Hm.
  - destruct (strptime k) as [tk|] eqn:Hp.
    + destruct latest as [l|]; [destruct (Calendar.ltb l tk)|]; discriminate.
    + intros [= <-]. split; [reflexivity|]. now exists series, k.
  - destruct series; discriminate.
Qed.

Lemma scan_item_bad latest (it : @item V) series k :
  data it = Some series -> py_max (PyDict.keys series) = Some k ->
  strptime k = None -> scan_item latest it = Raise ValueError.
Proof.
  intros Hd Hm Hp. unfold scan_item. rewrite Hd.
  destruct series; [discriminate|]. cbn [PyDict.is_empty].
  now rewrite Hm, Hp.
Qed.

Lemma scan_latest_raises its : forall latest,
  (exists e, scan_latest latest its = Raise e)
  <-> exists it series k,
       In it its /\ data it = Some series
       /\ py_max (PyDict.keys series) = Some k /\ strptime k = None.
Proof.
  induction its as [|it its IH]; intros latest; simpl.
  - split; [intros [e He]; discriminate|intros (? & ? & ? & [] & _)].
  - destruct (scan_item latest it) as [l1|e] eqn:Hs.
    + rewrite IH. split.
      * intros (it' & series & k & Hin & Hrest).
        exists it', series, k. split; [now right|exact Hrest].
      * intros (it' & series & k & [<-|Hin] & Hd & Hm & Hp).
        -- rewrite (scan_item_bad latest it series k Hd Hm Hp) in Hs.
           discriminate.
        -- now exists it', series, k.
    + split; [intros _|intros _; now exists e].
      destruct (scan_item_raises latest it e Hs)
        as (_ & series & k & Hd & Hm & Hp).
      exists it, series, k. split; [now left|now split].
Qed.

Lemma scan_latest_error its : forall latest e,
  scan_latest latest its = Raise e -> e = ValueError.
Proof.
  induction its as [|it its IH]; intros latest e; simpl; [discriminate|].
  destruct (scan_item latest it) as [l1|e'] eqn:Hs.
  - apply IH.
  - intros [= <-]. now apply scan_item_raises in Hs.
Qed.

(** X20 (when the window cannot be computed).  On a routine run,
    [ValueError] is raised exactly when some instrument's textually
    greatest date key does not parse as a date, whatever the other
    instruments hold; a first run never parses a key and never fails. *)
Theorem start_date_value_error E existing :
  (start_date E false existing = Raise ValueError
   <-> exists it series k,
         In it (map snd existing) /\ data it = Some series
         /\ py_max (PyDict.keys series) = Some k /\ strptime k = None)
  /\ (forall e, start_date E true existing <> Raise e).
Proof.
  split; [|discriminate].
  rewrite <- (scan_latest_raises (map snd existing) None).
  unfold start_date. cbn [orb].
  destruct existing as [|p existing'].
  - cbn [PyDict.is_empty map scan_latest]. split; [discriminate|].
    intros [e He]. discriminate.
  - cbn [PyDict.is_empty].
    destruct (scan_latest None (map snd (p :: existing'))) as [[t|]|e] eqn:Hs.
    + split; [|intros [e He]; discriminate].
      unfold shifted. destruct (add_days t (-1)); discriminate.
    + split; [|intros [e He]; discriminate].
      unfold shifted. destruct (add_days (now E) (- (365 * 5))); discriminate.
    + split; [intros _; now exists e|intros _].
      now rewrite (scan_latest_error _ _ _ Hs).
Qed.

(** The latest stored date, as the scan finds it on a well-dated
    document with entries. *)
Lemma scan_latest_found existing :
  has_entries existing = true -> well_dated existing = true ->
  exists dmax tmax,
    scan_latest None (map snd existing) = Ok (Some tmax)
    /\ In dmax (observed_keys existing)
    /\ strptime dmax = Some tmax
    /\ strftime tmax = dmax
    /\ valid tmax = true
    /\ tmax <> mkdate 1 1 1
    /\ (forall d, In d (observed_keys existing) -> String.ltb dmax d = false).
Proof.
  intros Hent Hwd.
  destruct (well_dated_iso existing Hwd) as [Hiso Hfirst].
  destruct (ScanFacts.scan_latest_spec (map snd existing) [] None)
    as (latest & Hscan & Hinv); [exact Hiso|reflexivity|].
  simpl app in Hinv. destruct latest as [tmax|]; simpl in Hinv.
  - destruct Hinv as (dmax & Hin & Hp & Hsmax & _).
    destruct (is_iso_date_spec dmax (Hiso dmax Hin)) as (t & Hp' & Hf & Hv).
    rewrite Hp in Hp'. injection Hp' as <-.
    exists dmax, tmax. repeat split; try assumption.
    intros ->. apply Hfirst. rewrite <- Hf in Hin. exact Hin.
  - exfalso. apply (ScanFacts.has_entries_keys existing) in Hinv. congruence.
Qed.

(** X21 (the window overlaps the stored data).  On a routine run over
    a well-dated document with entries, the start date is the day
    before the latest stored date: the day of the latest stored
    observation is always fetched again.  For a start day in the year
    1000 or later the start date is its canonical print, which parses
    back to that day and is textually smaller than the latest stored
    key. *)
Theorem start_date_overlaps E existing :
  has_entries existing = true ->
  well_dated existing = true ->
  exists dmax tmax tstart start,
    In dmax (observed_keys existing)
    /\ (forall d, In d (observed_keys existing) -> String.ltb dmax d = false)
    /\ strptime dmax = Some tmax
    /\ start_date E false existing = Ok start
    /\ valid tstart = true
    /\ toordinal tstart = toordinal tmax - 1
    /\ Calendar.ltb tstart tmax = true
    /\ (1000 <= year tstart ->
        start = strftime tstart
        /\ strptime start = Some tstart
        /\ String.ltb start dmax = true).
Proof.
  intros Hent Hwd.
  destruct (scan_latest_found existing Hent Hwd)
    as (dmax & tmax & Hscan & Hin & Hp & Hf & Hv & Hne & Hmax).
  destruct (valid_pred_day tmax Hv Hne) as [Hvp Hop].
  exists dmax, tmax, (pred_day tmax), (strftime (pred_day tmax)).
  split; [exact Hin|]. split; [exact Hmax|]. split; [exact Hp|].
  split; [|split; [exact Hvp|split; [exact Hop|split]]].
  - unfold start_date.
    destruct existing as [|p existing']; [discriminate Hent|].
    cbn [orb PyDict.is_empty]. rewrite Hscan.
    unfold shifted. now rewrite add_days_pred.
  - now apply pred_day_before.
  - intros _. split; [reflexivity|]. split.
    + now apply strptime_strftime.
    + rewrite <- Hf. rewrite strftime_ltb by assumption.
      now apply pred_day_before.
Qed.

End WindowFacts.

(** ** The further properties on concrete inputs *)

Lemma load_existing_data_caches_witness :
  local w_none "FX" = None
  /\ truthy (github_repo me_online) && truthy (github_token me_online) = true
  /\ remote_get E_cache "FX" = Some doc_remote
  /\ write_ok E_cache "FX" = true
  /\ snd (load_existing_data me_online E_cache "FX" w_none) = Ok doc_remote
  /\ snd (load_existing_data me_offline E_silent "FX"
            (fst (load_existing_data me_online E_cache "FX" w_none)))
     = Ok doc_remote.
Proof.
  destruct (load_existing_data_caches me_online me_offline E_cache E_silent
              "FX" w_none doc_remote eq_refl eq_refl eq_refl eq_refl)
    as (Hres & _ & Hagain).
  split; [reflexivity|]. split; [reflexivity|]. split; [reflexivity|].
  split; [reflexivity|]. split; [exact Hres|].
  now rewrite Hagain.
Defined.

Lemma download_yfinance_data_answers_witness :
  PyDict.wf us_stocks
  /\ PyDict.keys (download_yfinance_data E_partial us_stocks "2023-01-11")
     = ["MSFT"].
Proof.
  assert (Hwf : PyDict.wf us_stocks) by (apply DictFacts.wfb_wf; reflexivity).
  split; [exact Hwf|].
  destruct (download_yfinance_data_answers E_partial us_stocks "2023-01-11" Hwf)
    as (_ & Hkeys & _).
  rewrite Hkeys. reflexivity.
Defined.

Lemma merge_all_entries_witness :
  PyDict.wf md_sample
  /\ PyDict.keys (merge_all doc_prior md_sample) = ["MSFT"; "AAPL"]
  /\ PyDict.get "AAPL" (merge_all doc_prior md_sample)
     = Some [("2023-01-11", 50); ("2023-01-12", 51); ("2023-01-13", 52)].
Proof.
  assert (Hwf : PyDict.wf md_sample) by (apply DictFacts.wfb_wf; reflexivity).
  split; [exact Hwf|].
  destruct (merge_all_entries doc_prior md_sample Hwf) as (Hkeys & Hget & _).
  split; [rewrite Hkeys; reflexivity|rewrite Hget; reflexivity].
Defined.

Lemma md_sample_in_table :
  forall t, In t (PyDict.keys md_sample) -> In t (PyDict.keys ticker_to_ric).
Proof.
  intros t [<-|[<-|[]]]; apply DictFacts.mem_In; reflexivity.
Qed.

Lemma convert_to_ric_format_configured_witness :
  PyDict.wf md_sample
  /\ (forall t, In t (PyDict.keys md_sample) ->
                In t (PyDict.keys ticker_to_ric))
  /\ PyDict.keys (convert_to_ric_format md_sample) = ["MSFT.O"; "AAPL.O"]
  /\ PyDict.get "AAPL.O" (convert_to_ric_format md_sample)
     = Some (mkitem "Apple" (Some [("2023-01-13", 52)])).
Proof.
  assert (Hwf : PyDict.wf md_sample) by (apply DictFacts.wfb_wf; reflexivity).
  split; [exact Hwf|]. split; [exact md_sample_in_table|].
  destruct (convert_to_ric_format_configured md_sample Hwf md_sample_in_table)
    as (Hkeys & _ & Hget).
  split; [rewrite Hkeys; reflexivity|].
  apply (Hget "AAPL" [("2023-01-13", 52)] "US_Stocks" us_stocks "Apple");
    [reflexivity|vm_compute; tauto|reflexivity].
Defined.

Lemma saved_series_found_again_witness :
  PyDict.wf md_sample
  /\ (forall t, In t (PyDict.keys md_sample) ->
                In t (PyDict.keys ticker_to_ric))
  /\ PyDict.get "MSFT" md_sample = Some [("2023-01-12", 101); ("2023-01-13", 102)]
  /\ old_prices_of (convert_to_ric_format md_sample) "MSFT.O"
     = [("2023-01-12", 101); ("2023-01-13", 102)].
Proof.
  assert (Hwf : PyDict.wf md_sample) by (apply DictFacts.wfb_wf; reflexivity).
  split; [exact Hwf|]. split; [exact md_sample_in_table|].
  split; [reflexivity|].
  exact (saved_series_found_again md_sample "MSFT" _ Hwf md_sample_in_table
           eq_refl).
Defined.

Lemma convert_to_ric_format_unmapped_witness :
  PyDict.wf md_unmapped
  /\ PyDict.get "XYZ" md_unmapped = Some [("2023-01-01", 7)]
  /\ PyDict.get "XYZ" ticker_to_ric = None
  /\ PyDict.get "XYZ" (convert_to_ric_format md_unmapped)
     = Some (mkitem "XYZ" (Some [("2023-01-01", 7)])).
Proof.
  assert (Hwf : PyDict.wf md_unmapped) by (apply DictFacts.wfb_wf; reflexivity).
  split; [exact Hwf|]. split; [reflexivity|]. split; [reflexivity|].
  apply (convert_to_ric_format_unmapped md_unmapped "XYZ" _ Hwf eq_refl eq_refl).
  intros t' [<-|[]] _. reflexivity.
Defined.

Lemma process_market_touches_own_file_witness :
  "FX" <> "US_Stocks"
  /\ local (fst (process_market me_offline E_partial "US_Stocks" false w_prior))
           "FX"
     = local w_prior "FX".
Proof.
  assert (Hne : "FX" <> "US_Stocks") by discriminate.
  split; [exact Hne|].
  exact (process_market_touches_own_file me_offline E_partial "US_Stocks"
           false w_prior "FX" Hne).
Defined.

Lemma run_touches_configured_files_witness :
  ~ In "Crypto" (PyDict.keys market_data)
  /\ local (run me_offline E_partial false w_prior) "Crypto"
     = local w_prior "Crypto".
Proof.
  assert (Hout : ~ In "Crypto" (PyDict.keys market_data)).
  { intros Hin. apply (DictFacts.mem_In (A := PyDict.dict string)) in Hin.
    discriminate Hin. }
  split; [exact Hout|].
  exact (run_touches_configured_files me_offline E_partial false w_prior
           "Crypto" Hout).
Defined.

Lemma run_keeps_unreadable_file_witness :
  In "US_Stocks" (PyDict.keys market_data)
  /\ local w_garbage "US_Stocks" = Some Garbage
  /\ local (run me_offline E_partial false w_garbage) "US_Stocks"
     = Some Garbage
  /\ exists e,
       In (Failed "US_Stocks" e) (out (run me_offline E_partial false w_garbage)).
Proof.
  assert (Hin : In "US_Stocks" (PyDict.keys market_data))
    by (apply DictFacts.mem_In; reflexivity).
  split; [exact Hin|]. split; [reflexivity|].
  exact (run_keeps_unreadable_file me_offline E_partial false w_garbage
           "US_Stocks" Hin eq_refl).
Defined.

Lemma process_market_persists_witness :
  local w_prior "US_Stocks" = Some (Json doc_prior)
  /\ start_date E_partial false doc_prior = Ok "2023-01-11"
  /\ fetch_new_data E_partial "US_Stocks" "2023-01-11"
     = Ok [("MSFT", [("2023-01-12", 101); ("2023-01-13", 102)])]
  /\ write_ok E_partial "US_Stocks" = true
  /\ snd (process_market me_offline E_partial "US_Stocks" false w_prior)
     = Ok tt.
Proof.
  split; [reflexivity|]. split; [reflexivity|]. split; [reflexivity|].
  split; [reflexivity|].
  refine (proj1 (process_market_persists me_offline E_partial "US_Stocks"
                   false w_prior doc_prior "2023-01-11"
                   [("MSFT", [("2023-01-12", 101); ("2023-01-13", 102)])]
                   eq_refl eq_refl eq_refl _ eq_refl)).
  discriminate.
Defined.

Lemma process_market_without_credentials_witness :
  truthy (github_repo me_offline) && truthy (github_token me_offline) = false
  /\ process_market me_offline E_cache "FX" false w_none
     = process_market me_offline E_silent "FX" false w_none.
Proof.
  split; [reflexivity|].
  exact (process_market_without_credentials me_offline E_silent eq_refl
           (remote_get E_cache) (put_ok E_cache) "FX" false w_none).
Defined.

Lemma merge_data_never_compares_values_witness :
  PyDict.wf prior_sample
  /\ @merge_data Z PyOrd_odd prior_sample fresh_unsorted
     = [("2023-01-01", 101); ("2023-01-02", 102); ("2023-01-03", 90)].
Proof.
  assert (HP : PyDict.wf prior_sample) by (apply DictFacts.wfb_wf; reflexivity).
  split; [exact HP|].
  rewrite (merge_data_never_compares_values PyOrd_odd PyOrd_Z
             prior_sample fresh_unsorted HP).
  reflexivity.
Defined.

Lemma strptime_strftime_round_trip_witness :
  Calendar.valid (Calendar.mkdate 2024 2 29) = true
  /\ 1000 <= Calendar.year (Calendar.mkdate 2024 2 29)
  /\ Calendar.strptime (Calendar.strftime (Calendar.mkdate 2024 2 29))
     = Some (Calendar.mkdate 2024 2 29).
Proof.
  assert (Hy : 1000 <= Calendar.year (Calendar.mkdate 2024 2 29))
    by (cbn; lia).
  split; [reflexivity|]. split; [exact Hy|].
  exact (proj1 (strptime_strftime_round_trip (Calendar.mkdate 2024 2 29)
                  eq_refl Hy)).
Defined.

Lemma add_days_exact_witness :
  Calendar.valid (Calendar.mkdate 2024 3 1) = true
  /\ match Calendar.add_days (Calendar.mkdate 2024 3 1) (-1) with
     | Some t' =>
         Calendar.valid t' = true
         /\ Calendar.toordinal t'
            = Calendar.toordinal (Calendar.mkdate 2024 3 1) + -1
     | None => False
     end.
Proof.
  split; [reflexivity|].
  pose proof (add_days_exact (Calendar.mkdate 2024 3 1) (-1) eq_refl) as Hx.
  destruct (Calendar.add_days (Calendar.mkdate 2024 3 1) (-1)) eqn:Ha.
  - exact Hx.
  - discriminate Ha.
Defined.

Lemma py_max_latest_witness :
  ["2023-01-11"; "2023-01-12"; "2022-12-31"] <> []
  /\ (forall k, In k ["2023-01-11"; "2023-01-12"; "2022-12-31"] ->
                Calendar.is_iso_date k = true)
  /\ exists k t,
       py_max ["2023-01-11"; "2023-01-12"; "2022-12-31"] = Some k
       /\ Calendar.strptime k = Some t
       /\ Calendar.ltb t (Calendar.mkdate 2023 1 12) = false.
Proof.
  assert (Hne : ["2023-01-11"; "2023-01-12"; "2022-12-31"] <> [])
    by discriminate.
  assert (Hiso : forall k, In k ["2023-01-11"; "2023-01-12"; "2022-12-31"] ->
                           Calendar.is_iso_date k = true)
    by (intros k [<-|[<-|[<-|[]]]]; reflexivity).
  split; [exact Hne|]. split; [exact Hiso|].
  destruct (py_max_latest _ Hne Hiso) as (k & t & Hmax & _ & Hp & Hle).
  exists k, t. split; [exact Hmax|]. split; [exact Hp|].
  apply (Hle "2023-01-12"); [right; now left|reflexivity].
Defined.

Lemma start_date_is_iso_witness :
  Calendar.valid (now E_silent) = true
  /\ 1005 <= Calendar.year (now E_silent)
  /\ (forall d t, In d (observed_keys doc_prior) ->
                  Calendar.strptime d = Some t -> 1001 <= Calendar.year t)
  /\ start_date E_silent false doc_prior = Ok "2023-01-11"
  /\ Calendar.is_iso_date "2023-01-11" = true.
Proof.
  assert (Hyear : 1005 <= Calendar.year (now E_silent)) by (cbn; lia).
  assert (Hkeys : forall d t, In d (observed_keys doc_prior) ->
                              Calendar.strptime d = Some t ->
                              1001 <= Calendar.year t).
  { intros d t Hin Hp. simpl in Hin.
    destruct Hin as [<-|[<-|[<-|[<-|[]]]]];
      vm_compute in Hp; injection Hp as <-; cbn; lia. }
  split; [reflexivity|]. split; [exact Hyear|]. split; [exact Hkeys|].
  split; [reflexivity|].
  exact (proj1 (start_date_is_iso E_silent false doc_prior "2023-01-11"
                  eq_refl Hyear Hkeys eq_refl)).
Defined.

Lemma start_date_overlaps_witness :
  has_entries doc_prior = true
  /\ well_dated doc_prior = true
  /\ exists dmax tmax tstart start,
       start_date E_silent false doc_prior = Ok start
       /\ In dmax (observed_keys doc_prior)
       /\ Calendar.strptime dmax = Some tmax
       /\ Calendar.ltb tstart tmax = true
       /\ Calendar.toordinal tstart = Calendar.toordinal tmax - 1.
Proof.
  split; [reflexivity|]. split; [reflexivity|].
  destruct (start_date_overlaps E_silent doc_prior eq_refl eq_refl)
    as (dmax & tmax & tstart & start & Hin & _ & Hp & Hs & _ & Ho & Hlt & _).
  exists dmax, tmax, tstart, start. now repeat split.
Defined.

(** ** Saving, uploading and the next run *)

Section SavedLookup.
Context {V : Type}.

(** The series found again under a ticker's canonical code in the
    converted document. *)
Lemma saved_lookup (md : PyDict.dict (PyDict.dict V)) t series :
  PyDict.wf md ->
  (forall t', In t' (PyDict.keys md) -> In t' (PyDict.keys ticker_to_ric)) ->
  PyDict.get t md = Some series ->
  old_prices_of (convert_to_ric_format md) (to_ric t) = series.
Proof.
  intros Hwf Htab Hg. unfold old_prices_of.
  rewrite convert_fold, (ric_fold_get md t series); [reflexivity|exact Hwf| |].
  - now apply DictFacts.get_Some_In.
  - intros t' Ht' Heq. apply TableFacts.ric_injective; auto.
    apply Htab. apply DictFacts.get_Some_In in Hg.
    change t with (fst (t, series)). now apply in_map.
Qed.

End SavedLookup.

Section TwoRuns.
Context {V : Type} `{PyOrd V}.
Implicit Types (self : manager) (E : @env V) (w : @world V) (market : string).

Ltac open_process :=
  unfold process_market, load_existing_data, save_to_json,
    upload_to_github, bind, ret, raise, lift, print, write_file, read_file;
  cbv beta.

Ltac innermost :=
  repeat (match goal with
          | |- context [match ?x with _ => _ end] =>
              lazymatch x with
              | context [match _ with _ => _ end] => fail
              | _ => destruct x eqn:?
              end
          end; cbv beta iota).

(** X23 (what is uploaded is what is on disk).  Whenever processing a
    class prints that a document was uploaded, that same document was
    saved just before in the same run, and it is the content of the
    class's local file when the processing ends. *)
Theorem upload_follows_save self E market (is_first_run : bool) w :
  exists evs,
    out (fst (process_market self E market is_first_run w)) = out w ++ evs
    /\ forall m doc,
         In (Uploaded m doc) evs ->
         m = market
         /\ In (Saved market doc) evs
         /\ local (fst (process_market self E market is_first_run w)) market
            = Some (Json doc).
Proof.
  open_process. cbn [local out]. innermost; cbn [fst local out];
    rewrite <- ?app_assoc; cbn [app]; eexists; (split; [reflexivity|]);
    intros m0 doc0 Hin; cbn [In] in Hin;
    repeat (destruct Hin as [Hin|Hin]; try discriminate Hin);
    try contradiction.
  all: injection Hin as <- <-; rewrite String.eqb_refl;
    split; [reflexivity|]; split; [|reflexivity];
    cbn [In]; tauto.
Qed.

(** The file written by a class whose load, window, fetch and write all
    succeed. *)
Lemma process_market_saves self E market (is_first_run : bool) w
      existing start new_data :
  local w market = Some (Json existing) ->
  start_date E is_first_run existing = Ok start ->
  fetch_new_data E market start = Ok new_data ->
  new_data <> [] ->
  write_ok E market = true ->
  snd (process_market self E market is_first_run w) = Ok tt
  /\ local (fst (process_market self E market is_first_run w)) market
     = Some (Json (convert_to_ric_format (merge_all existing new_data))).
Proof.
  intros Hl Hs Hf Hne Hw.
  open_process. cbn [local out]. rewrite Hl, Hs, Hf.
  rewrite (merge_all_nonempty existing new_data Hne). cbn [negb].
  rewrite Hw.
  destruct (negb (truthy (github_repo self))
            || negb (truthy (github_token self)));
    [|destruct (put_ok E market)];
    cbn [fst snd local]; rewrite String.eqb_refl; split; reflexivity.
Qed.

Lemma fetched_in_table E market start new_data :
  fetch_new_data E market start = Ok new_data ->
  forall existing t,
    In t (PyDict.keys (merge_all existing new_data)) ->
    In t (PyDict.keys ticker_to_ric).
Proof.
  intros Hf existing t Ht.
  destruct (fetch_new_data_ok E market start new_data Hf)
    as (Hwf & td & Htd & Hfetched).
  rewrite merge_all_map in Ht by exact Hwf.
  unfold PyDict.keys in Ht. rewrite map_map in Ht. cbn [merged_entry fst] in Ht.
  change (In t (PyDict.keys new_data)) in Ht.
  destruct (PyDict.get t new_data) as [fresh|] eqn:Hg;
    [|apply DictFacts.get_None_iff in Hg; contradiction].
  destruct (Hfetched t fresh Hg) as [Hin _].
  unfold PyDict.keys in Hin. apply in_map_iff in Hin as ([t' n] & Heq & Hin).
  cbn [fst] in Heq. subst t'.
  apply (TableFacts.configured_facts market td t n);
    [now apply DictFacts.get_Some_In|exact Hin].
Qed.

Lemma merge_all_wf (existing : @document V) new_data :
  PyDict.wf new_data -> PyDict.wf (merge_all existing new_data).
Proof.
  intros Hwf. rewrite merge_all_map by exact Hwf.
  unfold PyDict.wf, PyDict.keys. rewrite map_map. exact Hwf.
Qed.

Lemma merge_all_get (existing : @document V) new_data t fresh :
  PyDict.wf new_data -> PyDict.get t new_data = Some fresh ->
  PyDict.get t (merge_all existing new_data)
  = Some (merge_data (old_prices_of existing (to_ric t)) fresh).
Proof.
  intros Hwf Hg. rewrite merge_all_map by exact Hwf. unfold merged_entry.
  rewrite (get_map_values
             (fun k f => merge_data (old_prices_of existing (to_ric k)) f)
             new_data t).
  now rewrite Hg.
Qed.

(** X24 (two runs in a row lose nothing of what both fetched).  When a
    class is processed successfully twice in a row, an instrument
    fetched in both runs ends up with its stored series merged with the
    first fresh series and then with the second: the second run finds
    exactly what the first one saved. *)
Theorem two_runs_accumulate self E1 E2 market (first1 first2 : bool) w
        existing start1 new1 start2 new2 t fresh1 fresh2 :
  let w1 := fst (process_market self E1 market first1 w) in
  let w2 := fst (process_market self E2 market first2 w1) in
  local w market = Some (Json existing) ->
  start_date E1 first1 existing = Ok start1 ->
  fetch_new_data E1 market start1 = Ok new1 ->
  write_ok E1 market = true ->
  PyDict.get t new1 = Some fresh1 ->
  start_date E2 first2 (convert_to_ric_format (merge_all existing new1))
  = Ok start2 ->
  fetch_new_data E2 market start2 = Ok new2 ->
  write_ok E2 market = true ->
  PyDict.get t new2 = Some fresh2 ->
  exists doc2,
    local w2 market = Some (Json doc2)
    /\ old_prices_of doc2 (to_ric t)
       = merge_data
           (merge_data (old_prices_of existing (to_ric t)) fresh1) fresh2.
Proof.
  intros w1 w2 Hl Hs1 Hf1 Hw1 Hg1 Hs2 Hf2 Hw2 Hg2.
  assert (Hne1 : new1 <> []) by (intros ->; discriminate Hg1).
  assert (Hne2 : new2 <> []) by (intros ->; discriminate Hg2).
  destruct (process_market_saves self E1 market first1 w existing start1 new1
              Hl Hs1 Hf1 Hne1 Hw1) as [_ Hfile1].
  fold w1 in Hfile1.
  destruct (process_market_saves self E2 market first2 w1 _ start2 new2
              Hfile1 Hs2 Hf2 Hne2 Hw2) as [_ Hfile2].
  fold w2 in Hfile2.
  destruct (fetch_new_data_ok E1 market start1 new1 Hf1) as (Hwf1 & _).
  destruct (fetch_new_data_ok E2 market start2 new2 Hf2) as (Hwf2 & _).
  set (doc1 := convert_to_ric_format (merge_all existing new1)) in *.
  exists (convert_to_ric_format (merge_all doc1 new2)).
  split; [exact Hfile2|].
  rewrite (saved_lookup (merge_all doc1 new2) t
             (merge_data (old_prices_of doc1 (to_ric t)) fresh2)).
  - f_equal. unfold doc1.
    apply (saved_lookup (merge_all existing new1) t).
    + now apply merge_all_wf.
    + apply (fetched_in_table E1 market start1 new1 Hf1).
    + now apply merge_all_get.
  - now apply merge_all_wf.
  - apply (fetched_in_table E2 market start2 new2 Hf2).
  - now apply merge_all_get.
Qed.

End TwoRuns.

Lemma two_runs_accumulate_witness :
  local w_prior "US_Stocks" = Some (Json doc_prior)
  /\ exists doc2,
       local (fst (process_market me_offline E_partial "US_Stocks" false
                     (fst (process_market me_offline E_partial "US_Stocks"
                             false w_prior)))) "US_Stocks"
       = Some (Json doc2)
       /\ old_prices_of doc2 "MSFT.O"
          = [("2023-01-09", 98); ("2023-01-10", 100);
             ("2023-01-12", 101); ("2023-01-13", 102)].
Proof.
  split; [reflexivity|].
  destruct (two_runs_accumulate me_offline E_partial E_partial "US_Stocks"
              false false w_prior doc_prior "2023-01-11"
              [("MSFT", [("2023-01-12", 101); ("2023-01-13", 102)])]
              "2023-01-12"
              [("MSFT", [("2023-01-12", 101); ("2023-01-13", 102)])]
              "MSFT" [("2023-01-12", 101); ("2023-01-13", 102)]
              [("2023-01-12", 101); ("2023-01-13", 102)]
              eq_refl eq_refl eq_refl eq_refl eq_refl eq_refl eq_refl
              eq_refl eq_refl) as (doc2 & Hfile & Hold).
  exists doc2. split; [exact Hfile|].
  etransitivity; [exact Hold|reflexivity].
Defined.
